(** * gnn-tutorial: the notebooks' functions, embedded and verified

    The repository is three Jupyter notebooks (b1-transition, b2-graphsage and
    b3-vgae).  Their own code is glue around PyTorch, DGL, PyTorch Geometric,
    igraph and scikit-learn: batching, graph construction, training loops,
    the GAE and VGAE classes and a plotting helper.  This file embeds that
    code function by function, then proves what it does.

    Conventions of the embedding.
    - Python integers are [Z]; vertex ids, list positions and the values of
      a [range] loop variable are [nat].
    - Tensor entries are an abstract scalar type [F] with the operations of
      the interface [Float]; nothing is assumed about them unless a
      statement says so.  Matrices are lists of rows.
    - A notebook function that prints, shows, writes files, draws random
      numbers, updates a model or may raise is a computation [M W A] over
      the notebook's world [W]: it returns the final world together with
      either a value or the exception that ended it.  Objects that Python
      passes by reference ([gnn], [model], [gae], ...) live in the world.
    - A call into an external library is a field of an interface class
      ([Gnn], [Layers], [Networkx], [Sage], [SageLayers], [NxDrawing], [Pyg],
      [Igraph]).  Tensor and training calls are taken by their normal
      return, on well-shaped operands; the calls of [plot] into igraph,
      PIL and matplotlib, the call of [draw_epoch] into networkx and the
      metrics of scikit-learn may fail.  A loss that
      is differentiated is handed to the optimizer as a function of the
      parameters. *)

From Stdlib Require Import ZArith QArith Lia Ascii.
From stdpp Require Import base list strings gmap pretty.

Local Open Scope Z_scope.

(** ** Python values shared by the three notebooks *)

Module Py.

(** The exceptions the embedded code can raise. *)
Inductive Exn : Type :=
| AssertionError (msg : string)
| ZeroDivisionError
| UnboundLocalError (var : string)
| KeyError (key : string)
| IndexError
| AttributeError (attr : string)
| TypeError (msg : string)
| ValueError (msg : string)
| OSError (msg : string)
| LibraryError (what : string).

Inductive result (A : Type) : Type :=
| Ok (a : A)
| Err (e : Exn).
Arguments Ok {A} a.
Arguments Err {A} e.

(** [math.ceil(a / b)] for integers [a] and [b <> 0].  The quotient is a
    float in Python; below 2^53 (any list length) its ceiling is the exact
    one, which is what is written here. *)
Definition ceil_div (a b : Z) : Z := - ((- a) / b).

(** [range(n)]: empty when [n <= 0]. *)
Definition range (n : Z) : list nat := seq 0 (Z.to_nat n).

(** A slice bound [i] of a sequence of length [n], as Python normalises it. *)
Definition slice_bound (n i : Z) : Z :=
  if i <? 0 then Z.max 0 (i + n) else Z.min i n.

(** [l[s:f]] *)
Definition slice {A : Type} (l : list A) (s f : Z) : list A :=
  let n := Z.of_nat (length l) in
  let s' := slice_bound n s in
  let f' := slice_bound n f in
  take (Z.to_nat (f' - s')) (drop (Z.to_nat s') l).

(** [l[i]] for [i >= 0] *)
Definition py_index {A : Type} (l : list A) (i : nat) : result A :=
  match l !! i with
  | Some x => Ok x
  | None => Err IndexError
  end.

(** The scalars held by tensors and returned by [.item()]: Python floats.
    [flit] is a numeric literal, [f_of_Z] the conversion of an integer
    operand, [fltb x y] the test [x < y] and [fleb x y] the test [x <= y]. *)
Class Float (F : Type) : Type := {
  flit : Q -> F;
  f_of_Z : Z -> F;
  fadd : F -> F -> F;
  fsub : F -> F -> F;
  fmul : F -> F -> F;
  fdiv : F -> F -> F;
  fneg : F -> F;
  fexp : F -> F;
  flog : F -> F;
  fsigmoid : F -> F;
  fltb : F -> F -> bool;
  fleb : F -> F -> bool
}.

(** [x / n] with [x] a float and [n] an integer: Python raises on [n = 0]. *)
Definition py_div `{Float F} (x : F) (n : Z) : result F :=
  if n =? 0 then Err ZeroDivisionError else Ok (fdiv x (f_of_Z n)).

(** [len(l)] *)
Definition len {A : Type} (l : list A) : Z := Z.of_nat (length l).

(** [l[-1]] *)
Definition py_last {A : Type} (l : list A) : result A :=
  match last l with
  | Some x => Ok x
  | None => Err IndexError
  end.

(** [l[i]] for any integer [i]: a negative index counts from the end. *)
Definition py_getitem {A : Type} (l : list A) (i : Z) : result A :=
  if 0 <=? i then py_index l (Z.to_nat i)
  else if - len l <=? i then py_index l (Z.to_nat (len l + i))
  else Err IndexError.

(** [for x in l: acc = body(x, acc)] outside any world: the body may raise. *)
Fixpoint for_result {A S : Type} (l : list A) (body : A -> S -> result S) (acc : S)
  : result S :=
  match l with
  | [] => Ok acc
  | x :: l' => match body x acc with
               | Err e => Err e
               | Ok acc' => for_result l' body acc'
               end
  end.

(** [s.split(sep)], [sep] a separator of one character: the pieces of [s]
    between its occurrences, at least one piece. *)
Fixpoint py_split (sep : ascii) (s : string) : list string :=
  match s with
  | EmptyString => [EmptyString]
  | String c s' =>
      if Ascii.eqb c sep then EmptyString :: py_split sep s'
      else match py_split sep s' with
           | piece :: pieces => String c piece :: pieces
           | [] => [String c EmptyString]
           end
  end.

(** [s.replace(old, new)], [old] of one character. *)
Fixpoint py_replace (old : ascii) (new : string) (s : string) : string :=
  match s with
  | EmptyString => EmptyString
  | String c s' =>
      if Ascii.eqb c old then (new +:+ py_replace old new s')%string
      else String c (py_replace old new s')
  end.

(** The characters of a string, in order. *)
Definition chars (s : string) : list ascii := String.list_ascii_of_string s.

End Py.
Import Py.

(** ** The computations of a notebook: state and exceptions *)

Module Run.

Definition M (W A : Type) : Type := W -> W * result A.

Definition ret {W A : Type} (a : A) : M W A := fun w => (w, Ok a).

Definition raise {W A : Type} (e : Exn) : M W A := fun w => (w, Err e).

Definition bind {W A B : Type} (c : M W A) (k : A -> M W B) : M W B :=
  fun w =>
    match c w with
    | (w', Ok a) => k a w'
    | (w', Err e) => (w', Err e)
    end.

Definition lift {W A : Type} (r : result A) : M W A := fun w => (w, r).

Definition gets {W A : Type} (f : W -> A) : M W A := fun w => (w, Ok (f w)).

Definition modify {W : Type} (f : W -> W) : M W unit := fun w => (f w, Ok tt).

(** [for x in l: body(x, acc)], the loop's local variables being [acc]. *)
Fixpoint for_each {W A S : Type} (l : list A) (body : A -> S -> M W S) (acc : S)
  : M W S :=
  match l with
  | [] => ret acc
  | x :: l' => bind (body x acc) (for_each l' body)
  end.

(** [c] relates every world it starts in to the world it ends in, whether
    it returns or raises. *)
Definition keeps {W A : Type} (R : W -> W -> Prop) (c : M W A) : Prop :=
  forall w, R w (c w).1.

End Run.
Import Run.

Declare Scope run_scope.
Delimit Scope run_scope with run.
Notation "x <- y ;; z" := (bind y (fun x => z))
  (at level 20, y at level 99, z at level 200, only parsing) : run_scope.
Notation "' p <- y ;; z" := (bind y (fun p => z))
  (at level 20, p pattern, y at level 99, z at level 200, only parsing) : run_scope.

(** ** Notebook b1-transition *)

Module B1.

(** [get_batches(xs, ys, batch_size=16)] *)
Definition get_batches {A B : Type} (xs : list A) (ys : list B) (batch_size : Z)
  : result (list (list A) * list (list B)) :=
  let num := Z.of_nat (length xs) in
  if batch_size =? 0 then Err ZeroDivisionError else
  let num_batches := ceil_div num batch_size in
  Ok (fold_left
        (fun '(batches_x, batches_y) (i : nat) =>
           let sidx := batch_size * Z.of_nat i in
           let fidx := batch_size * (Z.of_nat i + 1) in
           let fidx := Z.min fidx num in
           (batches_x ++ [slice xs sidx fidx], batches_y ++ [slice ys sidx fidx]))
        (range (num_batches - 1))
        ([], [])).

(** A DGL graph as [dgl.graph((u, v))] builds it: edge [i] goes from
    [edge_src !! i] to [edge_dst !! i], and the vertices are
    [0 .. num_nodes - 1]. *)
Record DGLGraph : Type := {
  num_nodes : nat;
  edge_src : list nat;
  edge_dst : list nat
}.

Definition edges (g : DGLGraph) : list (nat * nat) :=
  zip (edge_src g) (edge_dst g).

(** [dgl.graph((u, v))] without [num_nodes]: the two id arrays must have the
    same length, and the number of vertices is the largest id plus one (none
    for no edge). *)
Definition dgl_graph (u v : list nat) : result DGLGraph :=
  if decide (length u = length v) then
    Ok {| num_nodes := match u ++ v with
                       | [] => 0%nat
                       | ids => S (foldr Nat.max 0%nat ids)
                       end;
          edge_src := u;
          edge_dst := v |}
  else Err (LibraryError "dgl.graph: mismatched id arrays").

(** [edges[:,0]] and [edges[:,1]] of [np.array(rows)], [rows] a list of
    [a, b] pairs.  An empty list gives a one-dimensional array, which the
    two-index subscript refuses. *)
Definition np_columns (rows : list (nat * nat)) : result (list nat * list nat) :=
  match rows with
  | [] => Err IndexError
  | _ => Ok (rows.*1, rows.*2)
  end.

(** [make_stargazer_graph(index)], over the global [stargazer_edges] loaded
    from git_edges.json (graph index in decimal -> list of [a, b] pairs). *)
Definition make_stargazer_graph (stargazer_edges : gmap string (list (nat * nat)))
    (index : Z) : result DGLGraph :=
  match stargazer_edges !! pretty index with
  | None => Err (KeyError (pretty index))
  | Some rows =>
      match np_columns rows with
      | Err e => Err e
      | Ok (src, dst) =>
          let u := src ++ dst in
          let v := dst ++ src in
          dgl_graph u v
      end
  end.

(** [make_webmluser_graph(edges)]: [edges] is the two-column array read by
    [np.loadtxt] (one row per edge, possibly none); its entries are vertex
    ids, which [.astype(int)] returns as integers. *)
Definition make_webmluser_graph (edges : list (nat * nat)) : result DGLGraph :=
  let src := edges.*1 in
  let dst := edges.*2 in
  let u := src ++ dst in
  let v := dst ++ src in
  dgl_graph u v.

(** What the notebook asks of a network and of the libraries around it.
    [Net] is the state of the object bound to [gnn] (its parameters), [Opt]
    the state of the Adam optimizer built over them. *)
Class Gnn (F Net Opt : Type) : Type := {
  dgl_batch : list DGLGraph -> DGLGraph;
  forward : Net -> DGLGraph -> list (list F);          (* gnn(x) *)
  hidden : Net -> DGLGraph -> list (list F);           (* gnn.hidden(x) *)
  one_hot : list Z -> nat -> list (list F);            (* F.one_hot(..).float() *)
  mse_loss : list (list F) -> list (list F) -> F;      (* nn.MSELoss() *)
  adam : Net -> Q -> Opt;                              (* torch.optim.Adam *)
  (* opt.zero_grad(); loss.backward(); opt.step(), the loss being given as
     a function of the parameters it is differentiated in *)
  adam_step : Opt -> Net -> (Net -> F) -> Opt * Net;
  argmax_rows : list (list F) -> list Z;               (* torch.argmax(.., dim=1) *)
  mean_rows : list (list F) -> list F                  (* torch.mean(.., dim=0) *)
}.

(** The two global lists of the notebook: the graphs and their labels. *)
Record Dataset : Type := {
  stargazer_x : list DGLGraph;
  stargazer_y : list Z
}.

(** What a line printed by the notebook says. *)
Inductive Line (F : Type) : Type :=
| EpochLine (epoch_index : nat) (epoch_loss : F).
Arguments EpochLine {F} epoch_index epoch_loss.

(** The object bound to [gnn], which training updates in place, and the
    cell's printed output. *)
Record World (F Net : Type) : Type := {
  net : Net;
  stdout : list (Line F)
}.
Arguments net {F Net} w.
Arguments stdout {F Net} w.

Definition set_net {F Net : Type} (n : Net) (w : World F Net) : World F Net :=
  {| net := n; stdout := stdout w |}.

Definition print {F Net : Type} (l : Line F) : M (World F Net) unit :=
  modify (fun w => {| net := net w; stdout := stdout w ++ [l] |}).

Section Training.
Context {F Net Opt : Type} `{Float F} `{Gnn F Net Opt}.
Local Open Scope run_scope.

(** The body of the batch loop of [train_stargazer_gnn]. *)
Definition train_batch (batches_x : list (list DGLGraph)) (batches_y : list (list Z))
    (batch_index : nat) (locals : Opt * F) : M (World F Net) (Opt * F) :=
  let '(opt, epoch_loss) := locals in
  batch_x <- lift (py_index batches_x batch_index) ;;
  batch_y <- lift (py_index batches_y batch_index) ;;
  let x := dgl_batch batch_x in
  let y := one_hot batch_y 2 in
  let loss := fun gnn => mse_loss (forward gnn x) y in
  gnn <- gets net ;;
  let '(opt, gnn') := adam_step opt gnn loss in
  _ <- modify (set_net gnn') ;;
  ret (opt, fadd epoch_loss (loss gnn)).

(** The body of its epoch loop. *)
Definition train_epoch (batches_x : list (list DGLGraph)) (batches_y : list (list Z))
    (epoch_index : nat) (locals : Opt * list F) : M (World F Net) (Opt * list F) :=
  let '(opt, epoch_losses) := locals in
  ' (opt, epoch_loss) <-
    for_each (range (len batches_x)) (train_batch batches_x batches_y)
             (opt, flit 0) ;;
  epoch_loss <- lift (py_div epoch_loss (len batches_x)) ;;
  _ <- print (EpochLine epoch_index epoch_loss) ;;
  ret (opt, epoch_losses ++ [epoch_loss]).

(** [train_stargazer_gnn(gnn, num_epochs)], [gnn] being the network of the
    world. *)
Definition train_stargazer_gnn (data : Dataset) (num_epochs : Z)
  : M (World F Net) (list F) :=
  gnn <- gets net ;;
  let opt := adam gnn (1 # 1000) in
  let num_train := 8096 in
  ' (batches_x, batches_y) <-
    lift (get_batches (slice (stargazer_x data) 0 num_train)
                      (slice (stargazer_y data) 0 num_train) 64) ;;
  ' (_, epoch_losses) <-
    for_each (range num_epochs) (train_epoch batches_x batches_y) (opt, []) ;;
  ret epoch_losses.

(** The body of the loop of [test_stargazer_gnn]; the locals are [hidden],
    [y_true] and [y_pred]. *)
Definition test_batch (batches_x : list (list DGLGraph)) (batches_y : list (list Z))
    (batch_index : nat) (locals : list (list F) * list Z * list Z)
  : M (World F Net) (list (list F) * list Z * list Z) :=
  let '(hidden_, y_true, y_pred) := locals in
  batch_x <- lift (py_index batches_x batch_index) ;;
  batch_y <- lift (py_index batches_y batch_index) ;;
  let x := dgl_batch batch_x in
  gnn <- gets net ;;
  let y_hat := argmax_rows (forward gnn x) in
  let h := mean_rows (hidden gnn x) in
  ret (hidden_ ++ [h], y_true ++ batch_y, y_pred ++ y_hat).

(** [test_stargazer_gnn(gnn)] *)
Definition test_stargazer_gnn (data : Dataset)
  : M (World F Net) (list (list F) * list Z * list Z) :=
  let num_train := 8096 in
  let num_test := 2048 in
  ' (batches_x, batches_y) <-
    lift (get_batches (slice (stargazer_x data) num_train (num_train + num_test))
                      (slice (stargazer_y data) num_train (num_train + num_test)) 1) ;;
  for_each (range (len batches_x)) (test_batch batches_x batches_y) ([], [], []).

(** *** The training loop as a function of the optimizer and the network

    What [train_stargazer_gnn] computes, for the statements about it. *)








End Training.

(** *** The cell that builds the dataset, the network and the plotting
    helpers *)

(** The cell that builds the global [stargazer_x], one graph per entry of
    the dictionary, for the indices [0 .. len(stargazer_edges) - 1], and
    then prints [stargazer_x[19]]: the list and the graph printed. *)
Definition build_stargazer_x (stargazer_edges : gmap string (list (nat * nat)))
  : result (list DGLGraph * DGLGraph) :=
  match for_result (range (Z.of_nat (size stargazer_edges)))
          (fun i stargazer_x =>
             match make_stargazer_graph stargazer_edges (Z.of_nat i) with
             | Err e => Err e
             | Ok G => Ok (stargazer_x ++ [G])
             end)
          [] with
  | Err e => Err e
  | Ok stargazer_x =>
      match py_index stargazer_x 19 with       (* print(f'First graph: {stargazer_x[19]}') *)
      | Err e => Err e
      | Ok first => Ok (stargazer_x, first)
      end
  end.

(** [g.in_degrees()]: for each vertex, the number of edges that end in it. *)
Definition in_degrees (g : DGLGraph) : list nat :=
  (fun v => length (filter (fun d => d = v) (edge_dst g))) <$> seq 0 (num_nodes g).

(** The number of pairs of [rows] that [v] is an end of, a pair [v, v]
    counting twice. *)
Definition degree (rows : list (nat * nat)) (v : nat) : nat :=
  (length (filter (fun a => a = v) rows.*1) + length (filter (fun b => b = v) rows.*2))%nat.

(** [G.number_of_nodes()] and [G.number_of_edges()] *)
Definition number_of_nodes (g : DGLGraph) : Z := Z.of_nat (num_nodes g).

Definition number_of_edges (g : DGLGraph) : Z := len (edge_src g).

(** A layer as it was constructed, [GraphConv(in_feats, out_feats)] or
    [nn.Linear(in_feats, out_feats)], with its parameters. *)
Record Layer (P : Type) : Type := {
  in_feats : Z;
  out_feats : Z;
  params : P
}.
Arguments in_feats {P} _.
Arguments out_feats {P} _.
Arguments params {P} _.

(** What [StargazerGNN] asks of torch and DGL.  [P] is the parameters of a
    layer, which its constructor draws from torch's generator [Rng]; the
    constructors are taken on sizes they accept. *)
Class Layers (F P Rng : Type) : Type := {
  GraphConv_params : Z -> Z -> Rng -> P * Rng;
  Linear_params : Z -> Z -> Rng -> P * Rng;
  graph_conv : Layer P -> DGLGraph -> list (list F) -> list (list F);  (* conv(g, h) *)
  linear : Layer P -> list (list F) -> list (list F);
  torch_relu : list (list F) -> list (list F);
  (* dgl.mean_nodes(g, 'h'), after g.ndata['h'] = h *)
  mean_nodes : DGLGraph -> list (list F) -> list (list F)
}.

(** A [StargazerGNN] object. *)
Record StargazerGNN (P : Type) : Type := {
  convs : list (Layer P);
  classify : Layer P
}.
Arguments convs {P} _.
Arguments classify {P} _.

Section Network.
Context {F P Rng : Type} `{Float F} `{Layers F P Rng}.
Local Open Scope run_scope.

(** [GraphConv(i, o)] and [nn.Linear(i, o)] *)
Definition GraphConv (i o : Z) : M Rng (Layer P) :=
  fun r => let '(p, r') := GraphConv_params i o r in
           (r', Ok {| in_feats := i; out_feats := o; params := p |}).

Definition Linear (i o : Z) : M Rng (Layer P) :=
  fun r => let '(p, r') := Linear_params i o r in
           (r', Ok {| in_feats := i; out_feats := o; params := p |}).

(** [StargazerGNN(num_hidden_features)] *)
Definition StargazerGNN_init (num_hidden_features : list Z) : M Rng (StargazerGNN P) :=
  convs <- for_each (range (len num_hidden_features - 1))
             (fun i convs =>
                a <- lift (py_index num_hidden_features i) ;;
                b <- lift (py_index num_hidden_features (i + 1)) ;;
                conv <- GraphConv a b ;;
                ret (convs ++ [conv])) [] ;;
  n <- lift (py_last num_hidden_features) ;;
  classify <- Linear n 2 ;;
  ret {| convs := convs; classify := classify |}.

(** [StargazerGNN.hidden(g)]; the loop goes through [self.convs] by index. *)
Definition StargazerGNN_hidden (self : StargazerGNN P) (g : DGLGraph) : list (list F) :=
  let h := (fun d => [f_of_Z (Z.of_nat d)]) <$> in_degrees g in
  fold_left (fun h conv => torch_relu (graph_conv conv g h)) (convs self) h.

(** [StargazerGNN.forward(g)] *)
Definition StargazerGNN_forward (self : StargazerGNN P) (g : DGLGraph) : list (list F) :=
  let h := StargazerGNN_hidden self g in
  let hg := mean_nodes g h in
  linear (classify self) hg.

End Network.

(** What [plot_stargazer_graph] prints. *)
Inductive InfoLine : Type :=
| VerticesLine (n : Z)
| EdgesLine (n : Z).

(** A call of [nx.draw]: the graph, the layout and the keyword arguments
    given. *)
Record Drawing (NxG Pos : Type) : Type := {
  nx_graph : NxG;
  nx_pos : Pos;
  with_labels : option bool;
  node_color : list (list Q)
}.
Arguments nx_graph {NxG Pos} _.
Arguments nx_pos {NxG Pos} _.
Arguments with_labels {NxG Pos} _.
Arguments node_color {NxG Pos} _.

(** What the plotting helpers ask of DGL and networkx. *)
Class Networkx (NxG Pos : Type) : Type := {
  to_undirected : DGLGraph -> NxG;        (* G.to_networkx().to_undirected() *)
  kamada_kawai_layout : NxG -> Pos
}.

(** The output of a plotting cell: the lines printed and the drawings. *)
Record Canvas (NxG Pos : Type) : Type := {
  info : list InfoLine;
  drawings : list (Drawing NxG Pos)
}.
Arguments info {NxG Pos} _.
Arguments drawings {NxG Pos} _.

Section Plotting.
Context {NxG Pos : Type} `{Networkx NxG Pos}.
Local Open Scope run_scope.

Definition print_info_line (l : InfoLine) : M (Canvas NxG Pos) unit :=
  modify (fun c => {| info := info c ++ [l]; drawings := drawings c |}).

Definition nx_draw (d : Drawing NxG Pos) : M (Canvas NxG Pos) unit :=
  modify (fun c => {| info := info c; drawings := drawings c ++ [d] |}).

(** [plot_stargazer_graph(G, label=None, print_info=False, labels=True)] *)
Definition plot_stargazer_graph (G : DGLGraph) (label : option Z)
    (print_info labels : bool) : M (Canvas NxG Pos) unit :=
  _ <- (if print_info then
          _ <- print_info_line (VerticesLine (number_of_nodes G)) ;;
          print_info_line (EdgesLine (number_of_edges G))
        else ret tt) ;;
  let col := [[7 # 10; 7 # 10; 7 # 10]]%Q in
  let col := match label with
             | Some label =>
                 if label =? 0 then [[6 # 10; 0; 6 # 10]]%Q
                 else if label =? 1 then [[0; 5 # 10; 0]]%Q
                 else col
             | None => col
             end in
  let nx_G := to_undirected G in
  let pos := kamada_kawai_layout nx_G in
  nx_draw {| nx_graph := nx_G; nx_pos := pos; with_labels := Some labels;
             node_color := col |}.

(** [plot_webmluser_graph(G)] *)
Definition plot_webmluser_graph (G : DGLGraph) : M (Canvas NxG Pos) unit :=
  let nx_G := to_undirected G in
  let pos := kamada_kawai_layout nx_G in
  nx_draw {| nx_graph := nx_G; nx_pos := pos; with_labels := None;
             node_color := [[7 # 10; 7 # 10; 7 # 10]]%Q |}.

End Plotting.

End B1.

(** ** Notebook b2-graphsage *)

Module B2.

(** What the notebook asks of a GraphSAGE model and of the libraries.
    [Model] is the state of the object bound to [model] (parameters and the
    training flag), [Optim] that of its Adam optimizer, [Rng] that of
    torch's random generator, from which dropout draws in training mode. *)
Class Sage (F Model Optim Rng : Type) : Type := {
  set_training : bool -> Model -> Model;               (* model.train(), model.eval() *)
  sage_forward : Model -> list (list F) -> Rng -> list (list F) * Rng;  (* model(features) *)
  cross_entropy : list (list F) -> list Z -> F;        (* torch.nn.CrossEntropyLoss() *)
  (* optimizer.zero_grad(); loss.backward(); optimizer.step() *)
  optim_step : Optim -> Model -> (Model -> F) -> Optim * Model;
  max_indices : list (list F) -> list Z;               (* torch.max(pred, dim=1)[1] *)
  np_mean : list F -> F;                               (* np.mean *)
  time_time : nat -> F                                 (* the clock's successive readings *)
}.

(** The notebook's global tensors. *)
Record Globals (F : Type) : Type := {
  features : list (list F);
  labels : list Z;
  train_mask : list bool;
  val_mask : list bool;
  test_mask : list bool;
  n_edges : Z
}.
Arguments features {F} g.
Arguments labels {F} g.
Arguments train_mask {F} g.
Arguments val_mask {F} g.
Arguments test_mask {F} g.
Arguments n_edges {F} g.

Inductive Line (F : Type) : Type :=
| EpochReport (epoch : nat) (mean_dur loss acc teps : F)
| TrainingComplete.
Arguments EpochReport {F} epoch mean_dur loss acc teps.
Arguments TrainingComplete {F}.

(** The objects bound to [model] and [optimizer], the random generator, the
    number of clock readings so far, and the printed output. *)
Record World (F Model Optim Rng : Type) : Type := {
  model : Model;
  optimizer : Optim;
  rng : Rng;
  clock : nat;
  stdout : list (Line F)
}.
Arguments model {F Model Optim Rng} w.
Arguments optimizer {F Model Optim Rng} w.
Arguments rng {F Model Optim Rng} w.
Arguments clock {F Model Optim Rng} w.
Arguments stdout {F Model Optim Rng} w.

(** [t[mask]] for a boolean mask over the rows of [t]. *)
Definition mask_select {A : Type} (mask : list bool) (t : list A) : list A :=
  (filter (fun p => p.1 = true) (zip mask t)).*2.

(** The epochs whose report line was printed, in order. *)
Definition epochs_reported {F : Type} (out : list (Line F)) : list nat :=
  omap (fun l => match l with
                 | EpochReport epoch _ _ _ _ => Some epoch
                 | TrainingComplete => None
                 end) out.

Section Training.
Context {F Model Optim Rng : Type} `{Float F} `{Sage F Model Optim Rng}.
Local Open Scope run_scope.
Abbreviation W := (World F Model Optim Rng).

Definition set_model (f : Model -> Model) (w : W) : W :=
  {| model := f (model w); optimizer := optimizer w; rng := rng w;
     clock := clock w; stdout := stdout w |}.

Definition set_optimizer (o : Optim) (w : W) : W :=
  {| model := model w; optimizer := o; rng := rng w;
     clock := clock w; stdout := stdout w |}.

Definition set_rng (r : Rng) (w : W) : W :=
  {| model := model w; optimizer := optimizer w; rng := r;
     clock := clock w; stdout := stdout w |}.

Definition print (l : Line F) : M W unit :=
  modify (fun w => {| model := model w; optimizer := optimizer w; rng := rng w;
                      clock := clock w; stdout := stdout w ++ [l] |}).

(** [time.time()] *)
Definition time : M W F :=
  fun w => ({| model := model w; optimizer := optimizer w; rng := rng w;
               clock := S (clock w); stdout := stdout w |},
            Ok (time_time (clock w))).

(** [get_accuracy(pred, true)].  [indices == true] is taken position by
    position, as torch does on two tensors of one length, which is how
    [train] calls it: both are selected by the one mask. *)
Definition get_accuracy (pred : list (list F)) (true_ : list Z) : result F :=
  let indices := max_indices pred in
  let correct := len (filter (fun p => p.1 = p.2) (zip indices true_)) in
  py_div (fmul (f_of_Z correct) (flit 1)) (len true_).

(** The body of the loop of [train]; its locals are [dur], [all_train_logits]
    and [output], the last unbound before the first epoch. *)
Definition train_epoch (G : Globals F) (epoch : nat)
    (locals : list F * list (list (list F)) * option (list (list F)))
  : M W (list F * list (list (list F)) * option (list (list F))) :=
  let '(dur, all_train_logits, _) := locals in
  _ <- modify (set_model (set_training true)) ;;
  t0 <- time ;;
  m <- gets model ;;
  r <- gets rng ;;
  let '(output, r') := sage_forward m (features G) r in
  _ <- modify (set_rng r') ;;
  let output_train := mask_select (train_mask G) output in
  let loss := fun m' =>
    cross_entropy (mask_select (train_mask G) (sage_forward m' (features G) r).1)
                  (mask_select (train_mask G) (labels G)) in
  opt <- gets optimizer ;;
  let '(opt', m') := optim_step opt m loss in
  _ <- modify (set_optimizer opt') ;;
  _ <- modify (set_model (fun _ => m')) ;;
  t1 <- time ;;
  let dur := dur ++ [fsub t1 t0] in
  _ <- modify (set_model (set_training false)) ;;
  let output_val := mask_select (val_mask G) output in
  let labels_val := mask_select (val_mask G) (labels G) in
  acc <- lift (get_accuracy output_val labels_val) ;;
  let all_train_logits := all_train_logits ++ [output_train] in
  _ <- print (EpochReport epoch (np_mean dur) (loss m) acc
                          (fdiv (f_of_Z (n_edges G)) (np_mean dur))) ;;
  ret (dur, all_train_logits, Some output).

(** [train(model, optimizer, n_epochs)], on the model and the optimizer of
    the world; it returns the model as well. *)
Definition train (G : Globals F) (n_epochs : Z)
  : M W (Model * list (list F) * list (list (list F))) :=
  ' (_, all_train_logits, output) <-
    for_each (range n_epochs) (train_epoch G) ([], [], None) ;;
  _ <- print TrainingComplete ;;
  match output with
  | None => raise (UnboundLocalError "output")
  | Some output => m <- gets model ;; ret (m, output, all_train_logits)
  end.

(** What holds after [n] epochs of [train] started in [w]. *)
Definition after_epochs (w : World F Model Optim Rng) (n : nat)
    (locals : list F * list (list (list F)) * option (list (list F)))
    (v : World F Model Optim Rng) : Prop :=
  length locals.1.1 = n
  /\ length locals.1.2 = n
  /\ clock v = (clock w + 2 * n)%nat
  /\ epochs_reported (stdout v) = epochs_reported (stdout w) ++ seq 0 n
  /\ (n = 0%nat -> locals.2 = None)
  /\ ((0 < n)%nat -> is_Some locals.2).

End Training.

(** *** An epoch of [train], for the statements about it *)

Section Epochs.
Context {F Model Optim Rng : Type} `{Float F} `{Sage F Model Optim Rng}.

(** The loss of an epoch of [train] as a function of the model, the dropout
    being drawn from the generator in state [r]. *)
Definition train_loss (G : Globals F) (r : Rng) (m : Model) : F :=
  cross_entropy (mask_select (train_mask G) (sage_forward m (features G) r).1)
                (mask_select (train_mask G) (labels G)).

(** The forward pass of an epoch started in [w]: the model is put in
    training mode first. *)
Definition epoch_output (G : Globals F) (w : World F Model Optim Rng) : list (list F) :=
  (sage_forward (set_training true (model w)) (features G) (rng w)).1.

(** The model an epoch started in [w] leaves: stepped once on the loss of
    that forward pass, then put in evaluation mode. *)
Definition epoch_model (G : Globals F) (w : World F Model Optim Rng) : Model :=
  set_training false
    (optim_step (optimizer w) (set_training true (model w)) (train_loss G (rng w))).2.

(** The accuracies printed, in order. *)
Definition accuracies_reported (out : list (Line F)) : list F :=
  omap (fun l => match l with
                 | EpochReport _ _ _ acc _ => Some acc
                 | TrainingComplete => None
                 end) out.

End Epochs.

(** *** The two networks *)

(** A [MeanAggSageLayer] object. *)
Record MeanAggSageLayer (Lin : Type) : Type := {
  _in : Z;
  _out : Z;
  fc_self : Lin;
  fc_neigh : Lin
}.
Arguments _in {Lin} _.
Arguments _out {Lin} _.
Arguments fc_self {Lin} _.
Arguments fc_neigh {Lin} _.

(** A [SAGEConv] layer of DGL, as it was constructed. *)
Record SAGEConv (P Act : Type) : Type := {
  in_feats : Z;
  out_feats : Z;
  aggregator_type : string;
  feat_drop : Q;
  activation : option Act;
  sage_params : P
}.
Arguments in_feats {P Act} _.
Arguments out_feats {P Act} _.
Arguments aggregator_type {P Act} _.
Arguments feat_drop {P Act} _.
Arguments activation {P Act} _.
Arguments sage_params {P Act} _.

(** What the two networks ask of torch and DGL.  [Lin] is an [nn.Linear]
    layer, [P] the parameters of a [SAGEConv], [Graph] the DGL graph and
    [Rng] torch's generator, from which layers are initialised; the
    constructors are taken on arguments they accept. *)
Class SageLayers (F Lin P Graph Rng : Type) : Type := {
  nn_Linear : Z -> Z -> Rng -> Lin * Rng;
  calculate_gain_relu : F;                              (* nn.init.calculate_gain('relu') *)
  xavier_uniform_ : Lin -> F -> Rng -> Lin * Rng;       (* on the layer's weight *)
  apply_linear : Lin -> list (list F) -> list (list F);
  (* graph.update_all(copy_src('h', 'm'), mean('m', 'neigh')) on
     srcdata['h'] = features, then dstdata['neigh'] *)
  mean_of_neighbours : Graph -> list (list F) -> list (list F);
  F_relu : list (list F) -> list (list F);
  SAGEConv_params : Z -> Z -> string -> Rng -> P * Rng
}.

(** A [SimpleGraphSAGE] and a [GraphSAGE] object. *)
Record SimpleGraphSAGE (Lin Graph : Type) : Type := {
  conv_layers : list (MeanAggSageLayer Lin);
  g : Graph
}.
Arguments conv_layers {Lin Graph} _.
Arguments g {Lin Graph} _.

Record GraphSAGE (P Act Graph : Type) : Type := {
  layers : list (SAGEConv P Act);
  sage_g : Graph
}.
Arguments layers {P Act Graph} _.
Arguments sage_g {P Act Graph} _.

Section Networks.
Context {F Lin P Act Graph Rng : Type} `{Float F} `{SageLayers F Lin P Graph Rng}.
Local Open Scope run_scope.

(** [MeanAggSageLayer(n_features_in, n_features_out)] *)
Definition MeanAggSageLayer_init (n_features_in n_features_out : Z)
  : M Rng (MeanAggSageLayer Lin) :=
  fc_self <- (fun r => let '(l, r) := nn_Linear n_features_in n_features_out r in (r, Ok l)) ;;
  fc_neigh <- (fun r => let '(l, r) := nn_Linear n_features_in n_features_out r in (r, Ok l)) ;;
  let gain := calculate_gain_relu in
  fc_self <- (fun r => let '(l, r) := xavier_uniform_ fc_self gain r in (r, Ok l)) ;;
  fc_neigh <- (fun r => let '(l, r) := xavier_uniform_ fc_neigh gain r in (r, Ok l)) ;;
  ret {| _in := n_features_in; _out := n_features_out;
         fc_self := fc_self; fc_neigh := fc_neigh |}.

(** [MeanAggSageLayer.forward(graph, features)] *)
Definition MeanAggSageLayer_forward (self : MeanAggSageLayer Lin) (graph : Graph)
    (features : list (list F)) : list (list F) :=
  let h_neigh := mean_of_neighbours graph features in
  let output := zip_with (zip_with fadd) (apply_linear (fc_self self) features)
                                         (apply_linear (fc_neigh self) h_neigh) in
  F_relu output.

(** [SimpleGraphSAGE(g, n_features, n_hidden, n_classes, n_layers)] *)
Definition SimpleGraphSAGE_init (g : Graph) (n_features n_hidden n_classes n_layers : Z)
  : M Rng (SimpleGraphSAGE Lin Graph) :=
  l <- MeanAggSageLayer_init n_features n_hidden ;;
  let conv_layers := [l] in
  conv_layers <- for_each (range (n_layers - 1))
                   (fun _ conv_layers =>
                      l <- MeanAggSageLayer_init n_hidden n_hidden ;;
                      ret (conv_layers ++ [l])) conv_layers ;;
  l <- MeanAggSageLayer_init n_hidden n_classes ;;
  ret {| conv_layers := conv_layers ++ [l]; g := g |}.

(** [SimpleGraphSAGE.forward(features)] *)
Definition SimpleGraphSAGE_forward (self : SimpleGraphSAGE Lin Graph)
    (features : list (list F)) : list (list F) :=
  fold_left (fun h conv => MeanAggSageLayer_forward conv (g self) h)
            (conv_layers self) features.

(** [SAGEConv(in_feats, out_feats, agg, feat_drop=dropout, activation=activation)] *)
Definition new_SAGEConv (i o : Z) (agg : string) (dropout : Q) (act : option Act)
  : M Rng (SAGEConv P Act) :=
  fun r => let '(p, r) := SAGEConv_params i o agg r in
           (r, Ok {| in_feats := i; out_feats := o; aggregator_type := agg;
                     feat_drop := dropout; activation := act; sage_params := p |}).

(** [GraphSAGE(g, n_features, n_hidden, n_classes, n_layers, agg, activation,
    dropout)] *)
Definition GraphSAGE_init (g : Graph) (n_features n_hidden n_classes n_layers : Z)
    (agg : string) (activation : Act) (dropout : Q) : M Rng (GraphSAGE P Act Graph) :=
  l <- new_SAGEConv n_features n_hidden agg dropout (Some activation) ;;
  let layers := [l] in
  layers <- for_each (range (n_layers - 1))
              (fun _ layers =>
                 l <- new_SAGEConv n_hidden n_hidden agg dropout (Some activation) ;;
                 ret (layers ++ [l])) layers ;;
  l <- new_SAGEConv n_hidden n_classes agg dropout None ;;
  ret {| layers := layers ++ [l]; sage_g := g |}.

End Networks.

(** *** The animation of the training *)

(** [colors], one colour for each class. *)
Definition colors : list string :=
  ["red"; "green"; "blue"; "yellow"; "orange"; "purple"; "pink"]%string.

(** [np.where(a)[0]]: the positions of the entries of [a] that are not zero. *)
Definition np_where (a : list bool) : list nat :=
  (filter (fun p => p.2 = true) (imap (fun i b => (i, b)) a)).*1.

(** [non_train]: ones, set to zero at the training vertices, then the
    positions left non-zero. *)
Definition non_train (train_nodes : list bool) : list nat :=
  np_where (negb <$> train_nodes).

(** The vertices of [nx_g]: those of the model's graph, [0 .. n_nodes - 1],
    without the ones that [remove_nodes_from(non_train)] removes. *)
Definition nx_g_nodes (n_nodes : nat) (train_nodes : list bool) : list nat :=
  filter (fun v => v ∉ non_train train_nodes) (seq 0 n_nodes).

(** [rn_nodes = range(nx_g.number_of_nodes())] *)
Definition rn_nodes (n_nodes : nat) (train_nodes : list bool) : list nat :=
  range (len (nx_g_nodes n_nodes train_nodes)).

(** The arguments [draw_epoch] gives to [nx.draw_networkx], with the title
    it sets, ['Epoch: %d' % i]. *)
Record Frame (F : Type) : Type := {
  title_epoch : nat;
  pos : list (nat * (nat * Z));        (* the dict [pos], in insertion order *)
  node_color : list string;
  node_size : list F
}.
Arguments title_epoch {F} _.
Arguments pos {F} _.
Arguments node_color {F} _.
Arguments node_size {F} _.

(** What [draw_epoch] asks of numpy and networkx; [Pic] is what is drawn on
    the axes.  [draw_networkx] is given the vertices of the graph; it needs
    a position for each of them, so it can fail. *)
Class NxDrawing (F Pic : Type) : Type := {
  np_argmax : list (list F) -> list Z;                 (* logits.argmax(axis=1) *)
  np_max : list (list F) -> list F;                    (* logits.max(axis=1) *)
  draw_networkx : list nat -> Frame F -> result Pic
}.

Section Animation.
Context {F Pic : Type} `{Float F} `{NxDrawing F Pic}.
Local Open Scope run_scope.

(** [draw_epoch(i)], over the globals [all_train_logits], [nx_g] (its
    vertices), [rn_nodes] and [labels_train]; the world is what the axes
    [ax] show. *)
Definition draw_epoch (all_train_logits : list (list (list F))) (nodes rn_nodes : list nat)
    (labels_train : list Z) (i : nat) : M (option Pic) unit :=
  logits <- lift (py_index all_train_logits i) ;;
  let max_ix := np_argmax logits in
  pos <- for_each rn_nodes
           (fun n pos => m <- lift (py_index max_ix n) ;; ret (pos ++ [(n, (n, m))])) [] ;;
  let node_size := (fun s => fmul s (f_of_Z 100)) <$> np_max logits in
  cols <- for_each rn_nodes
            (fun n cols =>
               l <- lift (py_index labels_train n) ;;
               c <- lift (py_getitem colors l) ;;
               ret (cols ++ [c])) [] ;;
  _ <- modify (fun _ => None) ;;                       (* ax.cla() *)
  pic <- lift (draw_networkx nodes
                 {| title_epoch := i; pos := pos; node_color := cols;
                    node_size := node_size |}) ;;
  modify (fun _ => Some pic).

End Animation.

End B2.

(** ** Notebook b3-vgae *)

Module B3.

(** A [2 x E] index tensor, column by column. *)
Abbreviation EdgeIndex := (list (nat * nat)).

(** [MAX_LOGVAR = 10] *)
Definition MAX_LOGVAR : Z := 10.

Section Tensors.
Context {F : Type} `{Float F}.

(** [EPS], imported from torch_geometric: 1e-15 *)
Definition EPS : F := flit (1 # 1000000000000000).

(** [t.sum()] of a vector, added left to right. *)
Definition fsum (t : list F) : F := fold_left fadd t (flit 0).

(** [t.mean()] of a vector. *)
Definition fmean (t : list F) : F := fdiv (fsum t) (f_of_Z (len t)).

(** [z[idx]]: the rows of [z] at the positions [idx] (all of them rows of
    [z]: they are vertex ids of the graph that [z] embeds). *)
Definition rows_at (z : list (list F)) (idx : list nat) : list (list F) :=
  (fun i => default [] (z !! i)) <$> idx.

(** Entrywise operations on matrices of one shape. *)
Definition tmap (f : F -> F) (t : list (list F)) : list (list F) :=
  map (map f) t.

Definition tzip (f : F -> F -> F) (a b : list (list F)) : list (list F) :=
  zip_with (zip_with f) a b.

(** [t.clamp(max=m)]: entries above [m] become [m], the others (a NaN
    among them) stay. *)
Definition clamp_max (m : F) (t : list (list F)) : list (list F) :=
  tmap (fun x => if fltb m x then m else x) t.

(** [InnerProductDecoder.forward(z, edge_index, sigmoid)] *)
Definition InnerProductDecoder_forward (z : list (list F)) (edge_index : EdgeIndex)
    (sigmoid : bool) : list F :=
  let value := fsum <$> tzip fmul (rows_at z edge_index.*1) (rows_at z edge_index.*2) in
  if sigmoid then fsigmoid <$> value else value.

(** [torch.matmul(z, z.t())]: entry [(i, j)] is the inner product of the rows
    [i] and [j] of [z]. *)
Definition matmul_t (z : list (list F)) : list (list F) :=
  (fun zi => (fun zj => fsum (zip_with fmul zi zj)) <$> z) <$> z.

End Tensors.

(** A decoder module, as GAE calls it: [decoder(z, edge_index, sigmoid)]. *)
Abbreviation Decoder F := (list (list F) -> EdgeIndex -> bool -> list F).

(** [GAEEncoder] and [VGAEEncoder]: their graph-convolution layers. *)
Record GAEEncoder (Conv : Type) : Type := {
  conv1 : Conv;
  conv2 : Conv
}.
Arguments conv1 {Conv} _.
Arguments conv2 {Conv} _.

Record VGAEEncoder (Conv : Type) : Type := {
  vconv1 : Conv;
  conv_mu : Conv;
  conv_logvar : Conv
}.
Arguments vconv1 {Conv} _.
Arguments conv_mu {Conv} _.
Arguments conv_logvar {Conv} _.

(** A [GAE] object: its encoder, its decoder and the [training] flag of
    [torch.nn.Module]. *)
Record GAE (F Enc : Type) : Type := {
  encoder : Enc;
  decoder : Decoder F;
  training : bool
}.
Arguments encoder {F Enc} _.
Arguments decoder {F Enc} _.
Arguments training {F Enc} _.

(** A [VGAE] object: a GAE with the two attributes set by [encode]. *)
Record VGAE (F Enc : Type) : Type := {
  super : GAE F Enc;
  mu__ : option (list (list F));          (* self.__mu__ *)
  logvar__ : option (list (list F))       (* self.__logvar__ *)
}.
Arguments super {F Enc} _.
Arguments mu__ {F Enc} _.
Arguments logvar__ {F Enc} _.

(** What the notebook asks of torch, torch_geometric and scikit-learn.
    [Conv] is the state of a GCNConv layer, [Optim] of an Adam optimizer,
    [Rng] of torch's random generator.  The two metrics of scikit-learn
    raise ValueError on vectors they refuse: no sample, labels of one class
    only, a score that is not a number. *)
Class Pyg (F Conv Optim Rng : Type) : Type := {
  gcn_conv : Conv -> list (list F) -> EdgeIndex -> list (list F);
  relu : list (list F) -> list (list F);
  remove_self_loops : EdgeIndex -> EdgeIndex;
  add_self_loops : EdgeIndex -> EdgeIndex;
  negative_sampling : EdgeIndex -> Z -> Rng -> EdgeIndex * Rng;
  randn_like : list (list F) -> Rng -> list (list F) * Rng;
  roc_auc_score : list F -> list F -> result F;
  average_precision_score : list F -> list F -> result F;
  (* optimizer.zero_grad(); loss.backward(); optimizer.step(), the loss
     being given as a function of the encoder it is differentiated in *)
  adam_step_gae :
    Optim -> GAEEncoder Conv -> (GAEEncoder Conv -> F) -> Optim * GAEEncoder Conv;
  adam_step_vgae :
    Optim -> VGAEEncoder Conv -> (VGAEEncoder Conv -> F) -> Optim * VGAEEncoder Conv
}.

Section Models.
Context {F Conv Optim Rng : Type} `{Float F} `{Pyg F Conv Optim Rng}.

(** [GAEEncoder.forward(x, edge_index)] *)
Definition GAEEncoder_forward (self : GAEEncoder Conv) (x : list (list F))
    (edge_index : EdgeIndex) : list (list F) :=
  let x := relu (gcn_conv (conv1 self) x edge_index) in
  gcn_conv (conv2 self) x edge_index.

(** [VGAEEncoder.forward(x, edge_index)] *)
Definition VGAEEncoder_forward (self : VGAEEncoder Conv) (x : list (list F))
    (edge_index : EdgeIndex) : list (list F) * list (list F) :=
  let x := relu (gcn_conv (vconv1 self) x edge_index) in
  (gcn_conv (conv_mu self) x edge_index, gcn_conv (conv_logvar self) x edge_index).

(** The object [self] with another encoder, as an optimizer step leaves it. *)
Definition with_encoder {Enc : Type} (self : GAE F Enc) (enc : Enc) : GAE F Enc :=
  {| encoder := enc; decoder := decoder self; training := training self |}.

(** [GAE(encoder)], the decoder left to its default. *)
Definition GAE_init {Enc : Type} (encoder : Enc) : GAE F Enc :=
  {| encoder := encoder; decoder := InnerProductDecoder_forward; training := true |}.

(** [GAE.encode(x, edge_index)], for the encoder [GAEEncoder]. *)
Definition GAE_encode (self : GAE F (GAEEncoder Conv)) (x : list (list F))
    (edge_index : EdgeIndex) : list (list F) :=
  GAEEncoder_forward (encoder self) x edge_index.

(** [GAE.decode(z, edge_index, sigmoid)] *)
Definition GAE_decode {Enc : Type} (self : GAE F Enc) : Decoder F := decoder self.

(** [GAE.recon_loss(z, pos_edge_index)]; the negative edges are drawn from
    the generator [r], which is returned advanced. *)
Definition GAE_recon_loss {Enc : Type} (self : GAE F Enc) (z : list (list F))
    (pos_edge_index : EdgeIndex) (r : Rng) : F * Rng :=
  let pos_loss :=
    fneg (fmean ((fun p => flog (fadd p EPS)) <$> decoder self z pos_edge_index true)) in
  let pos_edge_index := remove_self_loops pos_edge_index in
  let pos_edge_index := add_self_loops pos_edge_index in
  let '(neg_edge_index, r) := negative_sampling pos_edge_index (len z) r in
  let neg_loss :=
    fneg (fmean ((fun p => flog (fadd (fsub (flit 1) p) EPS))
                   <$> decoder self z neg_edge_index true)) in
  (fadd pos_loss neg_loss, r).

(** [GAE.test(z, pos_edge_index, neg_edge_index)] *)
Definition GAE_test {Enc : Type} (self : GAE F Enc) (z : list (list F))
    (pos_edge_index neg_edge_index : EdgeIndex) : result (F * F) :=
  let pos_y := replicate (length pos_edge_index) (flit 1) in
  let neg_y := replicate (length neg_edge_index) (flit 0) in
  let y := pos_y ++ neg_y in
  let pos_pred := decoder self z pos_edge_index true in
  let neg_pred := decoder self z neg_edge_index true in
  let pred := pos_pred ++ neg_pred in
  match roc_auc_score y pred with
  | Err e => Err e
  | Ok auc =>
      match average_precision_score y pred with
      | Err e => Err e
      | Ok ap => Ok (auc, ap)
      end
  end.

(** [VGAE(encoder)] *)
Definition VGAE_init {Enc : Type} (encoder : Enc) : VGAE F Enc :=
  {| super := GAE_init encoder; mu__ := None; logvar__ := None |}.

(** [VGAE.reparametrize(mu, logvar)] *)
Definition VGAE_reparametrize {Enc : Type} (self : VGAE F Enc)
    (mu logvar : list (list F)) (r : Rng) : list (list F) * Rng :=
  if training (super self) then
    let '(eps, r) := randn_like logvar r in
    (tzip fadd mu (tzip fmul eps (tmap fexp logvar)), r)
  else (mu, r).

(** [VGAE.encode(x, edge_index)], for the encoder [VGAEEncoder]: the object
    with its two attributes set, and [z]. *)
Definition VGAE_encode (self : VGAE F (VGAEEncoder Conv)) (x : list (list F))
    (edge_index : EdgeIndex) (r : Rng)
  : VGAE F (VGAEEncoder Conv) * list (list F) * Rng :=
  let '(mu, logvar) := VGAEEncoder_forward (encoder (super self)) x edge_index in
  let self := {| super := super self; mu__ := Some mu; logvar__ := Some logvar |} in
  let logvar := clamp_max (f_of_Z MAX_LOGVAR) logvar in
  let self := {| super := super self; mu__ := mu__ self; logvar__ := Some logvar |} in
  let '(z, r) := VGAE_reparametrize self mu logvar r in
  (self, z, r).

(** What [kl_loss] returns for the operands [mu] and [logvar]:
    [-0.5 * torch.mean(torch.sum(1 + logvar - mu**2 - logvar.exp(), dim=1))] *)
Definition kl_value (mu logvar : list (list F)) : F :=
  fmul (flit (-1 # 2))
    (fmean (fsum <$>
       tzip fsub
         (tzip fsub (tmap (fadd (flit 1)) logvar) (tmap (fun m => fmul m m) mu))
         (tmap fexp logvar))).

(** The two tensors [VGAE.kl_loss(mu, logvar)] computes with; an attribute
    read before any [encode] does not exist. *)
Definition VGAE_kl_operands {Enc : Type} (self : VGAE F Enc)
    (mu logvar : option (list (list F))) : result (list (list F) * list (list F)) :=
  match (match mu with
         | None => match mu__ self with
                   | Some m => Ok m
                   | None => Err (AttributeError "__mu__")
                   end
         | Some m => Ok m
         end) with
  | Err e => Err e
  | Ok mu =>
      match (match logvar with
             | None => match logvar__ self with
                       | Some l => Ok l
                       | None => Err (AttributeError "__logvar__")
                       end
             | Some l => Ok (clamp_max (f_of_Z MAX_LOGVAR) l)
             end) with
      | Err e => Err e
      | Ok logvar => Ok (mu, logvar)
      end
  end.

(** [VGAE.kl_loss(mu=None, logvar=None)] *)
Definition VGAE_kl_loss {Enc : Type} (self : VGAE F Enc)
    (mu logvar : option (list (list F))) : result F :=
  match VGAE_kl_operands self mu logvar with
  | Err e => Err e
  | Ok (mu, logvar) => Ok (kl_value mu logvar)
  end.

(** [model.eval()], [model.encode(x, edge_index)] and [model.test(..)], for
    the two kinds of model the top-level [test] is called with. *)
Class Model (Mdl : Type) : Type := {
  eval : Mdl -> Mdl;
  encode : Mdl -> list (list F) -> EdgeIndex -> Rng -> Mdl * list (list F) * Rng;
  model_test : Mdl -> list (list F) -> EdgeIndex -> EdgeIndex -> result (F * F)
}.

Definition GAE_eval {Enc : Type} (self : GAE F Enc) : GAE F Enc :=
  {| encoder := encoder self; decoder := decoder self; training := false |}.

Definition VGAE_eval {Enc : Type} (self : VGAE F Enc) : VGAE F Enc :=
  {| super := GAE_eval (super self); mu__ := mu__ self; logvar__ := logvar__ self |}.

(** [model.train()], which the notebook never calls on [gae] or [vgae]. *)
Definition VGAE_train {Enc : Type} (self : VGAE F Enc) : VGAE F Enc :=
  {| super := {| encoder := encoder (super self); decoder := decoder (super self);
                 training := true |};
     mu__ := mu__ self; logvar__ := logvar__ self |}.

#[export] Instance GAE_model : Model (GAE F (GAEEncoder Conv)) := {|
  eval := GAE_eval;
  encode self x edge_index r := (self, GAE_encode self x edge_index, r);
  model_test := GAE_test
|}.

#[export] Instance VGAE_model : Model (VGAE F (VGAEEncoder Conv)) := {|
  eval := VGAE_eval;
  encode := VGAE_encode;
  model_test self := GAE_test (super self)
|}.

(** The score of an edge: the sigmoid of the inner product of the two
    embeddings. *)
Definition edge_score (z : list (list F)) (e : nat * nat) : F :=
  fsigmoid (fsum (zip_with fmul (default [] (z !! e.1)) (default [] (z !! e.2)))).

(** An entry of a matrix. *)
Definition entry (t : list (list F)) (i j : nat) : option F :=
  row ← t !! i; row !! j.

(** Every entry of [t] is at most [m]. *)
Definition bounded_above (m : F) (t : list (list F)) : Prop :=
  Forall (Forall (fun v => fleb v m = true)) t.

(** Every entry of [t] is [m] itself or is not greater than [m]: what
    [clamp(max=m)] leaves. *)
Definition clamped_at (m : F) (t : list (list F)) : Prop :=
  Forall (Forall (fun v => v = m \/ fltb m v = false)) t.

(** Every entry of [t] compares with [m]: it is at most [m] when it is not
    greater.  A NaN is neither. *)
Definition ordered_with (m : F) (t : list (list F)) : Prop :=
  Forall (Forall (fun v => fltb m v = false -> fleb v m = true)) t.

(** What can be done to a VGAE object: [encode] sets its two attributes,
    [eval] and [train] set the training flag, an optimizer step changes the
    encoder. *)
Inductive vgae_step : VGAE F (VGAEEncoder Conv) -> VGAE F (VGAEEncoder Conv) -> Prop :=
| step_encode self x edge_index r :
    vgae_step self (VGAE_encode self x edge_index r).1.1
| step_eval self :
    vgae_step self (VGAE_eval self)
| step_train self :
    vgae_step self (VGAE_train self)
| step_optimizer self enc :
    vgae_step self {| super := with_encoder (super self) enc;
                      mu__ := mu__ self; logvar__ := logvar__ self |}.

(** The states of an object created by [VGAE(encoder)]. *)
Inductive reachable : VGAE F (VGAEEncoder Conv) -> Prop :=
| reach_init enc : reachable (VGAE_init enc)
| reach_step self self' : reachable self -> vgae_step self self' -> reachable self'.

End Models.

(** The graph data object of torch_geometric, after the cells that prepare
    it; [edge_index] and [y] are [None] once the edges have been split. *)
Record Data (F : Type) : Type := {
  num_nodes : nat;
  x : list (list F);
  edge_index : option EdgeIndex;
  y : option (list nat);
  train_pos_edge_index : EdgeIndex;
  test_pos_edge_index : EdgeIndex;
  test_neg_edge_index : EdgeIndex
}.
Arguments num_nodes {F} _.
Arguments x {F} _.
Arguments edge_index {F} _.
Arguments y {F} _.
Arguments train_pos_edge_index {F} _.
Arguments test_pos_edge_index {F} _.
Arguments test_neg_edge_index {F} _.

(** A colour ['#%02X%02X%02X' % (r, g, b)]. *)
Record Colour : Type := { red : Z; green : Z; blue : Z }.

(** An igraph graph: vertices [0 .. n_vertices - 1], edges, and the vertex
    attribute [color]. *)
Record IGraph : Type := {
  n_vertices : nat;
  ig_edges : list (nat * nat);
  vs_color : list Colour
}.

(** What [plot] asks of igraph, PIL, matplotlib and Python's [random];
    drawing needs Cairo, and an .eps is decoded by Ghostscript, which PIL
    calls only when the pixels are asked for, so these calls can fail. *)
Class Igraph (PyRng Layout Eps Img : Type) : Type := {
  randint : Z -> Z -> PyRng -> Z * PyRng;             (* random.randint(a, b) *)
  layout_auto : IGraph -> result Layout;              (* g.layout_auto() *)
  ig_draw : IGraph -> Layout -> result Eps;           (* the drawing ig.plot saves *)
  image_open : Eps -> result Img;                     (* Image.open *)
  plt_subplots : result unit;                         (* plt.subplots(figsize=(10, 10)) *)
  ax_imshow : Img -> result unit;                     (* ax.imshow(img) *)
  plt_show : result unit                              (* plt.show() *)
}.

(** A file on disk: the event file of a SummaryWriter (the scalars logged
    as tag, value, step) or a saved plot. *)
Inductive File (F Eps : Type) : Type :=
| EventFile (scalars : list (string * F * nat))
| PlotFile (eps : Eps).
Arguments EventFile {F Eps} scalars.
Arguments PlotFile {F Eps} eps.

Inductive Line (F : Type) : Type :=
| Banner (text : string)
| EpochLine (epoch : nat) (auc ap : F).
Arguments Banner {F} text.
Arguments EpochLine {F} epoch auc ap.

(** The notebook's objects ([gae], [vgae], their optimizers, the log
    directory of [writer]), the two random generators, the files on disk,
    the printed output and the images shown inline. *)
Record World (F Conv Optim Rng PyRng Eps Img : Type) : Type := {
  gae : GAE F (GAEEncoder Conv);
  gae_optimizer : Optim;
  vgae : VGAE F (VGAEEncoder Conv);
  vgae_optimizer : Optim;
  writer : string;
  rng : Rng;
  py_random : PyRng;
  files : gmap string (File F Eps);
  stdout : list (Line F);
  shown : list Img
}.
Arguments gae {F Conv Optim Rng PyRng Eps Img} w.
Arguments gae_optimizer {F Conv Optim Rng PyRng Eps Img} w.
Arguments vgae {F Conv Optim Rng PyRng Eps Img} w.
Arguments vgae_optimizer {F Conv Optim Rng PyRng Eps Img} w.
Arguments writer {F Conv Optim Rng PyRng Eps Img} w.
Arguments rng {F Conv Optim Rng PyRng Eps Img} w.
Arguments py_random {F Conv Optim Rng PyRng Eps Img} w.
Arguments files {F Conv Optim Rng PyRng Eps Img} w.
Arguments stdout {F Conv Optim Rng PyRng Eps Img} w.
Arguments shown {F Conv Optim Rng PyRng Eps Img} w.

(** The tag and the step of each logged scalar. *)
Definition log_index {F : Type} (l : list (string * F * nat)) : list (string * nat) :=
  (fun e => (e.1.1, e.2)) <$> l.

(** What one epoch of [train_gae] or [train_vgae] logs. *)
Definition epoch_log (epoch : nat) : list (string * nat) :=
  [("loss"%string, epoch); ("AUC"%string, epoch); ("AP"%string, epoch)].

(** The epochs whose line was printed, in order. *)
Definition epochs_printed {F : Type} (out : list (Line F)) : list nat :=
  omap (fun l => match l with
                 | EpochLine epoch _ _ => Some epoch
                 | Banner _ => None
                 end) out.

(** The epochs of [0 .. n-1] that [train_gae] prints: every hundredth. *)
Definition printing_epochs (n : nat) : list nat :=
  filter (fun e => (Z.of_nat e + 1) mod 100 = 0) (seq 0 n).

(** A reference to an object of the world, as an argument [model] is. *)
Record Ref (W T : Type) : Type := {
  load : W -> T;
  store : T -> W -> W
}.
Arguments load {W T} r.
Arguments store {W T} r.

Section Notebook.
Context {F Conv Optim Rng PyRng Layout Eps Img : Type}
  `{Float F} `{Pyg F Conv Optim Rng} `{Igraph PyRng Layout Eps Img}.
Local Open Scope run_scope.
Abbreviation W := (World F Conv Optim Rng PyRng Eps Img).

Definition set_gae (v : GAE F (GAEEncoder Conv)) (w : W) : W :=
  {| gae := v; gae_optimizer := gae_optimizer w; vgae := vgae w; vgae_optimizer := vgae_optimizer w;
     writer := writer w; rng := rng w; py_random := py_random w; files := files w;
     stdout := stdout w; shown := shown w |}.

Definition set_gae_optimizer (v : Optim) (w : W) : W :=
  {| gae := gae w; gae_optimizer := v; vgae := vgae w; vgae_optimizer := vgae_optimizer w;
     writer := writer w; rng := rng w; py_random := py_random w; files := files w;
     stdout := stdout w; shown := shown w |}.

Definition set_vgae (v : VGAE F (VGAEEncoder Conv)) (w : W) : W :=
  {| gae := gae w; gae_optimizer := gae_optimizer w; vgae := v; vgae_optimizer := vgae_optimizer w;
     writer := writer w; rng := rng w; py_random := py_random w; files := files w;
     stdout := stdout w; shown := shown w |}.

Definition set_vgae_optimizer (v : Optim) (w : W) : W :=
  {| gae := gae w; gae_optimizer := gae_optimizer w; vgae := vgae w; vgae_optimizer := v;
     writer := writer w; rng := rng w; py_random := py_random w; files := files w;
     stdout := stdout w; shown := shown w |}.

Definition set_writer (v : string) (w : W) : W :=
  {| gae := gae w; gae_optimizer := gae_optimizer w; vgae := vgae w; vgae_optimizer := vgae_optimizer w;
     writer := v; rng := rng w; py_random := py_random w; files := files w;
     stdout := stdout w; shown := shown w |}.

Definition set_rng (v : Rng) (w : W) : W :=
  {| gae := gae w; gae_optimizer := gae_optimizer w; vgae := vgae w; vgae_optimizer := vgae_optimizer w;
     writer := writer w; rng := v; py_random := py_random w; files := files w;
     stdout := stdout w; shown := shown w |}.

Definition set_py_random (v : PyRng) (w : W) : W :=
  {| gae := gae w; gae_optimizer := gae_optimizer w; vgae := vgae w; vgae_optimizer := vgae_optimizer w;
     writer := writer w; rng := rng w; py_random := v; files := files w;
     stdout := stdout w; shown := shown w |}.

Definition set_files (v : gmap string (File F Eps)) (w : W) : W :=
  {| gae := gae w; gae_optimizer := gae_optimizer w; vgae := vgae w; vgae_optimizer := vgae_optimizer w;
     writer := writer w; rng := rng w; py_random := py_random w; files := v;
     stdout := stdout w; shown := shown w |}.

Definition set_stdout (v : list (Line F)) (w : W) : W :=
  {| gae := gae w; gae_optimizer := gae_optimizer w; vgae := vgae w; vgae_optimizer := vgae_optimizer w;
     writer := writer w; rng := rng w; py_random := py_random w; files := files w;
     stdout := v; shown := shown w |}.

Definition set_shown (v : list Img) (w : W) : W :=
  {| gae := gae w; gae_optimizer := gae_optimizer w; vgae := vgae w; vgae_optimizer := vgae_optimizer w;
     writer := writer w; rng := rng w; py_random := py_random w; files := files w;
     stdout := stdout w; shown := v |}.

Definition gae_ref : Ref W (GAE F (GAEEncoder Conv)) :=
  {| load := gae; store := set_gae |}.

Definition vgae_ref : Ref W (VGAE F (VGAEEncoder Conv)) :=
  {| load := vgae; store := set_vgae |}.

Definition print (l : Line F) : M W unit :=
  modify (fun w => set_stdout (stdout w ++ [l]) w).

(** The scalars in the event file of the log directory [dir]. *)
Definition logged (fs : gmap string (File F Eps)) (dir : string)
  : list (string * F * nat) :=
  match fs !! dir with
  | Some (EventFile l) => l
  | _ => []
  end.

(** [writer = SummaryWriter("./log/" + stamp)], [stamp] being the time of
    the call as [strftime] formats it: the directory gets an event file. *)
Definition new_writer (stamp : string) : M W unit :=
  let dir := ("./log/" +:+ stamp)%string in
  modify (fun w => set_writer dir (set_files (<[dir := EventFile []]> (files w)) w)).

(** [writer.add_scalar(tag, value, step)] *)
Definition add_scalar (tag : string) (value : F) (step : nat) : M W unit :=
  modify (fun w =>
    set_files (<[writer w := EventFile (logged (files w) (writer w) ++ [(tag, value, step)])]>
                 (files w)) w).

(** The top-level [test(model, pos_edge_index, neg_edge_index)]; it reads
    the globals [x] and [train_pos_edge_index], taken from [data]. *)
Definition test {Mdl : Type} `{Model (F := F) (Rng := Rng) Mdl} (D : Data F)
    (model : Ref W Mdl) (pos_edge_index neg_edge_index : EdgeIndex) : M W (F * F) :=
  _ <- modify (fun w => store model (eval (load model w)) w) ;;
  m <- gets (load model) ;;
  r <- gets rng ;;
  let '(m, z, r) := encode m (x D) (train_pos_edge_index D) r in
  _ <- modify (store model m) ;;
  _ <- modify (set_rng r) ;;
  lift (model_test m z pos_edge_index neg_edge_index).

(** The loss of one training pass of [train_gae], as a function of the
    encoder; [r] is the generator the negative edges are drawn from. *)
Definition gae_loss (D : Data F) (self : GAE F (GAEEncoder Conv)) (r : Rng)
    (enc : GAEEncoder Conv) : F * Rng :=
  let self := with_encoder self enc in
  let z := GAE_encode self (x D) (train_pos_edge_index D) in
  GAE_recon_loss self z (train_pos_edge_index D) r.

(** The body of the loop of [train_gae]; its locals are [auc] and [ap]. *)
Definition train_gae_epoch (D : Data F) (epoch : nat) (locals : option F * option F)
  : M W (option F * option F) :=
  g <- gets gae ;;
  r <- gets rng ;;
  let '(loss, r') := gae_loss D g r (encoder g) in
  _ <- modify (set_rng r') ;;
  opt <- gets gae_optimizer ;;
  let '(opt, enc) := adam_step_gae opt (encoder g) (fun enc => (gae_loss D g r enc).1) in
  _ <- modify (set_gae_optimizer opt) ;;
  _ <- modify (set_gae (with_encoder g enc)) ;;
  _ <- add_scalar "loss" loss epoch ;;
  ' (auc, ap) <- test D gae_ref (test_pos_edge_index D) (test_neg_edge_index D) ;;
  _ <- add_scalar "AUC" auc epoch ;;
  _ <- add_scalar "AP" ap epoch ;;
  _ <- (if (Z.of_nat epoch + 1) mod 100 =? 0 then print (EpochLine epoch auc ap)
        else ret tt) ;;
  ret (Some auc, Some ap).

(** [train_gae()] *)
Definition train_gae (D : Data F) : M W (option F * option F) :=
  _ <- print (Banner "training gae") ;;
  for_each (seq 0 200) (train_gae_epoch D) (None, None).

(** The recon loss and the KL loss of one training pass of [train_vgae], as
    functions of the encoder, with the object and the generator the pass
    leaves. *)
Definition vgae_losses (D : Data F) (self : VGAE F (VGAEEncoder Conv)) (r : Rng)
    (enc : VGAEEncoder Conv)
  : VGAE F (VGAEEncoder Conv) * F * result F * Rng :=
  let self := {| super := with_encoder (super self) enc;
                 mu__ := mu__ self; logvar__ := logvar__ self |} in
  let '(self, z, r) := VGAE_encode self (x D) (train_pos_edge_index D) r in
  let '(recon_loss, r) := GAE_recon_loss (super self) z (train_pos_edge_index D) r in
  (self, recon_loss, VGAE_kl_loss self None None, r).

(** The body of the loop of [train_vgae]. *)
Definition train_vgae_epoch (D : Data F) (epoch : nat) (locals : option F * option F)
  : M W (option F * option F) :=
  v <- gets vgae ;;
  r <- gets rng ;;
  let '(v', recon_loss, kl_loss, r') := vgae_losses D v r (encoder (super v)) in
  _ <- modify (set_vgae v') ;;
  _ <- modify (set_rng r') ;;
  kl_loss <- lift kl_loss ;;
  weight <- lift (py_div (f_of_Z 1) (Z.of_nat (num_nodes D))) ;;
  let loss := fadd recon_loss (fmul weight kl_loss) in
  (* the same loss as a function of the encoder; [kl_loss] returns here too,
     the pass having set the attributes it reads *)
  let lossf := fun enc =>
    match vgae_losses D v r enc with
    | (_, recon_loss, Ok kl_loss, _) => fadd recon_loss (fmul weight kl_loss)
    | (_, recon_loss, Err _, _) => recon_loss
    end in
  opt <- gets vgae_optimizer ;;
  let '(opt, enc) := adam_step_vgae opt (encoder (super v)) lossf in
  _ <- modify (set_vgae_optimizer opt) ;;
  _ <- modify (fun w => set_vgae {| super := with_encoder (super (vgae w)) enc;
                                    mu__ := mu__ (vgae w);
                                    logvar__ := logvar__ (vgae w) |} w) ;;
  _ <- add_scalar "loss" loss epoch ;;
  ' (auc, ap) <- test D vgae_ref (test_pos_edge_index D) (test_neg_edge_index D) ;;
  _ <- add_scalar "AUC" auc epoch ;;
  _ <- add_scalar "AP" ap epoch ;;
  _ <- (if (Z.of_nat epoch + 1) mod 100 =? 0 then print (EpochLine epoch auc ap)
        else ret tt) ;;
  ret (Some auc, Some ap).

(** [train_vgae()] *)
Definition train_vgae (D : Data F) : M W (option F * option F) :=
  _ <- print (Banner "training vgae") ;;
  for_each (range 200) (train_vgae_epoch D) (None, None).

(** [ig.Graph()] *)
Definition ig_Graph : IGraph :=
  {| n_vertices := 0; ig_edges := []; vs_color := [] |}.

(** [g.add_vertices(n)] *)
Definition add_vertices (g : IGraph) (n : nat) : IGraph :=
  {| n_vertices := n_vertices g + n; ig_edges := ig_edges g; vs_color := vs_color g |}.

(** [g.add_edges(es)]: igraph refuses an edge to a vertex it does not have. *)
Definition add_edges (g : IGraph) (es : list (nat * nat)) : result IGraph :=
  if forallb (fun e => (e.1 <? n_vertices g)%nat && (e.2 <? n_vertices g)%nat) es then
    Ok {| n_vertices := n_vertices g; ig_edges := ig_edges g ++ es; vs_color := vs_color g |}
  else Err (LibraryError "igraph: invalid vertex ID").

(** [r = lambda: random.randint(0, 255)] *)
Definition r : M W Z :=
  fun w => let '(n, g) := randint 0 255 (py_random w) in (set_py_random g w, Ok n).

(** ['#%02X%02X%02X' % (r(), r(), r())] *)
Definition random_colour : M W Colour :=
  a <- r ;; b <- r ;; c <- r ;;
  ret {| red := a; green := b; blue := c |}.

(** [[colours[cls] for cls in ys]] *)
Fixpoint colour_of_each (colours : list Colour) (ys : list nat) : result (list Colour) :=
  match ys with
  | [] => Ok []
  | cls :: ys' =>
      match py_index colours cls with
      | Err e => Err e
      | Ok c => match colour_of_each colours ys' with
                | Err e => Err e
                | Ok cs => Ok (c :: cs)
                end
      end
  end.

(** [Image.open(outfile)] *)
Definition Image_open (outfile : string) : M W Img :=
  fs <- gets files ;;
  match fs !! outfile with
  | Some (PlotFile eps) => lift (image_open eps)
  | _ => raise (LibraryError "PIL: cannot identify image file")
  end.

(** [plot(data, outfile='./graph.eps')] *)
Definition plot (data : Data F) (outfile : string) : M W unit :=
  match edge_index data with
  | None =>
      raise (AssertionError "cannot plot after train_test_split_edges has been called")
  | Some edge_index =>
      let g := ig_Graph in
      let g := add_vertices g (num_nodes data) in
      let edges := edge_index in
      g <- lift (add_edges g edges) ;;
      (* np.unique(None) is the one-element array [None] *)
      let n_classes := match y data with
                       | Some ys => len (remove_dups ys)
                       | None => 1
                       end in
      colours <- for_each (range n_classes)
                          (fun _ colours => c <- random_colour ;; ret (colours ++ [c])) [] ;;
      ys <- match y data with
            | Some ys => ret ys
            | None => raise (TypeError "'NoneType' object is not iterable")
            end ;;
      color <- lift (colour_of_each colours ys) ;;
      let g := {| n_vertices := n_vertices g; ig_edges := ig_edges g; vs_color := color |} in
      layout <- lift (layout_auto g) ;;
      eps <- lift (ig_draw g layout) ;;
      _ <- modify (fun w => set_files (<[outfile := PlotFile eps]> (files w)) w) ;;
      img <- Image_open outfile ;;
      _ <- lift plt_subplots ;;
      _ <- lift (ax_imshow img) ;;
      _ <- lift plt_show ;;
      _ <- modify (fun w => set_shown (shown w ++ [img]) w) ;;
      ret tt
  end.

(** The metrics of the model [g] on the test edges, as [test] computes
    them, or the exception they raise. *)
Definition gae_metrics (D : Data F) (g : GAE F (GAEEncoder Conv)) : result (F * F) :=
  GAE_test g (GAE_encode g (x D) (train_pos_edge_index D))
           (test_pos_edge_index D) (test_neg_edge_index D).

(** What holds of the world [v] and of the locals after [n] epochs of
    [train_gae] started in [w]. *)
Definition after_epochs (D : Data F) (w : W) (n : nat) (locals : option F * option F)
    (v : W) : Prop :=
  writer v = writer w
  /\ (forall p, p <> writer w -> files v !! p = files w !! p)
  /\ log_index (logged (files v) (writer v))
     = log_index (logged (files w) (writer w)) ++ flat_map epoch_log (seq 0 n)
  /\ epochs_printed (stdout v) = epochs_printed (stdout w) ++ printing_epochs n
  /\ shown v = shown w
  /\ match n with
     | O => locals = (None, None)
     | S m => exists auc ap loss l,
         locals = (Some auc, Some ap)
         /\ gae_metrics D (gae v) = Ok (auc, ap)
         /\ logged (files v) (writer v)
            = l ++ [("loss"%string, loss, m); ("AUC"%string, auc, m);
                    ("AP"%string, ap, m)]
     end.

(** What holds of the world [v] in which epoch [k] of a training started in
    [w] has ended at its call of [test]: the epochs before it are complete
    and of epoch [k] the loss only is logged. *)
Definition stopped_in_epoch (w : W) (k : nat) (v : W) : Prop :=
  writer v = writer w
  /\ (forall p, p <> writer w -> files v !! p = files w !! p)
  /\ log_index (logged (files v) (writer v))
     = log_index (logged (files w) (writer w))
       ++ flat_map epoch_log (seq 0 k) ++ [("loss"%string, k)]
  /\ epochs_printed (stdout v) = epochs_printed (stdout w) ++ printing_epochs k
  /\ shown v = shown w.

(** Between two worlds, nothing on disk differs except the event file of
    the writer, and nothing more is shown. *)
Definition log_frame (w v : W) : Prop :=
  writer v = writer w
  /\ shown v = shown w
  /\ forall p, p <> writer w -> files v !! p = files w !! p.

(** Nothing on disk differs except the file [outfile], and nothing more
    is printed or logged. *)
Definition plot_frame (outfile : string) (w v : W) : Prop :=
  writer v = writer w
  /\ stdout v = stdout w
  /\ forall p, p <> outfile -> files v !! p = files w !! p.

(** Two worlds with the same [gae], the same optimizer for it and the same
    state of torch's generator. *)
Definition same_gae_state (w1 w2 : W) : Prop :=
  gae w1 = gae w2 /\ gae_optimizer w1 = gae_optimizer w2 /\ rng w1 = rng w2.

(** *** More of the notebook, and what the statements about it speak of *)

(** [InnerProductDecoder.forward_all(z, sigmoid)] *)
Definition InnerProductDecoder_forward_all (z : list (list F)) (sigmoid : bool)
  : M W (list (list F)) :=
  _ <- print (Banner "forward_all called") ;;
  let adj := matmul_t z in
  ret (if sigmoid then tmap fsigmoid adj else adj).

(** The mean the encoder of [v] computes on the training graph. *)
Definition vgae_mean (D : Data F) (v : VGAE F (VGAEEncoder Conv)) : list (list F) :=
  (VGAEEncoder_forward (encoder (super v)) (x D) (train_pos_edge_index D)).1.

(** Its log-variance, clamped as [encode] stores it. *)
Definition vgae_logvar (D : Data F) (v : VGAE F (VGAEEncoder Conv)) : list (list F) :=
  clamp_max (f_of_Z MAX_LOGVAR)
    (VGAEEncoder_forward (encoder (super v)) (x D) (train_pos_edge_index D)).2.

(** The metrics of the model [v] on the test edges, as [test] computes them:
    from the mean, the model being in evaluation mode. *)
Definition vgae_metrics (D : Data F) (v : VGAE F (VGAEEncoder Conv)) : result (F * F) :=
  GAE_test (super v) (vgae_mean D v) (test_pos_edge_index D) (test_neg_edge_index D).

(** The generator after the negative sampling of [recon_loss] for the
    embedding [z]. *)
Definition after_sampling (D : Data F) (z : list (list F)) (r : Rng) : Rng :=
  (negative_sampling (add_self_loops (remove_self_loops (train_pos_edge_index D)))
                     (len z) r).2.

(** What holds of the world [v] and of the locals after [n] epochs of
    [train_vgae] started in [w]. *)
Definition after_vgae_epochs (D : Data F) (w : W) (n : nat) (locals : option F * option F)
    (v : W) : Prop :=
  writer v = writer w
  /\ (forall p, p <> writer w -> files v !! p = files w !! p)
  /\ log_index (logged (files v) (writer v))
     = log_index (logged (files w) (writer w)) ++ flat_map epoch_log (seq 0 n)
  /\ epochs_printed (stdout v) = epochs_printed (stdout w) ++ printing_epochs n
  /\ shown v = shown w
  /\ match n with
     | O => locals = (None, None)
     | S m => exists auc ap loss l,
         locals = (Some auc, Some ap)
         /\ vgae_metrics D (vgae v) = Ok (auc, ap)
         /\ training (super (vgae v)) = false
         /\ logged (files v) (writer v)
            = l ++ [("loss"%string, loss, m); ("AUC"%string, auc, m);
                    ("AP"%string, ap, m)]
     end.

(** The generator of [random] after [n] calls of [r()]. *)
Definition after_draws (n : nat) (g : PyRng) : PyRng :=
  Nat.iter n (fun g => (randint 0 255 g).2) g.

(** The [n] colours drawn from the generator [g], three calls of [r()]
    each, red first. *)
Fixpoint colours_from (n : nat) (g : PyRng) : list Colour :=
  match n with
  | O => []
  | S n' =>
      {| red := (randint 0 255 g).1;
         green := (randint 0 255 (after_draws 1 g)).1;
         blue := (randint 0 255 (after_draws 2 g)).1 |}
      :: colours_from n' (after_draws 3 g)
  end.

(** The graph [plot] draws: the vertices and the edges of [data], and the
    colour of each vertex. *)
Definition plotted_graph (data : Data F) (ei : EdgeIndex) (color : list Colour) : IGraph :=
  {| n_vertices := num_nodes data; ig_edges := ei; vs_color := color |}.

End Notebook.

(** [format_pytorch_version(version)] *)
Definition format_pytorch_version (version : string) : result string :=
  py_index (py_split "+"%char version) 0.

(** [format_cuda_version(version)]; [torch.version.cuda], which it is
    called on, is [None] in a build without CUDA. *)
Definition format_cuda_version (version : option string) : result string :=
  match version with
  | None => Err (AttributeError "replace")
  | Some version => Ok ("cu" +:+ py_replace "."%char "" version)%string
  end.

End B3.

(** ** An integer instance of the interfaces

    The embedding is run on concrete inputs with integers for the floats. *)

Module Sample.

#[export] Instance float_Z : Float Z := {|
  flit q := Qnum q / Z.pos (Qden q);
  f_of_Z n := n;
  fadd := Z.add;
  fsub := Z.sub;
  fmul := Z.mul;
  fdiv := Z.div;
  fneg := Z.opp;
  fexp x := 2 ^ x;
  flog := Z.log2;
  fsigmoid x := if x <? 0 then 0 else 1;
  fltb := Z.ltb;
  fleb := Z.leb
|}.

(** A one-parameter network: it scores a graph by its number of vertices
    plus the parameter, and a step moves the parameter by the loss. *)
#[export] Instance gnn_Z : B1.Gnn Z Z nat := {|
  B1.dgl_batch gs :=
    {| B1.num_nodes := foldr Nat.add 0%nat (B1.num_nodes <$> gs);
       B1.edge_src := concat (B1.edge_src <$> gs);
       B1.edge_dst := concat (B1.edge_dst <$> gs) |};
  B1.forward n g := [[n; Z.of_nat (B1.num_nodes g)]];
  B1.hidden n g := [[n + Z.of_nat (B1.num_nodes g)]];
  B1.one_hot ys k := (fun y => (fun c => if y =? Z.of_nat c then 1 else 0) <$> seq 0 k) <$> ys;
  B1.mse_loss a b := foldr Z.add 0 (zip_with (fun x y => (x - y) * (x - y)) (concat a) (concat b));
  B1.adam n lr := 0%nat;
  B1.adam_step opt n loss := (S opt, n - loss n);
  B1.argmax_rows t := (fun row => if default 0 (row !! 0%nat) <? default 0 (row !! 1%nat) then 1 else 0) <$> t;
  B1.mean_rows t := default [] (head t)
|}.

(** A one-parameter model: a row of output per row of features, the
    parameter and the dropout draw in its first entry. *)
#[export] Instance sage_Z : B2.Sage Z Z nat nat := {|
  B2.set_training b m := m;
  B2.sage_forward m feats r := ((fun row => [m + Z.of_nat r; foldr Z.add 0 row]) <$> feats, S r);
  B2.cross_entropy t ys := foldr Z.add 0 (concat t);
  B2.optim_step opt m loss := (S opt, m - loss m);
  B2.max_indices t := (fun row => if default 0 (row !! 0%nat) <? default 0 (row !! 1%nat) then 1 else 0) <$> t;
  B2.np_mean l := foldr Z.add 0 l / Z.max 1 (len l);
  B2.time_time k := Z.of_nat k
|}.

(** Layers with one weight each, added to every entry; the optimizer moves
    the first weight by the loss; the generator is a counter; the metrics
    refuse labels of one class. *)
#[export] Instance pyg_Z : B3.Pyg Z Z nat nat := {|
  B3.gcn_conv c t ei := map (map (Z.add c)) t;
  B3.relu t := map (map (Z.max 0)) t;
  B3.remove_self_loops ei := filter (fun e => e.1 <> e.2) ei;
  B3.add_self_loops ei := ei;
  B3.negative_sampling ei n r := ([(r mod Z.to_nat (Z.max 1 n), S r mod Z.to_nat (Z.max 1 n))%nat], S r);
  B3.randn_like t r := (map (map (fun _ => Z.of_nat r)) t, S r);
  B3.roc_auc_score ys pred :=
    if existsb (Z.eqb 1) ys && existsb (Z.eqb 0) ys && (length ys =? length pred)%nat
    then Ok (foldr Z.add 0 pred)
    else Err (ValueError "Only one class present in y_true");
  B3.average_precision_score ys pred :=
    if (0 <? length ys)%nat && (length ys =? length pred)%nat
    then Ok (foldr Z.add 0 (zip_with Z.mul ys pred))
    else Err (ValueError "Found array with 0 sample(s)");
  B3.adam_step_gae opt enc loss :=
    (S opt, {| B3.conv1 := B3.conv1 enc + 1; B3.conv2 := B3.conv2 enc |});
  B3.adam_step_vgae opt enc loss :=
    (S opt, {| B3.vconv1 := B3.vconv1 enc + 1; B3.conv_mu := B3.conv_mu enc;
               B3.conv_logvar := B3.conv_logvar enc |})
|}.

(** Drawing, reading back and showing that always work: the drawing is the
    graph. *)
#[export] Instance igraph_ok : B3.Igraph nat unit B3.IGraph B3.IGraph := {|
  B3.randint a b g := (a + Z.of_nat g mod (b - a + 1), S g);
  B3.layout_auto g := Ok tt;
  B3.ig_draw g l := Ok g;
  B3.image_open eps := Ok eps;
  B3.plt_subplots := Ok tt;
  B3.ax_imshow img := Ok tt;
  B3.plt_show := Ok tt
|}.

Definition graph (n : nat) : B1.DGLGraph :=
  {| B1.num_nodes := n; B1.edge_src := []; B1.edge_dst := [] |}.



(** Three vertices with two features each; the second is the validation
    vertex. *)
Definition globals : B2.Globals Z :=
  {| B2.features := [[1; 2]; [3; 4]; [5; 6]];
     B2.labels := [0; 1; 0];
     B2.train_mask := [true; false; false];
     B2.val_mask := [false; true; false];
     B2.test_mask := [false; false; true];
     B2.n_edges := 2 |}.

Definition world2 : B2.World Z Z nat nat :=
  {| B2.model := 0; B2.optimizer := 0%nat; B2.rng := 0%nat; B2.clock := 0%nat;
     B2.stdout := [] |}.

(** Two vertices with one feature each, joined by the one training edge;
    the test edges are that edge and a self loop. *)
Definition data (edge_index : option (list (nat * nat))) : B3.Data Z :=
  {| B3.num_nodes := 2;
     B3.x := [[0]; [200]];
     B3.edge_index := edge_index;
     B3.y := Some [0; 1]%nat;
     B3.train_pos_edge_index := [(0, 1)]%nat;
     B3.test_pos_edge_index := [(0, 1)]%nat;
     B3.test_neg_edge_index := [(0, 0)]%nat |}.

(** The world of b3-vgae before any training: fresh models, nothing on
    disk, printed or shown. *)
Definition world3 : B3.World Z Z nat nat nat B3.IGraph B3.IGraph :=
  {| B3.gae := B3.GAE_init {| B3.conv1 := 0; B3.conv2 := -300 |};
     B3.gae_optimizer := 0%nat;
     B3.vgae := B3.VGAE_init {| B3.vconv1 := 0; B3.conv_mu := 0; B3.conv_logvar := 12 |};
     B3.vgae_optimizer := 0%nat;
     B3.writer := "./log/20260101-000000";
     B3.rng := 0%nat;
     B3.py_random := 0%nat;
     B3.files := ∅;
     B3.stdout := [];
     B3.shown := [] |}.

(** A dictionary with the one graph "19", of two edges. *)
Definition stargazer_edges : gmap string (list (nat * nat)) :=
  {[ "19"%string := [(0, 1); (1, 2)]%nat ]}.

(** Layers whose parameters are the number of layers built before them. *)
#[export] Instance layers_Z : B1.Layers Z nat nat := {|
  B1.GraphConv_params i o r := (r, S r);
  B1.Linear_params i o r := (r, S r);
  B1.graph_conv c g h := map (map (Z.add (Z.of_nat (B1.params c)))) h;
  B1.linear c h := map (map (Z.add (Z.of_nat (B1.params c)))) h;
  B1.torch_relu h := map (map (Z.max 0)) h;
  B1.mean_nodes g h := [default [] (head h)]
|}.

(** Undirected graphs as their edges, laid out by the number of edges. *)
#[export] Instance networkx_Z : B1.Networkx (list (nat * nat)) nat := {|
  B1.to_undirected g := B1.edges g;
  B1.kamada_kawai_layout g := length g
|}.

#[export] Instance sage_layers_Z : B2.SageLayers Z nat nat unit nat := {|
  B2.nn_Linear i o r := (r, S r);
  B2.calculate_gain_relu := 2;
  B2.xavier_uniform_ l gain r := (l, S r);
  B2.apply_linear l h := map (map (Z.add (Z.of_nat l))) h;
  B2.mean_of_neighbours g h := h;
  B2.F_relu h := map (map (Z.max 0)) h;
  B2.SAGEConv_params i o agg r := (r, S r)
|}.

(** A drawing that asks for the position of every vertex. *)
#[export] Instance drawing_Z : B2.NxDrawing Z (B2.Frame Z) := {|
  B2.np_argmax t := (fun row => if default 0 (row !! 0%nat) <? default 0 (row !! 1%nat) then 1 else 0) <$> t;
  B2.np_max t := (fun row => Z.max (default 0 (row !! 0%nat)) (default 0 (row !! 1%nat))) <$> t;
  B2.draw_networkx nodes frame :=
    if decide (nodes ⊆ (B2.pos frame).*1) then Ok frame
    else Err (LibraryError "networkx: node has no position")
|}.

(** A machine without Ghostscript: the saved drawing is opened, and
    decoding it for the axes fails. *)
Definition igraph_without_ghostscript : B3.Igraph nat unit B3.IGraph B3.IGraph := {|
  B3.randint a b g := (a + Z.of_nat g mod (b - a + 1), S g);
  B3.layout_auto g := Ok tt;
  B3.ig_draw g l := Ok g;
  B3.image_open eps := Ok eps;
  B3.plt_subplots := Ok tt;
  B3.ax_imshow img := Err (OSError "Unable to locate Ghostscript on paths");
  B3.plt_show := Ok tt
|}.

(** A dictionary with the graphs "0" to [n - 1], of one edge each. *)
Definition stargazer_graphs (n : nat) : gmap string (list (nat * nat)) :=
  list_to_map ((fun i => (pretty (Z.of_nat i), [(0, 1)]%nat)) <$> seq 0 n).

(** Scalars with a NaN, [None]: it is the result of any operation on it,
    and every comparison with it is false. *)
Definition float_nan : Float (option Z) := {|
  flit q := Some (Qnum q / Z.pos (Qden q));
  f_of_Z n := Some n;
  fadd a b := x ← a; y ← b; Some (x + y);
  fsub a b := x ← a; y ← b; Some (x - y);
  fmul a b := x ← a; y ← b; Some (x * y);
  fdiv a b := x ← a; y ← b; Some (x / y);
  fneg a := Z.opp <$> a;
  fexp a := Z.pow 2 <$> a;
  flog a := Z.log2 <$> a;
  fsigmoid a := (fun x => if x <? 0 then 0 else 1) <$> a;
  fltb a b := match a, b with Some x, Some y => x <? y | _, _ => false end;
  fleb a b := match a, b with Some x, Some y => x <=? y | _, _ => false end
|}.

(** No validation vertex. *)
Definition globals_without_validation : B2.Globals Z :=
  {| B2.features := [[1; 2]; [3; 4]; [5; 6]];
     B2.labels := [0; 1; 0];
     B2.train_mask := [true; false; false];
     B2.val_mask := [false; false; false];
     B2.test_mask := [false; false; true];
     B2.n_edges := 2 |}.

(** The graph of [data] with the labels [ys], its edges not yet split. *)
Definition labelled (ys : list nat) : B3.Data Z :=
  {| B3.num_nodes := 2;
     B3.x := [[0]; [200]];
     B3.edge_index := Some [(0, 1)]%nat;
     B3.y := Some ys;
     B3.train_pos_edge_index := [(0, 1)]%nat;
     B3.test_pos_edge_index := [(0, 1)]%nat;
     B3.test_neg_edge_index := [(0, 0)]%nat |}.


(** A graph without a vertex. *)
Definition no_data : B3.Data Z :=
  {| B3.num_nodes := 0;
     B3.x := [];
     B3.edge_index := None;
     B3.y := None;
     B3.train_pos_edge_index := [];
     B3.test_pos_edge_index := [];
     B3.test_neg_edge_index := [] |}.

End Sample.

(** * Proofs *)

Section PyFacts.

Lemma ceil_div_bounds (a b : Z) :
  0 < b -> b * (ceil_div a b - 1) < a <= b * ceil_div a b.
Proof.
  intros Hb. unfold ceil_div.
  pose proof (Z.div_mod (- a) b ltac:(lia)) as Hdm.
  pose proof (Z.mod_pos_bound (- a) b Hb) as Hr.
  nia.
Qed.

Lemma ceil_div_pos (a b : Z) : 0 < b -> 0 < a -> 0 < ceil_div a b.
Proof.
  intros Hb Ha. pose proof (ceil_div_bounds a b Hb). nia.
Qed.

Lemma fold_left_append2 {A B I : Type} (f : I -> A) (g : I -> B) (l : list I)
    (a : list A) (b : list B) :
  fold_left (fun '(u, v) i => (u ++ [f i], v ++ [g i])) l (a, b)
  = (a ++ map f l, b ++ map g l).
Proof.
  revert a b. induction l as [|i l IH]; intros a b; simpl.
  - by rewrite !app_nil_r.
  - rewrite IH. by rewrite <- !app_assoc.
Qed.

Lemma concat_chunks {A : Type} (l : list A) (b m : nat) :
  concat (map (fun i => take b (drop (b * i) l)) (seq 0 m)) = take (b * m) l.
Proof.
  induction m as [|m IH].
  - by rewrite Nat.mul_0_r.
  - rewrite seq_S, map_app, concat_app, IH. simpl.
    rewrite app_nil_r, take_take_drop. f_equal. lia.
Qed.

Lemma range_len {A : Type} (l : list A) : range (len l) = seq 0 (length l).
Proof. unfold range, len. by rewrite Nat2Z.id. Qed.

Lemma py_index_lookup {A : Type} (l : list A) (i : nat) (x : A) :
  l !! i = Some x -> py_index l i = Ok x.
Proof. intros Hl. unfold py_index. by rewrite Hl. Qed.

End PyFacts.

Section RunFacts.
Context {W : Type}.

Lemma bind_ok {A B : Type} (c : M W A) (k : A -> M W B) (w w' : W) (a : A) :
  c w = (w', Ok a) -> bind c k w = k a w'.
Proof. intros Hc. unfold bind. by rewrite Hc. Qed.

Lemma bind_err {A B : Type} (c : M W A) (k : A -> M W B) (w w' : W) (e : Exn) :
  c w = (w', Err e) -> bind c k w = (w', Err e).
Proof. intros Hc. unfold bind. by rewrite Hc. Qed.

Lemma for_each_app {A S : Type} (l1 l2 : list A) (body : A -> S -> M W S)
    (acc : S) (w : W) :
  for_each (l1 ++ l2) body acc w
  = bind (for_each l1 body acc) (for_each l2 body) w.
Proof.
  revert acc w. induction l1 as [|x l1 IH]; intros acc w; simpl.
  - reflexivity.
  - unfold bind. destruct (body x acc w) as [w' [s|e]]; [|reflexivity].
    rewrite IH. reflexivity.
Qed.

Lemma for_each_snoc {A S : Type} (l : list A) (x : A) (body : A -> S -> M W S)
    (acc acc' : S) (w w' : W) :
  for_each l body acc w = (w', Ok acc') ->
  for_each (l ++ [x]) body acc w = body x acc' w'.
Proof.
  intros Hl. rewrite for_each_app, (bind_ok _ _ _ _ _ Hl). simpl.
  unfold bind. by destruct (body x acc' w') as [? [?|?]].
Qed.

(** A loop over [0 .. n-1] whose body keeps an invariant runs to its end. *)
Lemma for_each_seq_inv {St : Type} (P : nat -> St -> W -> Prop)
    (body : nat -> St -> M W St) (n : nat) (acc : St) (w : W) :
  P 0%nat acc w ->
  (forall i a v, (i < n)%nat -> P i a v ->
     exists a' v', body i a v = (v', Ok a') /\ P (S i) a' v') ->
  exists a' v', for_each (seq 0 n) body acc w = (v', Ok a') /\ P n a' v'.
Proof.
  intros H0 Hstep. induction n as [|n IH].
  - exists acc, w. by split.
  - destruct IH as (a & v & Hrun & HP).
    { intros i a v Hi. apply Hstep. lia. }
    destruct (Hstep n a v ltac:(lia) HP) as (a' & v' & Hb & HP').
    exists a', v'. split; [|exact HP'].
    rewrite seq_S. simpl. by rewrite (for_each_snoc _ _ _ _ _ _ _ Hrun).
Qed.

(** A loop over [0 .. n-1] whose body either keeps an invariant or raises
    runs to its end or ends at the first round that raises, with that
    exception. *)
Lemma for_each_seq_stops {St : Type} (P : nat -> St -> W -> Prop)
    (Q : nat -> W -> Exn -> Prop) (body : nat -> St -> M W St) (n : nat)
    (acc : St) (w : W) :
  P 0%nat acc w ->
  (forall i a v, (i < n)%nat -> P i a v ->
     (exists a' v', body i a v = (v', Ok a') /\ P (S i) a' v')
     \/ (exists e v', body i a v = (v', Err e) /\ Q i v' e)) ->
  (exists a' v', for_each (seq 0 n) body acc w = (v', Ok a') /\ P n a' v')
  \/ (exists k e v', (k < n)%nat
                     /\ for_each (seq 0 n) body acc w = (v', Err e) /\ Q k v' e).
Proof.
  intros H0 Hstep. induction n as [|n IH].
  - left. exists acc, w. by split.
  - destruct IH as [(a & v & Hrun & HP)|(k & e & v & Hk & Hrun & HQ)].
    { intros i a v Hi. apply Hstep. lia. }
    + rewrite seq_S. cbn [Nat.add]. rewrite (for_each_snoc _ _ _ _ _ _ _ Hrun).
      destruct (Hstep n a v ltac:(lia) HP) as [(a' & v' & Hb & HP')|(e & v' & Hb & HQ)].
      * left. by exists a', v'.
      * right. exists n, e, v'. split; [lia|]. by split.
    + right. exists k, e, v. split; [lia|]. split; [|exact HQ].
      rewrite seq_S, for_each_app. by apply bind_err.
Qed.


(** Two runs of a loop from worlds related by [Q] give the same result, and
    related worlds, when each run of the body does. *)
Lemma for_each_two_runs {A St : Type} (Q : W -> W -> Prop) (body : A -> St -> M W St)
    (l : list A) (acc : St) (w1 w2 : W) :
  (forall x a v1 v2, Q v1 v2 ->
     (body x a v1).2 = (body x a v2).2 /\ Q (body x a v1).1 (body x a v2).1) ->
  Q w1 w2 ->
  (for_each l body acc w1).2 = (for_each l body acc w2).2
  /\ Q (for_each l body acc w1).1 (for_each l body acc w2).1.
Proof.
  intros Hbody. revert acc w1 w2.
  induction l as [|x l IH]; intros acc w1 w2 HQ; simpl.
  - by split.
  - unfold bind. destruct (Hbody x acc w1 w2 HQ) as [Hres HQ'].
    destruct (body x acc w1) as [v1 r1], (body x acc w2) as [v2 r2].
    simpl in *. subst r2. destruct r1 as [a|e]; [by apply IH | by split].
Qed.

(** A relation between the world before and the world after that every
    step keeps is kept by sequences and loops, whether they return or
    raise. *)
Section Frame.
Variable R : W -> W -> Prop.
Hypothesis R_refl : forall w, R w w.
Hypothesis R_trans : forall w1 w2 w3, R w1 w2 -> R w2 w3 -> R w1 w3.

Lemma keeps_ret {A : Type} (a : A) : keeps R (ret a).
Proof. intros w. apply R_refl. Qed.

Lemma keeps_raise {A : Type} (e : Exn) : keeps R (raise (A := A) e).
Proof. intros w. apply R_refl. Qed.

Lemma keeps_lift {A : Type} (r : result A) : keeps R (lift r).
Proof. intros w. apply R_refl. Qed.

Lemma keeps_gets {A : Type} (f : W -> A) : keeps R (gets f).
Proof. intros w. apply R_refl. Qed.

Lemma keeps_bind {A B : Type} (c : M W A) (k : A -> M W B) :
  keeps R c -> (forall a, keeps R (k a)) -> keeps R (bind c k).
Proof.
  intros Hc Hk w. unfold bind. specialize (Hc w).
  destruct (c w) as [w' [a|e]]; simpl in *; [|exact Hc].
  eapply R_trans; [exact Hc | apply Hk].
Qed.

Lemma keeps_for_each {A St : Type} (l : list A) (body : A -> St -> M W St) (acc : St) :
  (forall x a, keeps R (body x a)) -> keeps R (for_each l body acc).
Proof.
  intros Hb. revert acc. induction l as [|x l IH]; intros acc; simpl.
  - apply keeps_ret.
  - apply keeps_bind; [apply Hb | exact IH].
Qed.

End Frame.

End RunFacts.

Module B2Facts.
Import B2 Sample.

Section Training.
Context {F Model Optim Rng : Type} `{Float F} `{Sage F Model Optim Rng}.

Lemma epochs_reported_app (a b : list (Line F)) :
  epochs_reported (a ++ b) = epochs_reported a ++ epochs_reported b.
Proof. apply omap_app. Qed.

Lemma get_accuracy_ok (pred : list (list F)) (true_ : list Z) :
  true_ <> [] -> exists acc, get_accuracy pred true_ = Ok acc.
Proof.
  intros Hne. unfold get_accuracy, py_div.
  destruct (Z.eqb_spec (len true_) 0) as [Hz|_]; [|by eexists].
  destruct true_; [done | unfold len in Hz; simpl in Hz; lia].
Qed.

(** One epoch of [train]: two clock readings, one more duration and one more
    logits tensor, one report line, and [output] bound. *)
Lemma sage_epoch_run (G : Globals F) (epoch : nat) (dur : list F)
    (logits : list (list (list F))) (o : option (list (list F)))
    (w : World F Model Optim Rng) :
  mask_select (val_mask G) (labels G) <> [] ->
  exists w' dur' logits' out,
    train_epoch G epoch (dur, logits, o) w = (w', Ok (dur', logits', Some out))
    /\ length dur' = S (length dur)
    /\ length logits' = S (length logits)
    /\ clock w' = (clock w + 2)%nat
    /\ epochs_reported (stdout w') = epochs_reported (stdout w) ++ [epoch].
Proof.
  intros Hval. unfold train_epoch.
  unfold bind, modify, time, gets, lift, print, ret, set_model, set_rng, set_optimizer.
  simpl.
  destruct (sage_forward _ _ _) as [output r'] eqn:Ef. simpl.
  destruct (optim_step _ _ _) as [opt' m'] eqn:Eo. simpl.
  destruct (get_accuracy_ok (mask_select (val_mask G) output) _ Hval) as [acc Hacc].
  rewrite Hacc. simpl.
  eexists _, _, _, _. split; [reflexivity|]. simpl.
  rewrite !length_app, epochs_reported_app. simpl.
  repeat split; lia.
Qed.

Lemma train_loop (G : Globals F) (n : nat) (w : World F Model Optim Rng) :
  mask_select (val_mask G) (labels G) <> [] ->
  exists locals v,
    for_each (seq 0 n) (train_epoch G) ([], [], None) w = (v, Ok locals)
    /\ after_epochs w n locals v.
Proof.
  intros Hval. apply (for_each_seq_inv (after_epochs w)).
  - unfold after_epochs. simpl. rewrite app_nil_r.
    repeat split; first [done | lia].
  - intros i [[dur logits] o] v Hi (Hd & Hl & Hc & Hout & _). simpl in *.
    destruct (sage_epoch_run G i dur logits o v Hval)
      as (v' & dur' & logits' & out & Hrun & Hd' & Hl' & Hc' & Hout').
    exists (dur', logits', Some out), v'. split; [exact Hrun|].
    unfold after_epochs. cbn [fst snd]. rewrite Hd', Hl', Hc', Hout', Hd, Hl, Hc, Hout.
    rewrite seq_S, <- app_assoc. cbn [Nat.add].
    repeat split; first [done | lia | by eexists].
Qed.


End Training.

End B2Facts.

Module B3Facts.
Import B3 Sample.

Ltac world_simpl :=
  cbn [set_gae set_gae_optimizer set_vgae set_vgae_optimizer set_writer set_rng
       set_py_random set_files set_stdout set_shown
       gae gae_optimizer vgae vgae_optimizer writer rng py_random files stdout shown
       super mu__ logvar__ encoder decoder training with_encoder GAE_eval fst snd].

Ltac world_simpl_in H :=
  cbn [set_gae set_gae_optimizer set_vgae set_vgae_optimizer set_writer set_rng
       set_py_random set_files set_stdout set_shown
       gae gae_optimizer vgae vgae_optimizer writer rng py_random files stdout shown
       super mu__ logvar__ encoder decoder training with_encoder GAE_eval fst snd] in H.

Section Models.
Context {F Conv Optim Rng : Type} `{Float F} `{Pyg F Conv Optim Rng}.

Lemma InnerProductDecoder_scores (z : list (list F)) (ei : EdgeIndex) :
  InnerProductDecoder_forward z ei true = edge_score z <$> ei.
Proof.
  unfold InnerProductDecoder_forward, tzip, rows_at.
  induction ei as [|[a b] ei IH]; [done|].
  rewrite !fmap_cons. simpl. f_equal. exact IH.
Qed.

(** C3: [GAE.test] hands the two metrics a ground truth of one 1 per
    positive edge followed by one 0 per negative edge, and the scores the
    decoder gives (with sigmoid) to the positive edges followed by those of
    the negative edges, and returns the pair (AUC, AP) of these two vectors,
    the AUC computed first: it returns a pair exactly when both metrics
    return on them, and raises what the first of them to raise does.  With
    the default decoder the scores are as many as the labels, the score at
    a position being the sigmoid of the inner product of the embeddings of
    the edge at that position. *)
Theorem GAE_test_labels_and_scores {Enc : Type} (self : GAE F Enc)
    (enc : Enc) (z : list (list F)) (pos_edge_index neg_edge_index : EdgeIndex) :
  let y := replicate (length pos_edge_index) (flit 1)
           ++ replicate (length neg_edge_index) (flit 0) in
  let pred := decoder self z pos_edge_index true
              ++ decoder self z neg_edge_index true in
  (forall auc ap,
      GAE_test self z pos_edge_index neg_edge_index = Ok (auc, ap)
      <-> roc_auc_score y pred = Ok auc /\ average_precision_score y pred = Ok ap)
  /\ (forall e,
      GAE_test self z pos_edge_index neg_edge_index = Err e
      <-> roc_auc_score y pred = Err e
          \/ (exists auc, roc_auc_score y pred = Ok auc)
             /\ average_precision_score y pred = Err e)
  /\ length y = (length pos_edge_index + length neg_edge_index)%nat
  /\ (forall i, (i < length pos_edge_index)%nat -> y !! i = Some (flit 1))
  /\ (forall i, (i < length neg_edge_index)%nat ->
        y !! (length pos_edge_index + i)%nat = Some (flit 0))
  /\ (let pred := decoder (GAE_init enc) z pos_edge_index true
                  ++ decoder (GAE_init enc) z neg_edge_index true in
      length pred = length y
      /\ (forall i e, pos_edge_index !! i = Some e ->
            pred !! i = Some (edge_score z e))
      /\ (forall i e, neg_edge_index !! i = Some e ->
            pred !! (length pos_edge_index + i)%nat = Some (edge_score z e))).
Proof.
  intros y pred. split.
  { intros auc ap. unfold GAE_test. fold y pred.
    destruct (roc_auc_score y pred) as [a|e]; [|split; [done | by intros [? _]]].
    destruct (average_precision_score y pred) as [p|e]; [|split; [done | by intros [_ ?]]].
    split; [by intros [= -> ->] | by intros [[= ->] [= ->]]]. }
  split.
  { intros e. unfold GAE_test. fold y pred.
    destruct (roc_auc_score y pred) as [a|e1].
    - destruct (average_precision_score y pred) as [p|e2].
      + split; [done | by intros [?|[_ ?]]].
      + split; [intros [= ->]; right; split; [by eexists | done]|].
        by intros [?|[_ [= ->]]].
    - split; [intros [= ->]; by left|]. by intros [[= ->]|[[? ?] _]]. }
  split.
  { unfold y. by rewrite length_app, !length_replicate. }
  split.
  { intros i Hi. unfold y. rewrite lookup_app_l by (by rewrite length_replicate).
    by apply lookup_replicate_2. }
  split.
  { intros i Hi. unfold y.
    rewrite lookup_app_r by (rewrite length_replicate; lia).
    rewrite length_replicate. apply lookup_replicate_2. lia. }
  cbv zeta. cbn [decoder GAE_init]. rewrite !InnerProductDecoder_scores. split.
  { unfold y. by rewrite !length_app, !length_fmap, !length_replicate. }
  split.
  - intros i e He.
    rewrite lookup_app_l by (rewrite length_fmap; by eapply lookup_lt_Some).
    by rewrite list_lookup_fmap, He.
  - intros i e He.
    rewrite lookup_app_r by (rewrite length_fmap; lia).
    rewrite length_fmap, list_lookup_fmap.
    replace (length pos_edge_index + i - length pos_edge_index)%nat with i by lia.
    by rewrite He.
Qed.

Lemma entry_tzip (f : F -> F -> F) (a b : list (list F)) (i j : nat) :
  entry (tzip f a b) i j
  = (u ← entry a i j; v ← entry b i j; Some (f u v)).
Proof.
  unfold entry, tzip. rewrite lookup_zip_with.
  destruct (a !! i) as [ra|]; simpl; [|done].
  destruct (b !! i) as [rb|]; simpl.
  - rewrite lookup_zip_with. by destruct (ra !! j).
  - by destruct (ra !! j).
Qed.

Lemma entry_tmap (f : F -> F) (a : list (list F)) (i j : nat) :
  entry (tmap f a) i j = f <$> entry a i j.
Proof.
  unfold entry, tmap. change (map (map f) a) with (map f <$> a).
  rewrite list_lookup_fmap. destruct (a !! i) as [ra|]; simpl; [|done].
  change (map f ra) with (f <$> ra). by rewrite list_lookup_fmap.
Qed.

(** C6: out of training mode [reparametrize] returns [mu] itself and leaves
    the random generator alone, so [encode] returns the mean computed by
    the encoder whatever the generator's state; in training mode the result
    is [mu + eps * exp(logvar)] entry by entry, [eps] being drawn by
    [randn_like] for the log-variance [encode] has already clamped. *)
Theorem VGAE_encode_is_random_only_in_training
    (self : VGAE F (VGAEEncoder Conv)) (mu logvar x : list (list F))
    (edge_index : EdgeIndex) (r r2 : Rng) :
  let enc_mu := (VGAEEncoder_forward (encoder (super self)) x edge_index).1 in
  let enc_logvar := (VGAEEncoder_forward (encoder (super self)) x edge_index).2 in
  let clamped := clamp_max (f_of_Z MAX_LOGVAR) enc_logvar in
  (training (super self) = false ->
     VGAE_reparametrize self mu logvar r = (mu, r)
     /\ (VGAE_encode self x edge_index r).1.2 = enc_mu
     /\ (VGAE_encode self x edge_index r).2 = r
     /\ (VGAE_encode self x edge_index r2).1.2 = (VGAE_encode self x edge_index r).1.2)
  /\ (training (super self) = true ->
     let eps := (randn_like logvar r).1 in
     VGAE_reparametrize self mu logvar r
     = (tzip fadd mu (tzip fmul eps (tmap fexp logvar)), (randn_like logvar r).2)
     /\ (forall i j,
          entry (VGAE_reparametrize self mu logvar r).1 i j
          = (m ← entry mu i j; e ← entry eps i j; l ← entry logvar i j;
             Some (fadd m (fmul e (fexp l)))))
     /\ (VGAE_encode self x edge_index r).1.2
        = tzip fadd enc_mu
            (tzip fmul (randn_like clamped r).1 (tmap fexp clamped))
     /\ (VGAE_encode self x edge_index r).2 = (randn_like clamped r).2).
Proof.
  intros enc_mu enc_logvar clamped. split; intros Ht.
  - assert (Hre : forall m l g, VGAE_reparametrize self m l g = (m, g)).
    { intros m l g. unfold VGAE_reparametrize. by rewrite Ht. }
    assert (Hen : forall g, VGAE_encode self x edge_index g
                            = ({| super := super self; mu__ := Some enc_mu;
                                  logvar__ := Some clamped |}, enc_mu, g)).
    { intros g. unfold VGAE_encode, enc_mu, clamped, enc_logvar.
      destruct (VGAEEncoder_forward _ _ _) as [m l]. simpl.
      unfold VGAE_reparametrize. simpl. by rewrite Ht. }
    rewrite Hre, !Hen. done.
  - assert (Hre : forall m l g, VGAE_reparametrize self m l g
              = (tzip fadd m (tzip fmul (randn_like l g).1 (tmap fexp l)),
                 (randn_like l g).2)).
    { intros m l g. unfold VGAE_reparametrize. rewrite Ht.
      by destruct (randn_like l g). }
    intros eps. split; [apply Hre|]. split.
    { intros i j. rewrite Hre. simpl. rewrite entry_tzip, entry_tzip, entry_tmap.
      fold eps. destruct (entry mu i j); simpl; [|done].
      destruct (entry eps i j); simpl; [|done].
      by destruct (entry logvar i j). }
    unfold VGAE_encode, enc_mu, clamped, enc_logvar.
    destruct (VGAEEncoder_forward _ _ _) as [m l]. simpl.
    unfold VGAE_reparametrize. simpl. rewrite Ht.
    destruct (randn_like (clamp_max _ l) r) as [e g]. by split.
Qed.

(** What [clamp(max=m)] returns has no entry greater than [m] but [m]
    itself, whatever the comparison does. *)
Lemma clamp_max_clamped (m : F) (t : list (list F)) : clamped_at m (clamp_max m t).
Proof.
  unfold clamped_at, clamp_max, tmap.
  induction t as [|row t IH]; simpl; constructor; [|exact IH].
  clear IH. induction row as [|v row IH]; simpl; constructor; [|exact IH].
  destruct (fltb m v) eqn:E; [by left | by right].
Qed.

(** A clamped tensor is bounded where its entries compare with the bound. *)
Lemma clamped_bounded (m : F) (t : list (list F)) :
  fleb m m = true -> clamped_at m t -> ordered_with m t -> bounded_above m t.
Proof.
  intros Hm. unfold clamped_at, ordered_with, bounded_above.
  induction t as [|row t IH]; intros Hc Ho; [constructor|].
  apply Forall_cons in Hc as [Hrow Hc]. apply Forall_cons in Ho as [Horow Ho].
  constructor; [|by apply IH].
  clear IH Hc Ho. induction row as [|v row IH]; [constructor|].
  apply Forall_cons in Hrow as [Hv Hrow]. apply Forall_cons in Horow as [Hov Horow].
  constructor; [|by apply IH].
  destruct Hv as [->|Hv]; [exact Hm | by apply Hov].
Qed.

Lemma VGAE_encode_attributes (self : VGAE F (VGAEEncoder Conv)) (x : list (list F))
    (edge_index : EdgeIndex) (r : Rng) :
  let out := VGAEEncoder_forward (encoder (super self)) x edge_index in
  mu__ (VGAE_encode self x edge_index r).1.1 = Some out.1
  /\ logvar__ (VGAE_encode self x edge_index r).1.1
     = Some (clamp_max (f_of_Z MAX_LOGVAR) out.2).
Proof.
  unfold VGAE_encode. destruct (VGAEEncoder_forward _ _ _) as [m l]. simpl.
  by destruct (VGAE_reparametrize _ _ _ _).
Qed.

(** The stored log-variance of a reachable object is clamped. *)
Lemma reachable_logvar_clamped (self : VGAE F (VGAEEncoder Conv)) :
  reachable self ->
  forall lv, logvar__ self = Some lv -> clamped_at (f_of_Z MAX_LOGVAR) lv.
Proof.
  induction 1 as [enc | self self' Hreach IH Hstep]; intros lv Hlv.
  - discriminate Hlv.
  - inversion Hstep as [s x ei r | s | s | s enc]; subst; simpl in Hlv.
    + rewrite (proj2 (VGAE_encode_attributes self x ei r)) in Hlv.
      injection Hlv as <-. apply clamp_max_clamped.
    + by apply IH.
    + by apply IH.
    + by apply IH.
Qed.

(** C8, amended: whatever [kl_loss] is called on and with, the log-variance
    it computes with has gone through [clamp(max=MAX_LOGVAR)]: a passed
    [logvar] is clamped first, and the stored one was clamped by [encode],
    the only place that sets it.  So none of its entries is greater than
    [MAX_LOGVAR = 10] but 10 itself, and it is bounded above by 10 when its
    entries compare with 10, that is when none is a NaN, which the clamp
    leaves in place.  [mu], passed or stored, is used as it is, and [encode]
    stores the encoder's mean unclamped.  The call returns whenever each
    operand is passed or has been stored. *)
Theorem kl_loss_logvar_is_clamped (self : VGAE F (VGAEEncoder Conv))
    (mu logvar : option (list (list F))) (x : list (list F))
    (edge_index : EdgeIndex) (r : Rng) :
  reachable self ->
  (forall m lv,
      VGAE_kl_operands self mu logvar = Ok (m, lv) ->
      clamped_at (f_of_Z MAX_LOGVAR) lv
      /\ (fleb (f_of_Z MAX_LOGVAR) (f_of_Z MAX_LOGVAR) = true ->
          ordered_with (f_of_Z MAX_LOGVAR) lv ->
          bounded_above (f_of_Z MAX_LOGVAR) lv)
      /\ VGAE_kl_loss self mu logvar = Ok (kl_value m lv)
      /\ Some m = (match mu with Some m' => Some m' | None => mu__ self end)
      /\ Some lv = (match logvar with
                    | Some l => Some (clamp_max (f_of_Z MAX_LOGVAR) l)
                    | None => logvar__ self
                    end))
  /\ (is_Some mu \/ is_Some (mu__ self) ->
      is_Some logvar \/ is_Some (logvar__ self) ->
      exists m lv, VGAE_kl_operands self mu logvar = Ok (m, lv))
  /\ (let out := VGAEEncoder_forward (encoder (super self)) x edge_index in
      let self' := (VGAE_encode self x edge_index r).1.1 in
      mu__ self' = Some out.1
      /\ logvar__ self' = Some (clamp_max (f_of_Z MAX_LOGVAR) out.2)
      /\ VGAE_kl_operands self' None None
         = Ok (out.1, clamp_max (f_of_Z MAX_LOGVAR) out.2)).
Proof.
  intros Hreach. split; [|split].
  - intros m lv Hop.
    assert (Hb : clamped_at (f_of_Z MAX_LOGVAR) lv
                 /\ Some m = (match mu with Some m' => Some m' | None => mu__ self end)
                 /\ Some lv = (match logvar with
                               | Some l => Some (clamp_max (f_of_Z MAX_LOGVAR) l)
                               | None => logvar__ self
                               end)).
    { unfold VGAE_kl_operands in Hop.
      destruct mu as [m'|]; [|destruct (mu__ self) as [m'|]; [|done]].
      all: destruct logvar as [l|];
        [|destruct (logvar__ self) as [l|] eqn:El; [|done]].
      all: injection Hop as <- <-.
      all: repeat split; try apply clamp_max_clamped.
      all: by apply (reachable_logvar_clamped self Hreach). }
    destruct Hb as (Hb & Hm & Hl). split; [exact Hb|].
    split; [intros Hmax Hord; by apply clamped_bounded|].
    split; [|by split]. unfold VGAE_kl_loss. by rewrite Hop.
  - intros Hmu Hlv. unfold VGAE_kl_operands.
    destruct mu as [m'|]; [|destruct (mu__ self) as [m'|]].
    3: { destruct Hmu as [[? [=]]|[? [=]]]. }
    all: destruct logvar as [l|]; [|destruct (logvar__ self) as [l|]].
    all: try (by eexists _, _).
    all: destruct Hlv as [[? [=]]|[? [=]]].
  - intros out self'.
    destruct (VGAE_encode_attributes self x edge_index r) as [Hm Hl].
    fold out self' in Hm, Hl. split; [exact Hm|]. split; [exact Hl|].
    unfold VGAE_kl_operands. by rewrite Hm, Hl.
Qed.

End Models.

(** C8 on a model that has encoded once: the encoder's log-variances 13 and
    14 are stored, and used, as 10. *)
Lemma kl_loss_logvar_is_clamped_witness :
  VGAE_kl_operands
    (VGAE_encode (vgae Sample.world3) [[1]; [2]] [(0, 1)]%nat 7%nat).1.1 None None
  = Ok ([[1]; [2]], [[10]; [10]]).
Proof.
  exact (proj2 (proj2 (proj2 (proj2
    (kl_loss_logvar_is_clamped
       (vgae Sample.world3) None None [[1]; [2]] [(0, 1)]%nat 7%nat
       (reach_init _)))))).
Defined.

(** C8 as stated fails on scalars with a NaN: [kl_loss] called with a
    log-variance whose one entry is NaN computes with that entry, which is
    not at most 10. *)
Lemma kl_loss_keeps_a_nan_logvar :
  @VGAE_kl_operands (option Z) Sample.float_nan unit
     (@VGAE_init (option Z) Sample.float_nan unit tt) (Some [[Some 0]]) (Some [[None]])
  = Ok ([[Some 0]], [[None]])
  /\ ~ @bounded_above (option Z) Sample.float_nan
         (@f_of_Z (option Z) Sample.float_nan MAX_LOGVAR) [[None]].
Proof.
  split; [reflexivity|].
  intros Hb. apply Forall_cons in Hb as [Hrow _]. apply Forall_cons in Hrow as [Hv _].
  discriminate Hv.
Qed.

(** C6 on a model in evaluation mode and on one in training mode. *)
Lemma VGAE_encode_is_random_only_in_training_witness :
  (VGAE_encode (VGAE_eval (vgae Sample.world3)) [[1]; [2]] [(0, 1)]%nat 7%nat).1.2
  = [[1]; [2]]
  /\ (VGAE_encode (vgae Sample.world3) [[1]; [2]] [(0, 1)]%nat 7%nat).1.2
     = [[1 + 7 * 2 ^ 10]; [2 + 7 * 2 ^ 10]].
Proof.
  split.
  - exact (proj1 (proj2 (proj1 (VGAE_encode_is_random_only_in_training
             (VGAE_eval (vgae Sample.world3)) [] [] [[1]; [2]] [(0, 1)]%nat 7%nat 0%nat)
             eq_refl))).
  - exact (proj1 (proj2 (proj2 (proj2 (VGAE_encode_is_random_only_in_training
             (vgae Sample.world3) [] [] [[1]; [2]] [(0, 1)]%nat 7%nat 0%nat)
             eq_refl)))).
Defined.

Section Notebook.
Context {F Conv Optim Rng PyRng Layout Eps Img : Type}
  `{Float F} `{Pyg F Conv Optim Rng} `{Igraph PyRng Layout Eps Img}.
Abbreviation W := (World F Conv Optim Rng PyRng Eps Img).

Lemma logged_insert (fs : gmap string (File F Eps)) (dir : string)
    (l : list (string * F * nat)) :
  logged (<[dir := EventFile l]> fs) dir = l.
Proof. unfold logged. by rewrite lookup_insert_eq. Qed.

Lemma printing_epochs_S (n : nat) :
  printing_epochs (S n)
  = printing_epochs n ++ (if (Z.of_nat n + 1) mod 100 =? 0 then [n] else []).
Proof.
  unfold printing_epochs. rewrite seq_S, filter_app. f_equal. simpl.
  rewrite filter_cons, filter_nil.
  destruct (Z.eqb_spec ((Z.of_nat n + 1) mod 100) 0); by case_decide.
Qed.

(** [test] on [gae]: the model is switched to evaluation mode, and the
    outcome is that of its metrics. *)
Lemma test_gae_run (D : Data F) (pos neg : EdgeIndex) (w : W) :
  test D gae_ref pos neg w
  = (set_gae (GAE_eval (gae w)) w,
     GAE_test (gae w) (GAE_encode (gae w) (x D) (train_pos_edge_index D)) pos neg).
Proof. destruct w. reflexivity. Qed.

(** [test] on [vgae]: in evaluation mode the embedding is the mean. *)
Lemma test_vgae_run (D : Data F) (pos neg : EdgeIndex) (w : W) :
  test D vgae_ref pos neg w
  = (set_vgae {| super := GAE_eval (super (vgae w));
                 mu__ := Some (vgae_mean D (vgae w));
                 logvar__ := Some (vgae_logvar D (vgae w)) |} w,
     GAE_test (super (vgae w)) (vgae_mean D (vgae w)) pos neg).
Proof. destruct w. reflexivity. Qed.

(** One epoch of [train_gae].  The optimizer steps on the loss of the
    encoder the epoch starts with, and that loss is logged; the model is
    left in evaluation mode.  Then the metrics of the stepped model decide:
    if they raise, the epoch ends there with their exception; if they
    return, they are logged, printed every hundredth epoch, and bound to
    the locals. *)
Lemma train_gae_epoch_run (D : Data F) (epoch : nat) (locals : option F * option F)
    (w : W) :
  let g := gae w in
  let loss := (gae_loss D g (rng w) (encoder g)).1 in
  let step := adam_step_gae (gae_optimizer w) (encoder g)
                            (fun enc => (gae_loss D g (rng w) enc).1) in
  let g' := GAE_eval (with_encoder g step.2) in
  exists w1,
    gae w1 = g' /\ gae_optimizer w1 = step.1
    /\ rng w1 = (gae_loss D g (rng w) (encoder g)).2
    /\ writer w1 = writer w
    /\ logged (files w1) (writer w1)
       = logged (files w) (writer w) ++ [("loss"%string, loss, epoch)]
    /\ (forall p, p <> writer w -> files w1 !! p = files w !! p)
    /\ stdout w1 = stdout w
    /\ shown w1 = shown w
    /\ match gae_metrics D g' with
       | Err e => train_gae_epoch D epoch locals w = (w1, Err e)
       | Ok (auc, ap) =>
           exists w',
             train_gae_epoch D epoch locals w = (w', Ok (Some auc, Some ap))
             /\ gae w' = g' /\ gae_optimizer w' = step.1 /\ rng w' = rng w1
             /\ writer w' = writer w
             /\ logged (files w') (writer w')
                = logged (files w) (writer w)
                  ++ [("loss"%string, loss, epoch); ("AUC"%string, auc, epoch);
                      ("AP"%string, ap, epoch)]
             /\ (forall p, p <> writer w -> files w' !! p = files w !! p)
             /\ stdout w' = stdout w ++ (if (Z.of_nat epoch + 1) mod 100 =? 0
                                         then [EpochLine epoch auc ap] else [])
             /\ shown w' = shown w
       end.
Proof.
  intros g loss step g'. subst g' loss step g.
  unfold train_gae_epoch, add_scalar, print.
  unfold bind, modify, gets, ret. cbn -[GAE_test GAE_encode gae_loss test gae_metrics].
  destruct (gae_loss D (gae w) (rng w) (encoder (gae w))) as [loss r'] eqn:El.
  cbn -[GAE_test GAE_encode gae_loss test gae_metrics].
  destruct (adam_step_gae _ _ _) as [opt enc] eqn:Ea.
  cbn -[GAE_test GAE_encode gae_loss test gae_metrics]. rewrite test_gae_run.
  world_simpl.
  change (GAE_test (with_encoder (gae w) enc)
            (GAE_encode (with_encoder (gae w) enc) (x D) (train_pos_edge_index D))
            (test_pos_edge_index D) (test_neg_edge_index D))
    with (gae_metrics D (GAE_eval (with_encoder (gae w) enc))).
  eexists {| gae := GAE_eval (with_encoder (gae w) enc); gae_optimizer := opt;
             vgae := vgae w; vgae_optimizer := vgae_optimizer w; writer := writer w;
             rng := r'; py_random := py_random w;
             files := <[writer w := EventFile (logged (files w) (writer w)
                                               ++ [("loss"%string, loss, epoch)])]> (files w);
             stdout := stdout w; shown := shown w |}.
  world_simpl. rewrite logged_insert.
  do 5 (split; [reflexivity|]).
  split; [intros p Hp; by rewrite lookup_insert_ne|].
  do 2 (split; [reflexivity|]).
  destruct (gae_metrics D _) as [[auc ap]|e]; [|reflexivity].
  world_simpl. rewrite !logged_insert, !insert_insert_eq, <- !app_assoc.
  destruct ((Z.of_nat epoch + 1) mod 100 =? 0); world_simpl.
  all: eexists; (split; [reflexivity|]); world_simpl.
  all: rewrite ?logged_insert, ?app_nil_r.
  all: do 5 (split; [reflexivity|]).
  all: (split; [intros p Hp; by rewrite lookup_insert_ne|]).
  all: done.
Qed.

(** In a training pass of [train_vgae], [kl_loss] finds the attributes that
    [encode] has just set. *)
Lemma vgae_losses_kl_returns (D : Data F) (v : VGAE F (VGAEEncoder Conv)) (r0 : Rng)
    (enc : VGAEEncoder Conv) :
  exists kl, (vgae_losses D v r0 enc).1.2 = Ok kl.
Proof.
  unfold vgae_losses.
  pose proof (VGAE_encode_attributes
                {| super := with_encoder (super v) enc;
                   mu__ := mu__ v; logvar__ := logvar__ v |}
                (x D) (train_pos_edge_index D) r0) as [Hm Hl].
  destruct (VGAE_encode _ _ _ _) as [[v' z] r1]. simpl in Hm, Hl.
  destruct (GAE_recon_loss _ _ _ _) as [recon r2]. simpl.
  unfold VGAE_kl_loss, VGAE_kl_operands. rewrite Hm, Hl. by eexists.
Qed.

Lemma log_index_app (a b : list (string * F * nat)) :
  log_index (a ++ b) = log_index a ++ log_index b.
Proof. apply fmap_app. Qed.

Lemma epochs_printed_app (a b : list (Line F)) :
  epochs_printed (a ++ b) = epochs_printed a ++ epochs_printed b.
Proof. apply omap_app. Qed.

(** The loop of [train_gae] over [n] epochs runs them all, or ends in the
    first epoch whose metrics raise, with their exception. *)
Lemma train_gae_loop (D : Data F) (n : nat) (w : W) :
  (exists locals v,
      for_each (seq 0 n) (train_gae_epoch D) (None, None) w = (v, Ok locals)
      /\ after_epochs D w n locals v)
  \/ (exists k e v,
        (k < n)%nat
        /\ for_each (seq 0 n) (train_gae_epoch D) (None, None) w = (v, Err e)
        /\ stopped_in_epoch w k v /\ gae_metrics D (gae v) = Err e).
Proof.
  apply (for_each_seq_stops (after_epochs D w)
           (fun k v e => stopped_in_epoch w k v /\ gae_metrics D (gae v) = Err e)).
  - unfold after_epochs. simpl. rewrite !app_nil_r. done.
  - intros i a v Hi (Hw & Hfr & Hlog & Hout & Hsh & _).
    destruct (train_gae_epoch_run D i a v)
      as (w1 & Hg1 & _ & _ & Hw1 & Hl1 & Hfr1 & Ho1 & Hs1 & Hm).
    destruct (gae_metrics D _) as [[auc ap]|e] eqn:Em.
    + left. destruct Hm as (v' & Hrun & Hg' & _ & _ & Hw' & Hl' & Hfr' & Hout' & Hsh').
      exists (Some auc, Some ap), v'. split; [exact Hrun|].
      unfold after_epochs. rewrite Hl', Hout', Hsh', Hw', Hw.
      split; [done|]. split.
      { intros p Hp. rewrite Hfr' by (by rewrite Hw). by apply Hfr. }
      split.
      { rewrite Hw in Hlog.
        by rewrite log_index_app, Hlog, seq_S, flat_map_app, <- app_assoc. }
      split.
      { rewrite epochs_printed_app, Hout, printing_epochs_S, <- app_assoc.
        by destruct (_ =? 0). }
      split; [done|].
      exists auc, ap, (gae_loss D (gae v) (rng v) (encoder (gae v))).1,
        (logged (files v) (writer w)).
      split; [done|]. split; [by rewrite Hg'|done].
    + right. exists e, w1. split; [exact Hm|]. split; [|by rewrite Hg1].
      unfold stopped_in_epoch. rewrite Hl1, Ho1, Hs1, Hw1, Hw.
      split; [done|]. split.
      { intros p Hp. rewrite Hfr1 by (by rewrite Hw). by apply Hfr. }
      split; [|done].
      rewrite Hw in Hlog. by rewrite log_index_app, Hlog, <- app_assoc.
Qed.

(** The banner a training prints first changes nothing that the two
    invariants speak of. *)
Lemma after_banner (text : string) (w : W) :
  let w0 := set_stdout (stdout w ++ [Banner text]) w in
  writer w0 = writer w /\ files w0 = files w /\ shown w0 = shown w
  /\ epochs_printed (stdout w0) = epochs_printed (stdout w).
Proof.
  cbn [writer files shown stdout set_stdout]. do 3 (split; [done|]).
  rewrite epochs_printed_app. simpl. by rewrite app_nil_r.
Qed.

(** [train_gae] runs its 200 epochs, or ends in the first epoch whose
    metrics raise, with their exception. *)
Lemma train_gae_run (D : Data F) (w : W) :
  (exists v auc ap loss l,
      train_gae D w = (v, Ok (Some auc, Some ap))
      /\ writer v = writer w
      /\ (forall p, p <> writer w -> files v !! p = files w !! p)
      /\ log_index (logged (files v) (writer v))
         = log_index (logged (files w) (writer w)) ++ flat_map epoch_log (seq 0 200)
      /\ epochs_printed (stdout v) = epochs_printed (stdout w) ++ [99; 199]%nat
      /\ shown v = shown w
      /\ logged (files v) (writer v)
         = l ++ [("loss"%string, loss, 199%nat); ("AUC"%string, auc, 199%nat);
                 ("AP"%string, ap, 199%nat)]
      /\ gae_metrics D (gae v) = Ok (auc, ap))
  \/ (exists k e v,
        (k < 200)%nat
        /\ train_gae D w = (v, Err e)
        /\ stopped_in_epoch w k v
        /\ gae_metrics D (gae v) = Err e).
Proof.
  pose proof (after_banner "training gae" w) as (Hbw & Hbf & Hbs & Hbp). cbv zeta in *.
  destruct (train_gae_loop D 200 (set_stdout (stdout w ++ [Banner "training gae"]) w))
    as [(locals & v & Hrun & (Hw & Hfr & Hlog & Hout & Hsh
                              & (auc & ap & loss & l & -> & Hm & Hl)))
       |(k & e & v & Hk & Hrun & (Hw & Hfr & Hlog & Hout & Hsh) & Hm)].
  - left. exists v, auc, ap, loss, l.
    change (train_gae D w = (v, Ok (Some auc, Some ap))) in Hrun.
    rewrite Hbw, Hbf in *. rewrite Hbp in Hout. rewrite Hbs in Hsh.
    split; [exact Hrun|]. split; [exact Hw|]. split; [exact Hfr|].
    split; [by rewrite Hw in Hlog |- *|]. split; [|done].
    rewrite Hout. by vm_compute.
  - right. exists k, e, v.
    change (train_gae D w = (v, Err e)) in Hrun.
    rewrite Hbw, Hbf in *. rewrite Hbp in Hout. rewrite Hbs in Hsh.
    split; [exact Hk|]. split; [exact Hrun|]. split; [|exact Hm].
    unfold stopped_in_epoch. by rewrite Hw in Hlog |- *.
Qed.

Lemma recon_loss_generator {Enc : Type} (self : GAE F Enc) (D : Data F)
    (z : list (list F)) (r : Rng) :
  (GAE_recon_loss self z (train_pos_edge_index D) r).2 = after_sampling D z r.
Proof.
  unfold GAE_recon_loss, after_sampling. by destruct (negative_sampling _ _ _).
Qed.

Lemma reparametrize_flag {Enc : Type} (self self' : VGAE F Enc)
    (mu logvar : list (list F)) (r : Rng) :
  training (super self) = training (super self') ->
  VGAE_reparametrize self mu logvar r = VGAE_reparametrize self' mu logvar r.
Proof. intros Ht. unfold VGAE_reparametrize. by rewrite Ht. Qed.

(** A training pass of [train_vgae] on the object [v] with the encoder
    [enc]. *)
Lemma vgae_losses_run (D : Data F) (v : VGAE F (VGAEEncoder Conv)) (r : Rng)
    (enc : VGAEEncoder Conv) :
  let v0 := {| super := with_encoder (super v) enc;
               mu__ := mu__ v; logvar__ := logvar__ v |} in
  let mean := vgae_mean D v0 in
  let logvar := vgae_logvar D v0 in
  let z := (VGAE_reparametrize v0 mean logvar r).1 in
  let r1 := (VGAE_reparametrize v0 mean logvar r).2 in
  vgae_losses D v r enc
  = ({| super := with_encoder (super v) enc;
        mu__ := Some mean; logvar__ := Some logvar |},
     (GAE_recon_loss (with_encoder (super v) enc) z (train_pos_edge_index D) r1).1,
     Ok (kl_value mean logvar),
     after_sampling D z r1).
Proof.
  intros v0 mean logvar z r1. unfold vgae_losses, VGAE_encode.
  subst z r1 mean logvar. unfold vgae_mean, vgae_logvar. subst v0.
  cbn [super encoder with_encoder].
  destruct (VGAEEncoder_forward enc (x D) (train_pos_edge_index D)) as [mu lv].
  cbn [fst snd mu__ logvar__ super].
  rewrite (reparametrize_flag _ {| super := with_encoder (super v) enc; mu__ := mu__ v;
                                   logvar__ := logvar__ v |}) by done.
  destruct (VGAE_reparametrize _ mu _ r) as [z r1]. cbn [fst snd super].
  rewrite <- (recon_loss_generator (with_encoder (super v) enc) D z r1).
  by destruct (GAE_recon_loss _ z _ r1).
Qed.

(** One epoch of [train_vgae] on a graph with a vertex.  The loss is that
    of the embedding the epoch samples, the KL term divided by the number
    of vertices; it is logged, and [test] leaves the model in evaluation
    mode.  Then the metrics of the stepped model decide, as in
    [train_gae]. *)
Lemma train_vgae_epoch_run (D : Data F) (epoch : nat) (locals : option F * option F)
    (w : W) :
  num_nodes D <> 0%nat ->
  let v := vgae w in
  let sample := VGAE_reparametrize v (vgae_mean D v) (vgae_logvar D v) (rng w) in
  let loss := fadd (GAE_recon_loss (super v) sample.1 (train_pos_edge_index D) sample.2).1
                   (fmul (fdiv (f_of_Z 1) (f_of_Z (Z.of_nat (num_nodes D))))
                         (kl_value (vgae_mean D v) (vgae_logvar D v))) in
  exists w1,
    training (super (vgae w1)) = false
    /\ decoder (super (vgae w1)) = decoder (super v)
    /\ rng w1 = after_sampling D sample.1 sample.2
    /\ writer w1 = writer w
    /\ logged (files w1) (writer w1)
       = logged (files w) (writer w) ++ [("loss"%string, loss, epoch)]
    /\ (forall p, p <> writer w -> files w1 !! p = files w !! p)
    /\ stdout w1 = stdout w
    /\ shown w1 = shown w
    /\ match vgae_metrics D (vgae w1) with
       | Err e => train_vgae_epoch D epoch locals w = (w1, Err e)
       | Ok (auc, ap) =>
           exists w',
             train_vgae_epoch D epoch locals w = (w', Ok (Some auc, Some ap))
             /\ vgae w' = vgae w1 /\ rng w' = rng w1
             /\ writer w' = writer w
             /\ logged (files w') (writer w')
                = logged (files w) (writer w)
                  ++ [("loss"%string, loss, epoch); ("AUC"%string, auc, epoch);
                      ("AP"%string, ap, epoch)]
             /\ (forall p, p <> writer w -> files w' !! p = files w !! p)
             /\ stdout w' = stdout w ++ (if (Z.of_nat epoch + 1) mod 100 =? 0
                                         then [EpochLine epoch auc ap] else [])
             /\ shown w' = shown w
       end.
Proof.
  intros Hn v sample loss. subst loss.
  destruct (train_vgae_epoch D epoch locals w) as [wf rf] eqn:Hrun.
  unfold train_vgae_epoch in Hrun.
  unfold bind at 1 in Hrun. unfold gets at 1 in Hrun.
  unfold bind at 1 in Hrun. unfold gets at 1 in Hrun.
  rewrite vgae_losses_run in Hrun. cbv zeta in Hrun.
  rewrite (reparametrize_flag _ v) in Hrun by done.
  assert (Hsame : forall (G : GAE F (VGAEEncoder Conv)), with_encoder G (encoder G) = G)
    by (by intros []).
  rewrite !Hsame in Hrun.
  assert (Hv0 : forall (u : VGAE F (VGAEEncoder Conv)),
            vgae_mean D {| super := super u; mu__ := mu__ u; logvar__ := logvar__ u |}
            = vgae_mean D u
            /\ vgae_logvar D {| super := super u; mu__ := mu__ u; logvar__ := logvar__ u |}
               = vgae_logvar D u) by done.
  destruct (Hv0 (vgae w)) as [Hmean Hlogvar]. rewrite Hmean, Hlogvar in Hrun.
  fold v in Hrun. fold sample in Hrun.
  unfold bind at 1 in Hrun. unfold modify at 1 in Hrun.
  unfold bind at 1 in Hrun. unfold modify at 1 in Hrun.
  unfold bind at 1 in Hrun. unfold lift at 1 in Hrun.
  unfold bind at 1 in Hrun. unfold lift at 1 in Hrun.
  unfold py_div in Hrun.
  destruct (Z.eqb_spec (Z.of_nat (num_nodes D)) 0) as [E|_]; [lia|].
  unfold bind at 1 in Hrun. unfold gets at 1 in Hrun.
  cbn [vgae_optimizer set_rng set_vgae] in Hrun.
  destruct (adam_step_vgae _ _ _) as [opt enc].
  unfold add_scalar, print in Hrun. unfold bind, modify, ret in Hrun.
  world_simpl_in Hrun. rewrite test_vgae_run in Hrun. world_simpl_in Hrun.
  set (v1 := {| super := GAE_eval (with_encoder (super v) enc);
                mu__ := Some (vgae_mean D {| super := with_encoder (super v) enc;
                                             mu__ := Some (vgae_mean D v);
                                             logvar__ := Some (vgae_logvar D v) |});
                logvar__ := Some (vgae_logvar D {| super := with_encoder (super v) enc;
                                                   mu__ := Some (vgae_mean D v);
                                                   logvar__ := Some (vgae_logvar D v) |}) |})
    in *.
  match type of Hrun with
  | context [GAE_test ?g ?z ?p ?n] =>
      change (GAE_test g z p n) with (vgae_metrics D v1) in Hrun
  end.
  eexists {| gae := gae w; gae_optimizer := gae_optimizer w; vgae := v1;
             vgae_optimizer := opt; writer := writer w;
             rng := after_sampling D sample.1 sample.2; py_random := py_random w;
             files := <[writer w := EventFile (logged (files w) (writer w) ++ [_])]> (files w);
             stdout := stdout w; shown := shown w |}.
  world_simpl. rewrite logged_insert.
  do 5 (split; [reflexivity|]).
  split; [intros p Hp; by rewrite lookup_insert_ne|].
  do 2 (split; [reflexivity|]).
  destruct (vgae_metrics D v1) as [[auc ap]|e]; [|by rewrite <- Hrun].
  world_simpl_in Hrun.
  rewrite !logged_insert, !insert_insert_eq, <- !app_assoc in Hrun.
  destruct ((Z.of_nat epoch + 1) mod 100 =? 0); world_simpl_in Hrun.
  all: rewrite <- Hrun.
  all: eexists; (split; [reflexivity|]); world_simpl.
  all: rewrite ?logged_insert, ?app_nil_r.
  all: do 3 (split; [reflexivity|]).
  all: (split; [reflexivity|]).
  all: (split; [intros p Hp; by rewrite lookup_insert_ne|]).
  all: done.
Qed.

(** The loop of [train_vgae], as that of [train_gae]. *)
Lemma train_vgae_loop (D : Data F) (n : nat) (w : W) :
  num_nodes D <> 0%nat ->
  (exists locals v,
      for_each (seq 0 n) (train_vgae_epoch D) (None, None) w = (v, Ok locals)
      /\ after_vgae_epochs D w n locals v)
  \/ (exists k e v,
        (k < n)%nat
        /\ for_each (seq 0 n) (train_vgae_epoch D) (None, None) w = (v, Err e)
        /\ stopped_in_epoch w k v
        /\ vgae_metrics D (vgae v) = Err e
        /\ training (super (vgae v)) = false).
Proof.
  intros Hn.
  apply (for_each_seq_stops (after_vgae_epochs D w)
           (fun k v e => stopped_in_epoch w k v /\ vgae_metrics D (vgae v) = Err e
                         /\ training (super (vgae v)) = false)).
  - unfold after_vgae_epochs. simpl. rewrite !app_nil_r. done.
  - intros i a v Hi (Hw & Hfr & Hlog & Hout & Hsh & _).
    destruct (train_vgae_epoch_run D i a v Hn)
      as (w1 & Ht1 & _ & _ & Hw1 & Hl1 & Hfr1 & Ho1 & Hs1 & Hm).
    destruct (vgae_metrics D (vgae w1)) as [[auc ap]|e] eqn:Em.
    + left. destruct Hm as (v' & Hrun & Hv' & _ & Hw' & Hl' & Hfr' & Hout' & Hsh').
      exists (Some auc, Some ap), v'. split; [exact Hrun|].
      unfold after_vgae_epochs. rewrite Hl', Hout', Hsh', Hw', Hw.
      split; [done|]. split.
      { intros p Hp. rewrite Hfr' by (by rewrite Hw). by apply Hfr. }
      split.
      { rewrite Hw in Hlog.
        by rewrite log_index_app, Hlog, seq_S, flat_map_app, <- app_assoc. }
      split.
      { rewrite epochs_printed_app, Hout, printing_epochs_S, <- app_assoc.
        by destruct (_ =? 0). }
      split; [done|].
      eexists auc, ap, _, (logged (files v) (writer w)).
      split; [done|]. rewrite Hv'. split; [done|]. split; [done|]. reflexivity.
    + right. exists e, w1. split; [exact Hm|]. split; [|done].
      unfold stopped_in_epoch. rewrite Hl1, Ho1, Hs1, Hw1, Hw.
      split; [done|]. split.
      { intros p Hp. rewrite Hfr1 by (by rewrite Hw). by apply Hfr. }
      split; [|done].
      rewrite Hw in Hlog. by rewrite log_index_app, Hlog, <- app_assoc.
Qed.

(** On a graph without a vertex [train_vgae] ends in its first epoch at
    [1 / data.num_nodes], before anything is logged. *)
Lemma train_vgae_without_a_vertex (D : Data F) (w : W) :
  num_nodes D = 0%nat ->
  exists v,
    train_vgae D w = (v, Err ZeroDivisionError)
    /\ stdout v = stdout w ++ [Banner "training vgae"]
    /\ files v = files w.
Proof.
  intros Hn. unfold train_vgae. unfold bind at 1. unfold print at 1, modify at 1.
  change (range 200) with (0%nat :: seq 1 199). cbn [for_each].
  unfold train_vgae_epoch at 1.
  unfold bind at 1. unfold bind at 1. unfold gets at 1. unfold bind at 1. unfold gets at 1.
  rewrite vgae_losses_run. cbv zeta.
  unfold bind at 1. unfold modify at 1. unfold bind at 1. unfold modify at 1.
  unfold bind at 1. unfold lift at 1. unfold bind at 1. unfold lift at 1.
  unfold py_div. rewrite Hn. cbn [Z.of_nat Z.eqb].
  eexists. split; [reflexivity|]. world_simpl. repeat split; reflexivity.
Qed.

(** [train_vgae] on a graph with a vertex runs its 200 epochs, or ends in
    the first epoch whose metrics raise, with their exception. *)
Lemma train_vgae_run (D : Data F) (w : W) :
  num_nodes D <> 0%nat ->
  (exists v auc ap loss l,
      train_vgae D w = (v, Ok (Some auc, Some ap))
      /\ writer v = writer w
      /\ (forall p, p <> writer w -> files v !! p = files w !! p)
      /\ log_index (logged (files v) (writer v))
         = log_index (logged (files w) (writer w)) ++ flat_map epoch_log (seq 0 200)
      /\ epochs_printed (stdout v) = epochs_printed (stdout w) ++ [99; 199]%nat
      /\ shown v = shown w
      /\ logged (files v) (writer v)
         = l ++ [("loss"%string, loss, 199%nat); ("AUC"%string, auc, 199%nat);
                 ("AP"%string, ap, 199%nat)]
      /\ vgae_metrics D (vgae v) = Ok (auc, ap)
      /\ training (super (vgae v)) = false)
  \/ (exists k e v,
        (k < 200)%nat
        /\ train_vgae D w = (v, Err e)
        /\ stopped_in_epoch w k v
        /\ vgae_metrics D (vgae v) = Err e
        /\ training (super (vgae v)) = false).
Proof.
  intros Hn.
  pose proof (after_banner "training vgae" w) as (Hbw & Hbf & Hbs & Hbp). cbv zeta in *.
  destruct (train_vgae_loop D 200 (set_stdout (stdout w ++ [Banner "training vgae"]) w) Hn)
    as [(locals & v & Hrun & (Hw & Hfr & Hlog & Hout & Hsh
                              & (auc & ap & loss & l & -> & Hm & Ht & Hl)))
       |(k & e & v & Hk & Hrun & (Hw & Hfr & Hlog & Hout & Hsh) & Hm & Ht)].
  - left. exists v, auc, ap, loss, l.
    change (train_vgae D w = (v, Ok (Some auc, Some ap))) in Hrun.
    rewrite Hbw, Hbf in *. rewrite Hbp in Hout. rewrite Hbs in Hsh.
    split; [exact Hrun|]. split; [exact Hw|]. split; [exact Hfr|].
    split; [by rewrite Hw in Hlog |- *|]. split; [|done].
    rewrite Hout. by vm_compute.
  - right. exists k, e, v.
    change (train_vgae D w = (v, Err e)) in Hrun.
    rewrite Hbw, Hbf in *. rewrite Hbp in Hout. rewrite Hbs in Hsh.
    split; [exact Hk|]. split; [exact Hrun|]. split; [|done].
    unfold stopped_in_epoch. by rewrite Hw in Hlog |- *.
Qed.

Lemma log_frame_refl (w : W) : log_frame w w.
Proof. by repeat split. Qed.

Lemma log_frame_trans (w1 w2 w3 : W) :
  log_frame w1 w2 -> log_frame w2 w3 -> log_frame w1 w3.
Proof.
  intros (Hw & Hs & Hf) (Hw' & Hs' & Hf'). repeat split; [congruence..|].
  intros p Hp. rewrite Hf' by congruence. by apply Hf.
Qed.

Lemma plot_frame_refl (o : string) (w : W) : plot_frame o w w.
Proof. by repeat split. Qed.

Lemma plot_frame_trans (o : string) (w1 w2 w3 : W) :
  plot_frame o w1 w2 -> plot_frame o w2 w3 -> plot_frame o w1 w3.
Proof.
  intros (Hw & Hs & Hf) (Hw' & Hs' & Hf'). repeat split; [congruence..|].
  intros p Hp. rewrite Hf' by done. by apply Hf.
Qed.

Lemma keeps_modify (R : W -> W -> Prop) (f : W -> W) :
  (forall w, R w (f w)) -> keeps R (modify f).
Proof. intros Hf w. apply Hf. Qed.

Ltac frame_steps refl trans :=
  repeat match goal with
    | |- keeps _ (ret _) => apply (keeps_ret _ refl)
    | |- keeps _ (raise _) => apply (keeps_raise _ refl)
    | |- keeps _ (lift _) => apply (keeps_lift _ refl)
    | |- keeps _ (gets _) => apply (keeps_gets _ refl)
    | |- keeps _ (bind _ _) => apply (keeps_bind _ trans); [|intros ?]
    | |- keeps _ (for_each _ _ _) => apply (keeps_for_each _ refl trans); intros ? ?
    | |- keeps _ (modify _) => apply keeps_modify; intros ?
    | |- keeps _ (let (_, _) := ?e in _) => destruct e
    | |- keeps _ (match ?e with _ => _ end) => destruct e
    end.

Lemma test_keeps_log {Mdl : Type} `{Model (F := F) (Rng := Rng) Mdl} (D : Data F)
    (model : Ref W Mdl) (pos neg : EdgeIndex) :
  (forall m w, log_frame w (store model m w)) ->
  keeps (W := W) log_frame (test D model pos neg).
Proof.
  intros Hstore. unfold test.
  frame_steps log_frame_refl log_frame_trans; try apply Hstore.
  by repeat split.
Qed.

Lemma add_scalar_keeps_log (tag : string) (value : F) (step : nat) : keeps (W := W) log_frame (add_scalar tag value step).
Proof.
  unfold add_scalar. apply keeps_modify. intros w. repeat split.
  intros p Hp. simpl. by rewrite lookup_insert_ne.
Qed.

Lemma print_keeps_log (l : Line F) : keeps (W := W) log_frame (print l).
Proof. unfold print. apply keeps_modify. intros w. by repeat split. Qed.

Lemma train_gae_keeps_log (D : Data F) : keeps (W := W) log_frame (train_gae D).
Proof.
  unfold train_gae, train_gae_epoch.
  frame_steps log_frame_refl log_frame_trans;
    try apply add_scalar_keeps_log; try apply print_keeps_log;
    try (apply test_keeps_log; intros; by repeat split);
    by repeat split.
Qed.

Lemma train_vgae_keeps_log (D : Data F) : keeps (W := W) log_frame (train_vgae D).
Proof.
  unfold train_vgae, train_vgae_epoch.
  frame_steps log_frame_refl log_frame_trans;
    try apply add_scalar_keeps_log; try apply print_keeps_log;
    try (apply test_keeps_log; intros; by repeat split);
    by repeat split.
Qed.

Lemma r_keeps_plot (outfile : string) : keeps (W := W) (plot_frame outfile) r.
Proof. intros w. unfold r. destruct (randint _ _ _). by repeat split. Qed.

Lemma plot_keeps_frame (data : Data F) (outfile : string) :
  keeps (W := W) (plot_frame outfile) (plot data outfile).
Proof.
  unfold plot, random_colour, Image_open.
  frame_steps (plot_frame_refl outfile) (plot_frame_trans outfile);
    try apply r_keeps_plot; repeat split.
  intros p Hp. simpl. by rewrite lookup_insert_ne.
Qed.

Lemma after_draws_add (n m : nat) (g : PyRng) :
  after_draws (n + m) g = after_draws m (after_draws n g).
Proof. unfold after_draws. by rewrite Nat.add_comm, Nat.iter_add. Qed.

Lemma colours_from_length (n : nat) (g : PyRng) : length (colours_from n g) = n.
Proof. revert g. induction n as [|n IH]; intros g; simpl; [done | by rewrite IH]. Qed.

Lemma colours_from_S (n : nat) (g : PyRng) :
  colours_from (S n) g
  = colours_from n g
    ++ [ {| red := (randint 0 255 (after_draws (3 * n) g)).1;
            green := (randint 0 255 (after_draws (3 * n + 1) g)).1;
            blue := (randint 0 255 (after_draws (3 * n + 2) g)).1 |} ].
Proof.
  revert g. induction n as [|n IH]; intros g; [done|].
  change (colours_from (S (S n)) g)
    with ({| red := (randint 0 255 g).1;
             green := (randint 0 255 (after_draws 1 g)).1;
             blue := (randint 0 255 (after_draws 2 g)).1 |}
          :: colours_from (S n) (after_draws 3 g)).
  rewrite IH. cbn [colours_from app]. do 2 f_equal.
  rewrite <- !after_draws_add.
  replace (3 + 3 * n)%nat with (3 * S n)%nat by lia.
  replace (3 + (3 * n + 1))%nat with (3 * S n + 1)%nat by lia.
  replace (3 + (3 * n + 2))%nat with (3 * S n + 2)%nat by lia.
  reflexivity.
Qed.

(** The loop that draws the colours of [plot]: it always returns, and
    touches the generator of [random] only. *)
Lemma colours_loop (n : nat) (w : W) :
  for_each (seq 0 n) (fun _ cs => bind random_colour (fun c => ret (cs ++ [c]))) [] w
  = (set_py_random (after_draws (3 * n) (py_random w)) w,
     Ok (colours_from n (py_random w))).
Proof.
  induction n as [|n IH].
  - by destruct w.
  - rewrite seq_S. cbn [Nat.add]. rewrite (for_each_snoc _ _ _ _ _ _ _ IH).
    rewrite colours_from_S.
    unfold random_colour, bind, r, ret. cbn [py_random set_py_random].
    replace (3 * S n)%nat with (3 * n + 3)%nat by lia.
    rewrite !after_draws_add.
    set (g := after_draws (3 * n) (py_random w)).
    unfold after_draws. cbn [Nat.iter nat_rect].
    destruct (randint 0 255 g) as [n1 g1]. cbn [fst snd py_random set_py_random].
    destruct (randint 0 255 g1) as [n2 g2]. cbn [fst snd py_random set_py_random].
    destruct (randint 0 255 g2) as [n3 g3]. cbn [fst snd py_random set_py_random].
    by destruct w.
Qed.

(** [colours[cls] for cls in ys] *)
Lemma colour_of_each_ok (colours : list Colour) (ys : list nat) :
  Forall (fun c => (c < length colours)%nat) ys ->
  exists color,
    colour_of_each colours ys = Ok color
    /\ length color = length ys
    /\ forall i c, ys !! i = Some c -> color !! i = colours !! c.
Proof.
  induction ys as [|c ys IH]; intros Hall.
  - exists []. by repeat split.
  - apply Forall_cons in Hall as [Hc Hall].
    destruct (IH Hall) as (color & Hcol & Hlen & Hlook).
    destruct (lookup_lt_is_Some_2 colours c Hc) as [k Hk].
    exists (k :: color). simpl. unfold py_index. rewrite Hk, Hcol.
    split; [done|]. split; [by rewrite Hlen|].
    intros [|i] c' Hi; simpl in *; [by injection Hi as <- | by apply Hlook].
Qed.

Lemma colour_of_each_err (colours : list Colour) (ys : list nat) :
  ~ Forall (fun c => (c < length colours)%nat) ys ->
  colour_of_each colours ys = Err IndexError.
Proof.
  induction ys as [|c ys IH]; intros Hall.
  - by destruct Hall.
  - simpl. unfold py_index.
    destruct (colours !! c) as [k|] eqn:Hk; [|done].
    rewrite IH; [done|]. intros Hys. apply Hall. constructor; [|done].
    by apply lookup_lt_is_Some_1.
Qed.

Lemma colour_of_each_inv (colours : list Colour) (ys : list nat) (color : list Colour) :
  colour_of_each colours ys = Ok color ->
  Forall (fun c => (c < length colours)%nat) ys.
Proof.
  intros Hok. destruct (decide (Forall (fun c => (c < length colours)%nat) ys)) as [|Hn];
    [done|]. by rewrite (colour_of_each_err _ _ Hn) in Hok.
Qed.


(** [plot], step by step, on a graph with its labels and with edges that
    igraph accepts. *)
Lemma plot_run (data : Data F) (outfile : string) (w : W) (ei : EdgeIndex)
    (ys : list nat) :
  edge_index data = Some ei -> y data = Some ys ->
  forallb (fun e => (e.1 <? num_nodes data)%nat && (e.2 <? num_nodes data)%nat) ei = true ->
  let k := length (remove_dups ys) in
  let w1 := set_py_random (after_draws (3 * k) (py_random w)) w in
  plot data outfile w
  = match colour_of_each (colours_from k (py_random w)) ys with
    | Err e => (w1, Err e)
    | Ok color =>
        let g := plotted_graph data ei color in
        match layout_auto g with
        | Err e => (w1, Err e)
        | Ok layout =>
            match ig_draw g layout with
            | Err e => (w1, Err e)
            | Ok eps =>
                let w2 := set_files (<[outfile := PlotFile eps]> (files w)) w1 in
                match image_open eps with
                | Err e => (w2, Err e)
                | Ok img =>
                    match plt_subplots with
                    | Err e => (w2, Err e)
                    | Ok _ =>
                        match ax_imshow img with
                        | Err e => (w2, Err e)
                        | Ok _ =>
                            match plt_show with
                            | Err e => (w2, Err e)
                            | Ok _ => (set_shown (shown w ++ [img]) w2, Ok tt)
                            end
                        end
                    end
                end
            end
        end
    end.
Proof.
  intros Hei Hy Hvalid k w1. unfold plot. rewrite Hei, Hy.
  unfold add_edges, add_vertices, ig_Graph. cbn [n_vertices Nat.add ig_edges vs_color].
  rewrite Hvalid. unfold bind at 1. unfold lift at 1.
  unfold bind at 1. unfold range, len. rewrite Nat2Z.id. fold k.
  rewrite colours_loop. fold w1.
  unfold bind at 1. unfold ret at 1. unfold bind at 1. unfold lift at 1.
  destruct (colour_of_each _ ys) as [color|e]; [|done].
  unfold bind at 1. unfold lift at 1. cbn [app n_vertices ig_edges].
  unfold plotted_graph.
  destruct (layout_auto _) as [layout|e]; [|done].
  unfold bind at 1. unfold lift at 1.
  destruct (ig_draw _ layout) as [eps|e]; [|done].
  unfold Image_open. do 3 (unfold bind, modify, gets, lift, ret; simpl).
  rewrite lookup_insert_eq.
  destruct (image_open eps) as [img|e]; [|done].
  destruct plt_subplots as [[]|e]; [|done].
  destruct (ax_imshow img) as [[]|e]; [|done].
  by destruct plt_show as [[]|e].
Qed.

(** [plot] before it draws: the assertion, the edges, the labels. *)
Lemma plot_early (data : Data F) (outfile : string) (w : W) :
  match edge_index data with
  | None => plot data outfile w
            = (w, Err (AssertionError
                         "cannot plot after train_test_split_edges has been called"))
  | Some ei =>
      if forallb (fun e => (e.1 <? num_nodes data)%nat && (e.2 <? num_nodes data)%nat) ei
      then match y data with
           | Some ys => True
           | None => plot data outfile w
                     = (set_py_random (after_draws 3 (py_random w)) w,
                        Err (TypeError "'NoneType' object is not iterable"))
           end
      else plot data outfile w = (w, Err (LibraryError "igraph: invalid vertex ID"))
  end.
Proof.
  unfold plot. destruct (edge_index data) as [ei|]; [|done].
  unfold add_edges, add_vertices, ig_Graph. cbn [n_vertices Nat.add ig_edges vs_color].
  destruct (forallb _ ei); [|done].
  destruct (y data) as [ys|]; [done|].
  unfold bind at 1. unfold lift at 1. unfold bind at 1.
  change (range 1) with (seq 0 1). by rewrite colours_loop.
Qed.

Lemma plot_ok_inv (data : Data F) (outfile : string) (w w' : W) :
  plot data outfile w = (w', Ok tt) ->
  exists ei ys,
    edge_index data = Some ei /\ y data = Some ys
    /\ forallb (fun e => (e.1 <? num_nodes data)%nat && (e.2 <? num_nodes data)%nat) ei
       = true.
Proof.
  intros Hp. pose proof (plot_early data outfile w) as He.
  destruct (edge_index data) as [ei|]; [|congruence].
  destruct (forallb _ ei) eqn:Hvalid; [|congruence].
  destruct (y data) as [ys|]; [|congruence].
  by exists ei, ys.
Qed.

(** [plot] returns only if every library call in it returned: then the
    drawing is in [outfile] and shown. *)
Lemma plot_returns (data : Data F) (outfile : string) (w w' : W) :
  plot data outfile w = (w', Ok tt) ->
  exists ei ys color layout eps img,
    edge_index data = Some ei /\ y data = Some ys
    /\ colour_of_each (colours_from (length (remove_dups ys)) (py_random w)) ys = Ok color
    /\ layout_auto (plotted_graph data ei color) = Ok layout
    /\ ig_draw (plotted_graph data ei color) layout = Ok eps
    /\ image_open eps = Ok img
    /\ plt_subplots = Ok tt /\ ax_imshow img = Ok tt /\ plt_show = Ok tt
    /\ files w' = <[outfile := PlotFile eps]> (files w)
    /\ shown w' = shown w ++ [img]
    /\ py_random w' = after_draws (3 * length (remove_dups ys)) (py_random w).
Proof.
  intros Hp. destruct (plot_ok_inv _ _ _ _ Hp) as (ei & ys & Hei & Hy & Hvalid).
  rewrite (plot_run _ _ _ _ _ Hei Hy Hvalid) in Hp. cbv zeta in Hp.
  destruct (colour_of_each _ ys) as [color|e] eqn:Hcol; [|done].
  destruct (layout_auto _) as [layout|e] eqn:El; [|done].
  destruct (ig_draw _ layout) as [eps|e] eqn:Ed; [|done].
  destruct (image_open eps) as [img|e] eqn:Ei; [|done].
  destruct plt_subplots as [[]|e] eqn:Es; [|done].
  destruct (ax_imshow img) as [[]|e] eqn:Ea; [|done].
  destruct plt_show as [[]|e] eqn:Eh; [|done].
  injection Hp as <-. by exists ei, ys, color, layout, eps, img.
Qed.


(** C9, amended: the notebook's functions write two kinds of file and no
    other.  [plot] changes no file but [outfile], where it saves the drawing
    it then shows, and prints and logs nothing.  Opening the writer creates
    its event file under ./log/; [train_gae] and [train_vgae] change no file
    but that one and show nothing, whether they return or raise.  To it
    each appends the loss, AUC and AP of every epoch it completes, [k] of
    them, and the loss of the epoch in which the metrics raised, if one
    did; [k] is 200 exactly when the training returns.  On a graph without
    a vertex [train_vgae] writes nothing. *)
Theorem only_the_plot_and_the_log_are_written (data : Data F) (D : Data F)
    (outfile stamp : string) (w : W) :
  plot_frame outfile w (plot data outfile w).1
  /\ (forall w', plot data outfile w = (w', Ok tt) ->
        exists eps img, files w' = <[outfile := PlotFile eps]> (files w)
                        /\ shown w' = shown w ++ [img])
  /\ files (new_writer stamp w).1
     = <[("./log/" +:+ stamp)%string := EventFile []]> (files w)
  /\ log_frame w (train_gae D w).1
  /\ (exists k, (k <= 200)%nat
        /\ log_index (logged (files (train_gae D w).1) (writer w))
           = log_index (logged (files w) (writer w))
             ++ flat_map epoch_log (seq 0 k)
             ++ (if (k <? 200)%nat then [("loss"%string, k)] else [])
        /\ (k = 200%nat <-> exists res, (train_gae D w).2 = Ok res))
  /\ log_frame w (train_vgae D w).1
  /\ (num_nodes D <> 0%nat ->
      exists k, (k <= 200)%nat
        /\ log_index (logged (files (train_vgae D w).1) (writer w))
           = log_index (logged (files w) (writer w))
             ++ flat_map epoch_log (seq 0 k)
             ++ (if (k <? 200)%nat then [("loss"%string, k)] else [])
        /\ (k = 200%nat <-> exists res, (train_vgae D w).2 = Ok res))
  /\ (num_nodes D = 0%nat -> files (train_vgae D w).1 = files w).
Proof.
  split; [apply plot_keeps_frame|]. split.
  { intros w' Hp.
    destruct (plot_returns _ _ _ _ Hp)
      as (ei & ys & color & layout & eps & img & _ & _ & _ & _ & _ & _ & _ & _ & _ & Hf & Hs & _).
    by exists eps, img. }
  split; [reflexivity|].
  split; [apply train_gae_keeps_log|]. split.
  { destruct (train_gae_run D w)
      as [(v & auc & ap & loss & l & Hrun & Hw & _ & Hlog & _)
         |(k & e & v & Hk & Hrun & (Hw & _ & Hlog & _) & _)].
    - exists 200%nat. rewrite Hrun. cbn [fst snd]. split; [lia|]. split.
      + rewrite Hw in Hlog. by rewrite Hlog, Nat.ltb_irrefl, app_nil_r.
      + split; [by eexists | done].
    - exists k. rewrite Hrun. cbn [fst snd]. split; [lia|]. split.
      + rewrite Hw in Hlog. rewrite Hlog. by destruct (Nat.ltb_spec k 200); [|lia].
      + split; [lia | by intros [? ?]]. }
  split; [apply train_vgae_keeps_log|]. split.
  { intros Hn. destruct (train_vgae_run D w Hn)
      as [(v & auc & ap & loss & l & Hrun & Hw & _ & Hlog & _)
         |(k & e & v & Hk & Hrun & (Hw & _ & Hlog & _) & _)].
    - exists 200%nat. rewrite Hrun. cbn [fst snd]. split; [lia|]. split.
      + rewrite Hw in Hlog. by rewrite Hlog, Nat.ltb_irrefl, app_nil_r.
      + split; [by eexists | done].
    - exists k. rewrite Hrun. cbn [fst snd]. split; [lia|]. split.
      + rewrite Hw in Hlog. rewrite Hlog. by destruct (Nat.ltb_spec k 200); [|lia].
      + split; [lia | by intros [? ?]]. }
  intros Hn. destruct (train_vgae_without_a_vertex D w Hn) as (v & Hrun & _ & Hf).
  by rewrite Hrun.
Qed.

Lemma train_gae_epoch_two_runs (D : Data F) (epoch : nat) (locals : option F * option F)
    (v1 v2 : W) :
  same_gae_state v1 v2 ->
  (train_gae_epoch D epoch locals v1).2 = (train_gae_epoch D epoch locals v2).2
  /\ same_gae_state (train_gae_epoch D epoch locals v1).1
                    (train_gae_epoch D epoch locals v2).1.
Proof.
  intros (Hg & Ho & Hr).
  unfold train_gae_epoch, test, add_scalar, print.
  unfold bind, modify, gets, ret, lift. cbn -[GAE_test GAE_encode gae_loss].
  rewrite ?Hg, ?Ho, ?Hr.
  destruct (gae_loss D (gae v2) (rng v2) (encoder (gae v2))) as [loss r'].
  cbn -[GAE_test GAE_encode gae_loss]. rewrite ?Hg, ?Ho, ?Hr.
  destruct (adam_step_gae _ _ _) as [opt enc].
  cbn -[GAE_test GAE_encode gae_loss]. rewrite ?Hg, ?Ho, ?Hr.
  destruct (GAE_test _ _ _ _) as [[auc ap]|e].
  2:{ by repeat split. }
  cbn -[GAE_test GAE_encode gae_loss].
  destruct ((Z.of_nat epoch + 1) mod 100 =? 0); cbn -[GAE_test GAE_encode gae_loss].
  all: by repeat split.
Qed.

Lemma train_gae_two_runs (D : Data F) (w1 w2 : W) :
  same_gae_state w1 w2 -> (train_gae D w1).2 = (train_gae D w2).2.
Proof.
  intros Hs. unfold train_gae.
  apply (for_each_two_runs same_gae_state).
  - intros x a v1 v2. apply train_gae_epoch_two_runs.
  - exact Hs.
Qed.

End Notebook.

(** C5: what [train_gae] returns is determined by the dataset together with
    the model, its optimizer and the state of torch's generator, all three of
    which a run leaves changed; so the result is not a function of the
    dataset alone: on the integer instance two successive runs on one
    dataset return different pairs, and in training mode [VGAE.encode]
    returns different embeddings from different states of the generator. *)
Theorem results_vary_with_session_state :
  (forall (F Conv Optim Rng PyRng Layout Eps Img : Type) (HF : Float F)
          (HP : Pyg F Conv Optim Rng) (HI : Igraph PyRng Layout Eps Img) (D : Data F)
          (w1 w2 : World F Conv Optim Rng PyRng Eps Img),
      gae w1 = gae w2 -> gae_optimizer w1 = gae_optimizer w2 -> rng w1 = rng w2 ->
      (train_gae D w1).2 = (train_gae D w2).2)
  /\ (exists (D : Data Z) (w : World Z Z nat nat nat IGraph IGraph),
      (train_gae D w).2 = Ok (Some 1, Some 0)
      /\ (train_gae D (train_gae D w).1).2 = Ok (Some 2, Some 1))
  /\ (exists (v : VGAE Z (VGAEEncoder Z)) (x : list (list Z)) (ei : EdgeIndex)
             (r1 r2 : nat),
      training (super v) = true
      /\ (VGAE_encode v x ei r1).1.2 <> (VGAE_encode v x ei r2).1.2).
Proof.
  split; [|split].
  - intros F Conv Optim Rng PyRng Layout Eps Img HF HP HI D w1 w2 Hg Ho Hr.
    by apply train_gae_two_runs.
  - exists (Sample.data None), Sample.world3. split; vm_compute; reflexivity.
  - exists (vgae Sample.world3), [[1]; [2]], [(0, 1)]%nat, 7%nat, 8%nat.
    split; [reflexivity|]. vm_compute. discriminate.
Qed.


(** C9 as stated fails: from a disk with no file, [plot] leaves the drawing
    in ./graph.eps, and [train_gae] leaves 600 scalars in the event file of
    the writer. *)
Lemma notebook_runs_write_files :
  files Sample.world3 = ∅
  /\ files (plot (Sample.data (Some [(0, 1)]%nat)) "./graph.eps" Sample.world3).1
       !! "./graph.eps"%string
     = Some (PlotFile {| n_vertices := 2; ig_edges := [(0, 1)]%nat;
                         vs_color := [ {| red := 0; green := 1; blue := 2 |};
                                       {| red := 3; green := 4; blue := 5 |} ] |})
  /\ length (logged (files (train_gae (Sample.data None) Sample.world3).1)
                    "./log/20260101-000000") = 600%nat.
Proof.
  split; [reflexivity|]. split; vm_compute; reflexivity.
Qed.

End B3Facts.

Module B1Facts.
Import B1 Sample.

Lemma slice_nonneg {A : Type} (l : list A) (s f : Z) :
  0 <= s <= f ->
  slice l s f = take (Z.to_nat (f - s)) (drop (Z.to_nat s) l).
Proof.
  intros Hs. unfold slice, slice_bound.
  destruct (Z.ltb_spec s 0); [lia|].
  destruct (Z.ltb_spec f 0); [lia|].
  destruct (Z.le_gt_cases f (Z.of_nat (length l))) as [Hf|Hf].
  - rewrite !Z.min_l by lia. reflexivity.
  - rewrite (Z.min_r f) by lia.
    destruct (Z.le_gt_cases s (Z.of_nat (length l))) as [Hs'|Hs'].
    + rewrite Z.min_l by lia.
      rewrite !take_ge; [done | rewrite length_drop; lia | rewrite length_drop; lia].
    + rewrite Z.min_r by lia.
      rewrite !drop_ge by lia. by rewrite !take_nil.
Qed.

(** The batches, without the loop. *)
Lemma get_batches_unfold {A B : Type} (xs : list A) (ys : list B) (b : Z) :
  1 <= b ->
  let m := Z.to_nat (ceil_div (len xs) b - 1) in
  get_batches xs ys b
  = Ok (map (fun i => take (Z.to_nat b) (drop (Z.to_nat b * i) xs)) (seq 0 m),
        map (fun i => take (Z.to_nat b) (drop (Z.to_nat b * i) ys)) (seq 0 m)).
Proof.
  intros Hb m. unfold get_batches.
  destruct (Z.eqb_spec b 0); [lia|].
  rewrite fold_left_append2. simpl. f_equal.
  pose proof (ceil_div_bounds (len xs) b ltac:(lia)) as Hk.
  fold (len xs). unfold range. fold m.
  assert (Hin : forall i, (i ∈ seq 0 m) ->
            b * (Z.of_nat i + 1) <= len xs).
  { intros i Hi. apply elem_of_seq in Hi. unfold m in Hi. nia. }
  f_equal; apply map_ext_in; intros i Hi%list_elem_of_In; specialize (Hin i Hi);
    rewrite Z.min_l by lia; rewrite slice_nonneg by lia;
    f_equal; [lia | f_equal; lia | lia | f_equal; lia].
Qed.

Lemma le_foldr_max (l : list nat) (x : nat) :
  x ∈ l -> (x <= foldr Nat.max 0 l)%nat.
Proof.
  induction l as [|y l IH]; intros Hx.
  - by apply elem_of_nil in Hx.
  - apply elem_of_cons in Hx as [->|Hx]; simpl; [lia|].
    specialize (IH Hx). lia.
Qed.

(** Ids given to [dgl.graph] are below the number of vertices it infers. *)
Lemma dgl_graph_valid (u v : list nat) (g : DGLGraph) :
  dgl_graph u v = Ok g ->
  forall s d, (s, d) ∈ edges g -> (s < num_nodes g)%nat /\ (d < num_nodes g)%nat.
Proof.
  unfold dgl_graph. case_decide; [|done]. intros [= <-] s d Hsd.
  unfold edges in Hsd. simpl in *.
  pose proof (elem_of_zip_l _ _ _ _ Hsd) as Hs.
  pose proof (elem_of_zip_r _ _ _ _ Hsd) as Hd.
  assert (Hs' : s ∈ u ++ v) by (apply elem_of_app; by left).
  assert (Hd' : d ∈ u ++ v) by (apply elem_of_app; by right).
  destruct (u ++ v) as [|i ids] eqn:E; [by apply elem_of_nil in Hs'|].
  apply le_foldr_max in Hs', Hd'. simpl in *. lia.
Qed.

(** Both constructors build the graph of the rows and of the rows reversed. *)
Lemma dgl_graph_both_ways (rows : list (nat * nat)) :
  exists g, dgl_graph (rows.*1 ++ rows.*2) (rows.*2 ++ rows.*1) = Ok g
            /\ edges g = rows ++ (prod_swap <$> rows).
Proof.
  unfold dgl_graph. rewrite decide_True by (rewrite !length_app; lia).
  eexists. split; [reflexivity|]. unfold edges. cbn [edge_src edge_dst].
  rewrite zip_with_app by (by rewrite !length_fmap).
  f_equal.
  - apply zip_fst_snd.
  - clear. induction rows as [|[a b] rows IH]; simpl; [done|]. by f_equal.
Qed.

Lemma built_graph_spec (rows : list (nat * nat)) (g : DGLGraph) :
  dgl_graph (rows.*1 ++ rows.*2) (rows.*2 ++ rows.*1) = Ok g ->
  edges g = rows ++ (prod_swap <$> rows)
  /\ (forall s d, (s, d) ∈ edges g -> (s < num_nodes g)%nat /\ (d < num_nodes g)%nat)
  /\ (forall a b, (a, b) ∈ rows -> (a, b) ∈ edges g /\ (b, a) ∈ edges g)
  /\ length (edges g) = (2 * length rows)%nat.
Proof.
  intros Hg. destruct (dgl_graph_both_ways rows) as (g' & Hg' & He).
  rewrite Hg in Hg'. injection Hg' as <-.
  split; [exact He|]. split; [by eapply dgl_graph_valid|].
  rewrite He. split.
  - intros a b Hab. split; apply elem_of_app; [by left|right].
    apply (list_elem_of_fmap_2 prod_swap) in Hab. exact Hab.
  - rewrite length_app, length_fmap. lia.
Qed.

(** C7: every graph built by [make_stargazer_graph] or by
    [make_webmluser_graph] has, as directed edges, the input pairs followed
    by the same pairs reversed: every edge joins two vertex ids of the
    graph, every input pair [a, b] gives the edges (a, b) and (b, a), and
    there are twice as many edges as input pairs.  [make_webmluser_graph]
    always builds its graph, [make_stargazer_graph] does when the dictionary
    has a non-empty edge list for the index. *)
Theorem built_graphs_are_symmetric_and_valid
    (stargazer_edges : gmap string (list (nat * nat))) (index : Z)
    (webmluser_edges : list (nat * nat)) (g : DGLGraph) :
  let built_from (rows : list (nat * nat)) (g : DGLGraph) :=
    edges g = rows ++ (prod_swap <$> rows)
    /\ (forall s d, (s, d) ∈ edges g -> (s < num_nodes g)%nat /\ (d < num_nodes g)%nat)
    /\ (forall a b, (a, b) ∈ rows -> (a, b) ∈ edges g /\ (b, a) ∈ edges g)
    /\ length (edges g) = (2 * length rows)%nat in
  (make_stargazer_graph stargazer_edges index = Ok g ->
     exists rows, stargazer_edges !! pretty index = Some rows /\ built_from rows g)
  /\ (make_webmluser_graph webmluser_edges = Ok g -> built_from webmluser_edges g)
  /\ (forall rows, stargazer_edges !! pretty index = Some rows -> rows <> [] ->
        exists g', make_stargazer_graph stargazer_edges index = Ok g')
  /\ (exists g', make_webmluser_graph webmluser_edges = Ok g').
Proof.
  intros built_from. split; [|split; [|split]].
  - unfold make_stargazer_graph.
    destruct (stargazer_edges !! pretty index) as [rows|]; [|done].
    intros Hg. exists rows. split; [done|].
    destruct rows as [|r rows']; [done|]. by apply built_graph_spec.
  - intros Hg. by apply built_graph_spec.
  - intros rows Hrows Hne. unfold make_stargazer_graph. rewrite Hrows.
    destruct (dgl_graph_both_ways rows) as (g' & Hg' & _).
    exists g'. by destruct rows.
  - destruct (dgl_graph_both_ways webmluser_edges) as (g' & Hg' & _). by exists g'.
Qed.

(** C7 on the dictionary with one graph, "19", of two edges. *)
Lemma built_graphs_are_symmetric_and_valid_witness :
  exists rows,
    Sample.stargazer_edges !! pretty 19 = Some rows
    /\ [(0, 1); (1, 2); (1, 0); (2, 1)]%nat = rows ++ (prod_swap <$> rows).
Proof.
  destruct (proj1 (built_graphs_are_symmetric_and_valid
                     Sample.stargazer_edges 19 []
                     {| num_nodes := 3; edge_src := [0; 1; 1; 2]%nat;
                        edge_dst := [1; 2; 0; 1]%nat |})
                  ltac:(vm_compute; reflexivity))
    as (rows & Hrows & He & _).
  exists rows. exact (conj Hrows He).
Defined.

Section Testing.
Context {F Net Opt : Type} `{Float F} `{Gnn F Net Opt}.

(** The accumulators of [test_stargazer_gnn] after its first [n] batches. *)
Lemma test_loop (bx : list (list DGLGraph)) (by_ : list (list Z)) (n : nat)
    (w : World F Net) (hs : list (list F)) (yt yp : list Z) :
  (n <= length bx)%nat -> (n <= length by_)%nat ->
  for_each (seq 0 n) (test_batch bx by_) (hs, yt, yp) w
  = (w, Ok (hs ++ map (fun b => mean_rows (hidden (net w) (dgl_batch b))) (take n bx),
            yt ++ concat (take n by_),
            yp ++ concat (map (fun b => argmax_rows (forward (net w) (dgl_batch b)))
                              (take n bx)))).
Proof.
  induction n as [|n IH]; intros Hx Hy.
  - simpl. by rewrite !app_nil_r.
  - rewrite seq_S. simpl.
    rewrite (for_each_snoc _ _ _ _ _ _ _ (IH ltac:(lia) ltac:(lia))).
    destruct (lookup_lt_is_Some_2 bx n ltac:(lia)) as [b Hb].
    destruct (lookup_lt_is_Some_2 by_ n ltac:(lia)) as [c Hc].
    unfold test_batch, bind, lift, gets, ret.
    rewrite (py_index_lookup _ _ _ Hb), (py_index_lookup _ _ _ Hc).
    rewrite (take_S_r _ _ _ Hb), (take_S_r _ _ _ Hc).
    rewrite !map_app, !concat_app. simpl.
    by rewrite !app_nil_r, <- !app_assoc.
Qed.









(** C1: for equal-length [xs], [ys] with at least one element and a batch
    size [b >= 1], [get_batches] returns [ceil(num/b) - 1] batches of [b]
    elements each; concatenated they are the first [b * (ceil(num/b) - 1)]
    elements of the input, in order, which leaves out between one and [b] of
    them; for [num <= b] both results are empty.  Accordingly
    [test_stargazer_gnn], which batches its test slice one by one, returns
    the labels (and as many hidden vectors) of all but the last graph of the
    slice. *)
Theorem get_batches_drops_last_batch {A B : Type} (xs : list A) (ys : list B)
    (b : Z) (data : Dataset) (w : World F Net) :
  length xs = length ys -> (1 <= length xs)%nat -> 1 <= b ->
  let k := Z.to_nat (ceil_div (len xs) b) in
  let nb := Z.to_nat b in
  (exists bx by_,
      get_batches xs ys b = Ok (bx, by_)
      /\ (nb * (k - 1) < length xs <= nb * k)%nat
      /\ length bx = (k - 1)%nat /\ length by_ = (k - 1)%nat
      /\ Forall (fun c => length c = nb) bx /\ Forall (fun c => length c = nb) by_
      /\ concat bx = take (nb * (k - 1)) xs /\ concat by_ = take (nb * (k - 1)) ys
      /\ (len xs <= b -> bx = [] /\ by_ = []))
  /\ (let tx := slice (stargazer_x data) 8096 (8096 + 2048) in
      let ty := slice (stargazer_y data) 8096 (8096 + 2048) in
      exists hs yp,
        test_stargazer_gnn data w = (w, Ok (hs, take (length tx - 1) ty, yp))
        /\ length hs = (length tx - 1)%nat).
Proof.
  intros Hlen Hne Hb k nb.
  pose proof (ceil_div_bounds (len xs) b ltac:(lia)) as Hk.
  pose proof (ceil_div_pos (len xs) b ltac:(lia) ltac:(unfold len; lia)) as Hk0.
  assert (Hm : Z.to_nat (ceil_div (len xs) b - 1) = (k - 1)%nat) by (unfold k; lia).
  assert (Hlo : (nb * (k - 1) < length xs)%nat) by (unfold k, nb, len in *; nia).
  assert (Hhi : (length xs <= nb * k)%nat) by (unfold k, nb, len in *; nia).
  split.
  - eexists _, _. split; [apply get_batches_unfold; lia|]. rewrite Hm. fold nb.
    split; [lia|].
    rewrite !length_map, !length_seq. do 2 (split; [reflexivity|]).
    rewrite !concat_chunks.
    assert (Hfull : forall {C} (l : list C), length l = length xs ->
              Forall (fun c => length c = nb)
                     (map (fun i => take nb (drop (nb * i) l)) (seq 0 (k - 1)))).
    { intros C l Hl. apply Forall_map, Forall_forall. intros i Hi%elem_of_seq.
      simpl. rewrite length_take, length_drop. nia. }
    split; [by apply Hfull|]. split; [by apply Hfull|].
    do 2 (split; [reflexivity|]).
    intros Hsmall. assert (k = 1%nat) as -> by (unfold k; nia). by simpl.
  - intros tx ty. unfold test_stargazer_gnn. fold tx ty.
    rewrite get_batches_unfold by lia.
    set (m := Z.to_nat (ceil_div (len tx) 1 - 1)).
    assert (Hmt : m = (length tx - 1)%nat).
    { unfold m, ceil_div, len. rewrite Z.div_1_r. lia. }
    unfold bind at 1. unfold lift. rewrite range_len.
    rewrite length_map, length_seq.
    rewrite test_loop by (rewrite length_map, length_seq; lia).
    rewrite !take_ge by (rewrite length_map, length_seq; lia).
    simpl. rewrite concat_chunks, Nat.mul_1_l, Hmt.
    eexists _, _. split; [reflexivity|].
    by rewrite !length_map, length_seq.
Qed.

End Testing.

(** C1 at five elements in batches of two: two batches, the fifth element in
    none. *)
Lemma get_batches_drops_last_batch_witness :
  exists bx by_,
    get_batches [1; 2; 3; 4; 5] [10; 20; 30; 40; 50] 2 = Ok (bx, by_)
    /\ length bx = 2%nat
    /\ concat bx = [1; 2; 3; 4] /\ concat by_ = [10; 20; 30; 40].
Proof.
  destruct (get_batches_drops_last_batch (F := Z) (Net := Z) (Opt := nat)
              [1; 2; 3; 4; 5] [10; 20; 30; 40; 50] 2
              {| stargazer_x := []; stargazer_y := [] |}
              {| net := 0; stdout := [] |}
              eq_refl ltac:(simpl; lia) ltac:(lia))
    as [(bx & by_ & Hg & _ & Hl & _ & _ & _ & Hx & Hy & _) _].
  exists bx, by_. exact (conj Hg (conj Hl (conj Hx Hy))).
Defined.

End B1Facts.

(** ** The three training loops *)

Module Loops.
Import Sample.

Section Loops.
Context {F Net Opt Model Optim Rng Conv Optim' Rng' PyRng Layout Eps Img : Type}
  `{Float F} `{B1.Gnn F Net Opt} `{B2.Sage F Model Optim Rng}
  `{B3.Pyg F Conv Optim' Rng'} `{B3.Igraph PyRng Layout Eps Img}.


End Loops.



End Loops.

(** ** The rest of notebook b1-transition *)

Module B1Rest.
Import B1 Sample B1Facts.

Lemma ceil_div_nonpos (a b : Z) : 0 <= a -> b < 0 -> ceil_div a b <= 0.
Proof.
  intros Ha Hb. unfold ceil_div.
  pose proof (Z.div_mod (- a) b ltac:(lia)) as Hdm.
  pose proof (Z.mod_neg_bound (- a) b Hb) as Hr.
  nia.
Qed.

(** X1: [get_batches] with a batch size of 0 raises ZeroDivisionError; with
    a negative batch size, or with no element, it returns no batch at all,
    whatever the second list. *)
Theorem get_batches_without_batches {A B : Type} (xs : list A) (ys : list B) (b : Z) :
  get_batches xs ys 0 = Err ZeroDivisionError
  /\ (b < 0 -> get_batches xs ys b = Ok ([], []))
  /\ (b <> 0 -> get_batches (@nil A) ys b = Ok ([], [])).
Proof.
  split; [reflexivity|]. split.
  - intros Hb. unfold get_batches. destruct (Z.eqb_spec b 0); [lia|].
    pose proof (ceil_div_nonpos (Z.of_nat (length xs)) b ltac:(lia) Hb).
    unfold range. replace (Z.to_nat _) with 0%nat by lia. reflexivity.
  - intros Hb. unfold get_batches. destruct (Z.eqb_spec b 0); [lia|].
    change (Z.of_nat (length (@nil A))) with 0. unfold ceil_div.
    rewrite Z.opp_0, Z.div_0_l by lia. reflexivity.
Qed.

(** X2: for a batch size [b >= 1], element [j] of batch [i] of [xs] is
    element [b * i + j] of [xs], which exists, and element [j] of batch [i]
    of [ys] is element [b * i + j] of [ys]: a label stays at the position of
    its graph.  There are as many batches of labels as of graphs, the
    number being decided by [xs] alone. *)
Theorem get_batches_keeps_pairs {A B : Type} (xs : list A) (ys : list B) (b : Z) :
  1 <= b ->
  exists bx by_,
    get_batches xs ys b = Ok (bx, by_)
    /\ length by_ = length bx
    /\ forall i j, (i < length bx)%nat -> (j < Z.to_nat b)%nat ->
         (bx !! i ≫= (.!! j)) = xs !! (Z.to_nat b * i + j)%nat
         /\ (by_ !! i ≫= (.!! j)) = ys !! (Z.to_nat b * i + j)%nat
         /\ is_Some (xs !! (Z.to_nat b * i + j)%nat).
Proof.
  intros Hb. eexists _, _. split; [by apply get_batches_unfold|].
  rewrite !length_map, !length_seq. split; [done|].
  intros i j Hi Hj.
  pose proof (ceil_div_bounds (len xs) b ltac:(lia)) as Hk.
  rewrite !list_lookup_fmap, !lookup_seq_lt by done. simpl.
  rewrite !lookup_take_lt, !lookup_drop by done.
  do 2 (split; [done|]).
  apply lookup_lt_is_Some. unfold len in *. nia.
Qed.

(** X2 at five graphs, five labels and batches of two. *)
Lemma get_batches_keeps_pairs_witness :
  exists bx by_,
    get_batches [1; 2; 3; 4; 5] [10; 20; 30; 40; 50] 2 = Ok (bx, by_)
    /\ length by_ = length bx.
Proof.
  destruct (get_batches_keeps_pairs [1; 2; 3; 4; 5] [10; 20; 30; 40; 50] 2 ltac:(lia))
    as (bx & by_ & Hg & Hl & _).
  exists bx, by_. exact (conj Hg Hl).
Defined.

Lemma get_batches_small {A B : Type} (xs : list A) (ys : list B) (b : Z) :
  1 <= b -> len xs <= b -> get_batches xs ys b = Ok ([], []).
Proof.
  intros Hb Hs. rewrite get_batches_unfold by done.
  pose proof (ceil_div_bounds (len xs) b ltac:(lia)) as Hk.
  replace (Z.to_nat (ceil_div (len xs) b - 1)) with 0%nat by nia.
  reflexivity.
Qed.

Section Training.
Context {F Net Opt : Type} `{Float F} `{Gnn F Net Opt}.

(** X3: [train_stargazer_gnn] asked for no epoch (or a negative number of
    them) returns the empty list, the network and the output untouched,
    whatever the dataset.  On a dataset of at most 64 graphs, which gives no
    batch, it raises ZeroDivisionError in its first epoch, at the division
    of the epoch's loss by the number of batches, again with the network
    and the output untouched. *)
Theorem train_stargazer_gnn_without_a_batch (data : Dataset) (num_epochs : Z)
    (w : World F Net) :
  (num_epochs <= 0 -> train_stargazer_gnn data num_epochs w = (w, Ok []))
  /\ ((length (stargazer_x data) <= 64)%nat -> 1 <= num_epochs ->
      train_stargazer_gnn data num_epochs w = (w, Err ZeroDivisionError)).
Proof.
  split.
  - intros Hn. unfold train_stargazer_gnn, range.
    replace (Z.to_nat num_epochs) with 0%nat by lia.
    rewrite get_batches_unfold by lia. destruct w. reflexivity.
  - intros Hd Hn. unfold train_stargazer_gnn.
    rewrite get_batches_small; [|lia|].
    2:{ rewrite slice_nonneg by lia. unfold len. rewrite length_take, length_drop. lia. }
    unfold range. destruct (Z.to_nat num_epochs) as [|n] eqn:En; [lia|].
    destruct w. reflexivity.
Qed.

End Training.

Lemma for_result_snoc {A S : Type} (l : list A) (x : A) (body : A -> S -> result S)
    (acc acc' : S) :
  for_result l body acc = Ok acc' ->
  for_result (l ++ [x]) body acc = body x acc'.
Proof.
  revert acc. induction l as [|y l IH]; intros acc; simpl.
  - intros [= <-]. by destruct (body x acc).
  - destruct (body y acc) as [a|e]; [apply IH | done].
Qed.

Lemma for_result_err {A S : Type} (l l' : list A) (body : A -> S -> result S)
    (acc : S) (e : Exn) :
  for_result l body acc = Err e -> for_result (l ++ l') body acc = Err e.
Proof.
  revert acc. induction l as [|y l IH]; intros acc; simpl; [done|].
  destruct (body y acc) as [a|e']; [apply IH | done].
Qed.

Lemma for_result_app_ok {A S : Type} (l l' : list A) (body : A -> S -> result S)
    (acc acc' : S) :
  for_result l body acc = Ok acc' ->
  for_result (l ++ l') body acc = for_result l' body acc'.
Proof.
  revert acc. induction l as [|y l IH]; intros acc; simpl.
  - by intros [= <-].
  - destruct (body y acc) as [a|e]; [apply IH | done].
Qed.

(** [make_stargazer_graph] by what the dictionary holds for the index. *)
Lemma make_stargazer_graph_cases (se : gmap string (list (nat * nat))) (index : Z) :
  match se !! pretty index with
  | None => make_stargazer_graph se index = Err (KeyError (pretty index))
  | Some [] => make_stargazer_graph se index = Err IndexError
  | Some rows => exists g, make_stargazer_graph se index = Ok g
                           /\ edges g = rows ++ (prod_swap <$> rows)
  end.
Proof.
  unfold make_stargazer_graph. destruct (se !! pretty index) as [[|row rows]|]; try done.
  apply (dgl_graph_both_ways (row :: rows)).
Qed.

(** The first [n] rounds of the loop, when the first [n] keys are there. *)
Lemma build_prefix (se : gmap string (list (nat * nat))) (n : nat) :
  (forall i, (i < n)%nat -> exists rows, se !! pretty (Z.of_nat i) = Some rows /\ rows <> []) ->
  exists gs,
    for_result (seq 0 n)
      (fun i stargazer_x =>
         match make_stargazer_graph se (Z.of_nat i) with
         | Err e => Err e
         | Ok G => Ok (stargazer_x ++ [G])
         end) [] = Ok gs
    /\ length gs = n
    /\ forall i rows, se !! pretty (Z.of_nat i) = Some rows -> (i < n)%nat ->
         exists g, gs !! i = Some g /\ edges g = rows ++ (prod_swap <$> rows).
Proof.
  induction n as [|n IH]; intros Hkeys.
  - exists []. split; [done|]. split; [done|]. intros; lia.
  - destruct IH as (gs & Hrun & Hlen & Hgs); [intros i Hi; apply Hkeys; lia|].
    destruct (Hkeys n ltac:(lia)) as (rows & Hrows & Hne).
    pose proof (make_stargazer_graph_cases se (Z.of_nat n)) as Hc.
    rewrite Hrows in Hc. destruct rows as [|row rows]; [done|].
    destruct Hc as (g & Hg & He).
    exists (gs ++ [g]). rewrite seq_S. simpl. rewrite (for_result_snoc _ _ _ _ _ Hrun), Hg.
    split; [done|]. split; [rewrite length_app; simpl; lia|].
    intros i rows' Hi Hlt. destruct (decide (i = n)) as [->|Hin].
    + rewrite Hrows in Hi. injection Hi as <-. exists g.
      by rewrite lookup_app_r, Hlen, Nat.sub_diag by lia.
    + destruct (Hgs i rows' Hi ltac:(lia)) as (g' & Hg' & He').
      exists g'. by rewrite lookup_app_l by lia.
Qed.

(** If the loop has run [n] rounds, the first [n] keys were there. *)
Lemma build_inv (se : gmap string (list (nat * nat))) (n : nat) (gs : list DGLGraph) :
  for_result (seq 0 n)
    (fun i stargazer_x =>
       match make_stargazer_graph se (Z.of_nat i) with
       | Err e => Err e
       | Ok G => Ok (stargazer_x ++ [G])
       end) [] = Ok gs ->
  forall i, (i < n)%nat -> exists rows, se !! pretty (Z.of_nat i) = Some rows /\ rows <> [].
Proof.
  revert gs. induction n as [|n IH]; intros gs Hrun i Hi; [lia|].
  rewrite seq_S in Hrun. simpl in Hrun.
  destruct (for_result (seq 0 n) _ []) as [gs'|e] eqn:Hpre.
  2:{ by rewrite (for_result_err _ _ _ _ _ Hpre) in Hrun. }
  rewrite (for_result_snoc _ _ _ _ _ Hpre) in Hrun.
  destruct (decide (i = n)) as [->|Hin]; [|apply (IH gs' eq_refl); lia].
  pose proof (make_stargazer_graph_cases se (Z.of_nat n)) as Hc.
  destruct (se !! pretty (Z.of_nat n)) as [[|row rows]|]; [| by eexists |].
  - by rewrite Hc in Hrun.
  - by rewrite Hc in Hrun.
Qed.

(** X4: the cell that builds [stargazer_x] and prints [stargazer_x[19]]
    ends normally only on a dictionary of at least 20 entries whose keys
    are exactly the decimal numbers [0 .. n - 1], [n] being its size, each
    with at least one edge; the list then has [n] graphs, the graph at
    position [i] built from the edges of key [i], and the graph printed is
    the one at position 19.  At the first index whose key is missing the
    cell raises KeyError with that key, and at the first whose edge list is
    empty it raises IndexError.  When every key is there with an edge, the
    cell ends normally if there are 20 graphs or more, and otherwise raises
    IndexError at the print. *)
Theorem stargazer_x_needs_the_keys_0_to_n (se : gmap string (list (nat * nat))) :
  (forall gs first, build_stargazer_x se = Ok (gs, first) ->
     length gs = size se
     /\ (20 <= size se)%nat
     /\ gs !! 19%nat = Some first
     /\ (forall k, is_Some (se !! k)
                   <-> exists i, (i < size se)%nat /\ k = pretty (Z.of_nat i))
     /\ (forall i, (i < size se)%nat ->
           exists rows g, se !! pretty (Z.of_nat i) = Some rows /\ rows <> []
                          /\ gs !! i = Some g
                          /\ edges g = rows ++ (prod_swap <$> rows)))
  /\ (forall i, (i < size se)%nat ->
        (forall j, (j < i)%nat ->
           exists rows, se !! pretty (Z.of_nat j) = Some rows /\ rows <> []) ->
        (se !! pretty (Z.of_nat i) = None ->
           build_stargazer_x se = Err (KeyError (pretty (Z.of_nat i))))
        /\ (se !! pretty (Z.of_nat i) = Some [] ->
           build_stargazer_x se = Err IndexError))
  /\ ((forall i, (i < size se)%nat ->
         exists rows, se !! pretty (Z.of_nat i) = Some rows /\ rows <> []) ->
      ((size se < 20)%nat -> build_stargazer_x se = Err IndexError)
      /\ ((20 <= size se)%nat -> exists gs first, build_stargazer_x se = Ok (gs, first))).
Proof.
  unfold build_stargazer_x, range. rewrite Nat2Z.id. split; [|split].
  - intros gs first Hcell.
    destruct (for_result (seq 0 (size se)) _ []) as [gs0|e] eqn:Hrun; [|done].
    unfold py_index in Hcell. destruct (gs0 !! _) as [g19|] eqn:H19; [|done].
    injection Hcell as -> ->.
    pose proof (build_inv _ _ _ Hrun) as Hkeys.
    destruct (build_prefix se (size se) Hkeys) as (gs' & Hrun' & Hlen & Hgs).
    rewrite Hrun in Hrun'. injection Hrun' as <-.
    split; [exact Hlen|].
    split; [apply lookup_lt_Some in H19; lia|]. split; [exact H19|]. split.
    + set (K := list_to_set ((fun i => pretty (Z.of_nat i)) <$> seq 0 (size se)) : gset string).
      assert (Hsub : K ⊆ dom se).
      { intros k Hk. apply elem_of_list_to_set, list_elem_of_fmap in Hk as (i & -> & Hi).
        apply elem_of_seq in Hi. apply elem_of_dom.
        destruct (Hkeys i ltac:(lia)) as (rows & -> & _). by eexists. }
      assert (HK : size K = size se).
      { unfold K. rewrite size_list_to_set, length_fmap, length_seq; [done|].
        apply NoDup_fmap_2; [|apply NoDup_seq].
        intros a b Hab. apply (inj pretty), Nat2Z.inj in Hab. exact Hab. }
      assert (Heq : K = dom se).
      { apply set_subseteq_size_eq; [exact Hsub|]. rewrite size_dom. lia. }
      intros k. rewrite <- elem_of_dom, <- Heq. unfold K.
      rewrite elem_of_list_to_set, list_elem_of_fmap. split.
      * intros (i & -> & Hi%elem_of_seq). exists i. split; [lia|done].
      * intros (i & Hi & ->). exists i. split; [done|]. apply elem_of_seq. lia.
    + intros i Hi. destruct (Hkeys i Hi) as (rows & Hrows & Hne).
      destruct (Hgs i rows Hrows Hi) as (g & Hg & He). by exists rows, g.
  - intros i Hi Hbefore.
    destruct (build_prefix se i Hbefore) as (gs & Hrun & _).
    replace (size se) with (i + S (size se - S i))%nat by lia.
    rewrite seq_app, (for_result_app_ok _ _ _ _ _ Hrun). cbn [seq for_result Nat.add].
    pose proof (make_stargazer_graph_cases se (Z.of_nat i)) as Hc.
    split; intros Hi'; rewrite Hi' in Hc; by rewrite Hc.
  - intros Hkeys.
    destruct (build_prefix se (size se) Hkeys) as (gs & -> & Hlen & _).
    unfold py_index. split; intros Hsz.
    + by rewrite lookup_ge_None_2 by lia.
    + destruct (lookup_lt_is_Some_2 gs 19) as [g Hg]; [lia|].
      rewrite Hg. by exists gs, g.
Qed.

(** X4 on a dictionary with the keys "0" to "19". *)
Lemma stargazer_x_needs_the_keys_0_to_n_witness :
  exists gs first,
    build_stargazer_x (Sample.stargazer_graphs 20) = Ok (gs, first)
    /\ length gs = size (Sample.stargazer_graphs 20).
Proof.
  destruct (build_stargazer_x (Sample.stargazer_graphs 20)) as [[gs first]|e] eqn:Hrun;
    [|vm_compute in Hrun; discriminate].
  exists gs, first. split; [reflexivity|].
  exact (proj1 (proj1 (stargazer_x_needs_the_keys_0_to_n (Sample.stargazer_graphs 20))
                  gs first Hrun)).
Defined.

Lemma built_graph_dst (rows : list (nat * nat)) (g : DGLGraph) :
  dgl_graph (rows.*1 ++ rows.*2) (rows.*2 ++ rows.*1) = Ok g ->
  edge_dst g = rows.*2 ++ rows.*1.
Proof. unfold dgl_graph. case_decide; [|done]. by intros [= <-]. Qed.

Lemma make_stargazer_graph_inv (se : gmap string (list (nat * nat))) (index : Z)
    (g : DGLGraph) :
  make_stargazer_graph se index = Ok g ->
  exists rows, se !! pretty index = Some rows
               /\ dgl_graph (rows.*1 ++ rows.*2) (rows.*2 ++ rows.*1) = Ok g.
Proof.
  unfold make_stargazer_graph. destruct (se !! pretty index) as [rows|]; [|done].
  destruct rows as [|row rows]; [done|]. intros Hg. by eexists.
Qed.

Section Network.
Context {F P Rng : Type} `{Float F} `{Layers F P Rng}.

(** X5: in a graph built by [make_webmluser_graph] or by
    [make_stargazer_graph] from the pairs [rows], the in-degree of a vertex
    is the number of pairs it is an end of, in either position: the feature
    [hidden] starts from is the degree in the undirected graph.  An end of a
    pair is a vertex of degree at least 1; an id below the largest that no
    pair mentions is a vertex too, of degree 0. *)
Theorem degree_feature_counts_both_directions
    (se : gmap string (list (nat * nat))) (index : Z) (rows : list (nat * nat))
    (g : DGLGraph) (self : StargazerGNN P) :
  make_webmluser_graph rows = Ok g
  \/ (se !! pretty index = Some rows /\ make_stargazer_graph se index = Ok g) ->
  in_degrees g = degree rows <$> seq 0 (num_nodes g)
  /\ StargazerGNN_hidden self g
     = fold_left (fun h conv => torch_relu (graph_conv conv g h)) (convs self)
                 ((fun v => [f_of_Z (Z.of_nat (degree rows v))]) <$> seq 0 (num_nodes g))
  /\ (forall a b, (a, b) ∈ rows ->
        (a < num_nodes g)%nat /\ (b < num_nodes g)%nat
        /\ (1 <= degree rows a)%nat /\ (1 <= degree rows b)%nat)
  /\ (forall v, (v < num_nodes g)%nat -> v ∉ rows.*1 -> v ∉ rows.*2 ->
        in_degrees g !! v = Some 0%nat).
Proof.
  intros Hg.
  assert (Hd : dgl_graph (rows.*1 ++ rows.*2) (rows.*2 ++ rows.*1) = Ok g).
  { destruct Hg as [Hg|[Hrows Hg]]; [exact Hg|].
    destruct (make_stargazer_graph_inv _ _ _ Hg) as (rows' & Hrows' & Hd).
    rewrite Hrows in Hrows'. by injection Hrows' as <-. }
  clear Hg. pose proof (built_graph_dst _ _ Hd) as Hdst.
  destruct (built_graph_spec _ _ Hd) as (_ & Hvalid & Hboth & _).
  assert (Hdeg : in_degrees g = degree rows <$> seq 0 (num_nodes g)).
  { unfold in_degrees, degree. apply list_fmap_ext. intros _ v _.
    rewrite Hdst, filter_app, length_app. lia. }
  assert (Hpos : forall (l : list nat) v, v ∈ l -> (1 <= length (filter (fun a => a = v) l))%nat).
  { intros l v Hv. assert (Hin : v ∈ filter (fun a => a = v) l) by (by apply list_elem_of_filter).
    destruct (filter _ l); [by apply elem_of_nil in Hin | simpl; lia]. }
  split; [exact Hdeg|]. split; [|split].
  - unfold StargazerGNN_hidden. by rewrite Hdeg, <- list_fmap_compose.
  - intros a b Hab. destruct (Hboth a b Hab) as [Hab' _].
    destruct (Hvalid a b Hab') as [Ha Hb]. do 2 (split; [done|]).
    unfold degree. split.
    + pose proof (Hpos rows.*1 a ltac:(by apply (list_elem_of_fmap_2 fst) in Hab)). lia.
    + pose proof (Hpos rows.*2 b ltac:(by apply (list_elem_of_fmap_2 snd) in Hab)). lia.
  - intros v Hv H1 H2. rewrite Hdeg, list_lookup_fmap, lookup_seq_lt by done. simpl.
    f_equal. unfold degree.
    assert (Hnil : forall l : list nat, v ∉ l -> filter (fun a => a = v) l = []).
    { intros l Hl. induction l as [|a l IH]; [done|].
      apply not_elem_of_cons in Hl as [Hne Hl].
      rewrite filter_cons, decide_False by done. by apply IH. }
    by rewrite !Hnil.
Qed.

(** The layers built by the first [n] rounds of the loop of [__init__]. *)
Lemma convs_loop (nhf : list Z) (n : nat) (r : Rng) :
  (n < length nhf)%nat ->
  exists cs r',
    for_each (seq 0 n)
      (fun i convs =>
         bind (lift (py_index nhf i)) (fun a =>
         bind (lift (py_index nhf (i + 1))) (fun b =>
         bind (GraphConv a b) (fun conv => ret (convs ++ [conv]))))) [] r
    = (r', Ok cs)
    /\ length cs = n
    /\ forall i c, cs !! i = Some c ->
         nhf !! i = Some (in_feats c) /\ nhf !! (i + 1)%nat = Some (out_feats c).
Proof.
  induction n as [|n IH]; intros Hn.
  - exists [], r. by repeat split.
  - destruct (IH ltac:(lia)) as (cs & r' & Hrun & Hlen & Hcs).
    destruct (lookup_lt_is_Some_2 nhf n ltac:(lia)) as [a Ha].
    destruct (lookup_lt_is_Some_2 nhf (n + 1) ltac:(lia)) as [b Hb].
    rewrite seq_S. cbn [Nat.add]. rewrite (for_each_snoc _ _ _ _ _ _ _ Hrun).
    unfold bind, lift, ret, GraphConv.
    rewrite (py_index_lookup _ _ _ Ha), (py_index_lookup _ _ _ Hb).
    destruct (GraphConv_params a b r') as [p r''].
    eexists _, _. split; [reflexivity|]. split; [rewrite length_app; simpl; lia|].
    intros i c Hi. destruct (decide (i = n)) as [->|Hin].
    + rewrite lookup_app_r, Hlen, Nat.sub_diag in Hi by lia. by injection Hi as <-.
    + apply Hcs. rewrite lookup_app_l in Hi; [done|].
      apply lookup_lt_Some in Hi. rewrite length_app in Hi. simpl in Hi. lia.
Qed.

(** X6: [StargazerGNN([])] raises IndexError, no layer having been built.
    For a non-empty list of positive sizes the network has one convolution
    less than the list has entries, convolution [i] going from size [i] of
    the list to size [i + 1], and a classifier from the last size to 2: the
    output size of each layer is the input size of the next. *)
Theorem StargazerGNN_layers_fit_together (num_hidden_features : list Z) (r : Rng) :
  StargazerGNN_init [] r = (r, Err IndexError)
  /\ (num_hidden_features <> [] -> Forall (fun n => 0 < n) num_hidden_features ->
      exists gnn r',
        StargazerGNN_init num_hidden_features r = (r', Ok gnn)
        /\ length (convs gnn) = (length num_hidden_features - 1)%nat
        /\ (forall i c, convs gnn !! i = Some c ->
              num_hidden_features !! i = Some (in_feats c)
              /\ num_hidden_features !! (i + 1)%nat = Some (out_feats c))
        /\ (forall i c c', convs gnn !! i = Some c -> convs gnn !! (i + 1)%nat = Some c' ->
              out_feats c = in_feats c')
        /\ (forall c, last (convs gnn) = Some c -> out_feats c = in_feats (classify gnn))
        /\ last num_hidden_features = Some (in_feats (classify gnn))
        /\ out_feats (classify gnn) = 2).
Proof.
  split; [reflexivity|]. intros Hne _.
  assert (Hlen : (0 < length num_hidden_features)%nat)
    by (destruct num_hidden_features; [done | simpl; lia]).
  destruct (convs_loop num_hidden_features (length num_hidden_features - 1) r ltac:(lia))
    as (cs & r' & Hrun & Hcl & Hcs).
  destruct (last num_hidden_features) as [n|] eqn:Hlast.
  2:{ by apply last_None in Hlast. }
  unfold StargazerGNN_init, range.
  replace (Z.to_nat (len num_hidden_features - 1)) with (length num_hidden_features - 1)%nat
    by (unfold len; lia).
  rewrite (bind_ok _ _ _ _ _ Hrun). unfold py_last. rewrite Hlast.
  unfold bind, lift, ret, Linear. destruct (Linear_params n 2 r') as [p r''].
  eexists _, _. split; [reflexivity|]. cbn [convs classify in_feats out_feats].
  split; [exact Hcl|]. split; [exact Hcs|]. split; [|split; [|done]].
  - intros i c c' Hi Hi'. destruct (Hcs i c Hi) as [_ Ho].
    destruct (Hcs (i + 1)%nat c' Hi') as [Hin _]. congruence.
  - intros c Hc. rewrite last_lookup, Hcl in Hc.
    destruct (Hcs _ c Hc) as [_ Ho].
    apply lookup_lt_Some in Hc. rewrite Hcl in Hc.
    rewrite last_lookup in Hlast.
    replace (Init.Nat.pred (length num_hidden_features - 1) + 1)%nat
      with (Init.Nat.pred (length num_hidden_features)) in Ho by lia.
    congruence.
Qed.

End Network.

(** X5 on the graph of the pairs [0, 1] and [1, 2]: the degrees 1, 2, 1. *)
Lemma degree_feature_counts_both_directions_witness :
  in_degrees {| num_nodes := 3; edge_src := [0; 1; 1; 2]; edge_dst := [1; 2; 0; 1] |}%nat
  = degree [(0, 1); (1, 2)]%nat <$> seq 0 3.
Proof.
  exact (proj1 (degree_feature_counts_both_directions (F := Z) ∅ 0 [(0, 1); (1, 2)]%nat
                  {| num_nodes := 3; edge_src := [0; 1; 1; 2]; edge_dst := [1; 2; 0; 1] |}%nat
                  {| convs := [];
                     classify := {| in_feats := 1; out_feats := 2; params := 0%nat |} |}
                  (or_introl eq_refl))).
Defined.

Section Plotting.
Context {NxG Pos : Type} `{Networkx NxG Pos}.

(** X7: for a graph built by [make_stargazer_graph] or by
    [make_webmluser_graph] from the pairs [rows], [plot_stargazer_graph]
    with [print_info] prints a number of vertices above every id of [rows]
    and a number of edges that is twice the number of pairs, each pair being
    stored in both directions, although what it draws is the undirected
    graph.  Without [print_info] it prints nothing and makes the same
    drawing.  The colour is pink for label 0 and for nothing else, green
    for 1 and for nothing else, grey otherwise, [None] included.
    [plot_webmluser_graph] draws the same graph in the same layout in grey,
    without passing [with_labels], and prints nothing. *)
Theorem plot_stargazer_graph_prints_both_directions
    (se : gmap string (list (nat * nat))) (index : Z) (rows : list (nat * nat))
    (G : DGLGraph) (label : option Z) (labels : bool) (c : Canvas NxG Pos) :
  make_webmluser_graph rows = Ok G
  \/ (se !! pretty index = Some rows /\ make_stargazer_graph se index = Ok G) ->
  exists d,
    plot_stargazer_graph G label true labels c
    = ({| info := info c ++ [VerticesLine (number_of_nodes G); EdgesLine (2 * len rows)];
          drawings := drawings c ++ [d] |}, Ok tt)
    /\ (forall a b, (a, b) ∈ rows ->
          Z.of_nat a < number_of_nodes G /\ Z.of_nat b < number_of_nodes G)
    /\ plot_stargazer_graph G label false labels c
       = ({| info := info c; drawings := drawings c ++ [d] |}, Ok tt)
    /\ nx_graph d = to_undirected G
    /\ with_labels d = Some labels
    /\ (node_color d = [[6 # 10; 0; 6 # 10]]%Q <-> label = Some 0)
    /\ (node_color d = [[0; 5 # 10; 0]]%Q <-> label = Some 1)
    /\ (node_color d = [[7 # 10; 7 # 10; 7 # 10]]%Q <-> label <> Some 0 /\ label <> Some 1)
    /\ plot_webmluser_graph G c
       = ({| info := info c;
             drawings := drawings c
                         ++ [ {| nx_graph := nx_graph d; nx_pos := nx_pos d;
                                 with_labels := None;
                                 node_color := [[7 # 10; 7 # 10; 7 # 10]]%Q |} ] |}, Ok tt).
Proof.
  intros Hg.
  assert (Hd : dgl_graph (rows.*1 ++ rows.*2) (rows.*2 ++ rows.*1) = Ok G).
  { destruct Hg as [Hg|[Hrows Hg]]; [exact Hg|].
    destruct (make_stargazer_graph_inv _ _ _ Hg) as (rows' & Hrows' & Hd).
    rewrite Hrows in Hrows'. by injection Hrows' as <-. }
  clear Hg. destruct (built_graph_spec _ _ Hd) as (_ & Hvalid & Hboth & _).
  assert (Hedges : number_of_edges G = 2 * len rows).
  { unfold number_of_edges, len. unfold dgl_graph in Hd. case_decide as Hlen; [|done].
    injection Hd as <-. cbn [edge_src]. rewrite length_app, !length_fmap. lia. }
  eexists. split.
  { unfold plot_stargazer_graph, print_info_line, nx_draw, bind, modify, ret.
    cbn [info drawings]. rewrite <- app_assoc, Hedges. reflexivity. }
  split.
  { intros a b Hab. destruct (Hboth a b Hab) as [Hab' _].
    destruct (Hvalid a b Hab') as [Ha Hb]. unfold number_of_nodes. lia. }
  split; [reflexivity|].
  cbn [nx_graph nx_pos with_labels node_color]. do 2 (split; [done|]).
  split; [|split; [|split; [|reflexivity]]].
  - destruct label as [l|]; [|done].
    destruct (Z.eqb_spec l 0) as [->|]; [done|].
    destruct (Z.eqb_spec l 1) as [->|]; split; intros E; try discriminate E; congruence.
  - destruct label as [l|]; [|done].
    destruct (Z.eqb_spec l 0) as [->|]; [done|].
    destruct (Z.eqb_spec l 1) as [->|]; split; intros E; try discriminate E; congruence.
  - destruct label as [l|]; [|done].
    destruct (Z.eqb_spec l 0) as [->|]; [split; [done | by intros [? _]]|].
    destruct (Z.eqb_spec l 1) as [->|]; [split; [done | by intros [_ ?]]|].
    split; [|done]. intros _. split; congruence.
Qed.

End Plotting.

(** X7 on the graph of the pairs [0, 1] and [1, 2], of class 1. *)
Lemma plot_stargazer_graph_prints_both_directions_witness :
  exists d,
    plot_stargazer_graph
      {| num_nodes := 3; edge_src := [0; 1; 1; 2]; edge_dst := [1; 2; 0; 1] |}%nat
      (Some 1) true true {| info := []; drawings := [] |}
    = ({| info := [VerticesLine 3; EdgesLine 4]; drawings := [d] |}, Ok tt).
Proof.
  destruct (plot_stargazer_graph_prints_both_directions ∅ 0 [(0, 1); (1, 2)]%nat
              {| num_nodes := 3; edge_src := [0; 1; 1; 2]; edge_dst := [1; 2; 0; 1] |}%nat
              (Some 1) true {| info := []; drawings := [] |} (or_introl eq_refl))
    as (d & Hrun & _).
  exists d. exact Hrun.
Defined.

End B1Rest.

(** ** The rest of notebook b2-graphsage *)

Module B2Rest.
Import B2 Sample B2Facts.

Section Training.
Context {F Model Optim Rng : Type} `{Float F} `{Sage F Model Optim Rng}.

(** X8: on as many predictions as labels, [get_accuracy] raises
    ZeroDivisionError when there is no label.  Otherwise it returns the
    number of positions where the index of the largest score is the label,
    as a float, divided by the number of labels; that number is at most
    the number of labels and reaches it exactly when every prediction is
    right. *)
Theorem get_accuracy_counts_hits (pred : list (list F)) (true_ : list Z)
    (Hshape : length (max_indices pred) = length true_) :
  let indices := max_indices pred in
  let correct := length (filter (fun p => p.1 = p.2) (zip indices true_)) in
  (true_ = [] -> get_accuracy pred true_ = Err ZeroDivisionError)
  /\ (true_ <> [] ->
      get_accuracy pred true_
      = Ok (fdiv (fmul (f_of_Z (Z.of_nat correct)) (flit 1)) (f_of_Z (len true_))))
  /\ (correct <= length true_)%nat
  /\ (correct = length true_ <-> indices = true_).
Proof.
  intros indices correct. split; [by intros ->|]. split; [|split].
  - intros Hne. unfold get_accuracy, py_div.
    destruct (Z.eqb_spec (len true_) 0) as [Hz|_]; [|done].
    destruct true_; [done | unfold len in Hz; simpl in Hz; lia].
  - unfold correct. etrans; [apply length_filter|].
    rewrite length_zip_with. lia.
  - unfold correct. fold indices in Hshape. revert Hshape. generalize indices.
    clear indices correct.
    intros l. revert true_. induction l as [|a l IH]; intros [|b t] Hl; try done.
    simpl in Hl. injection Hl as Hl. specialize (IH t Hl).
    simpl. rewrite filter_cons. simpl. case_decide as Hab.
    + subst b. simpl. split.
      * intros [= E]. f_equal. by apply IH.
      * intros [= E]. f_equal. by apply IH.
    + split; [|congruence]. intros E.
      pose proof (length_filter (fun p : Z * Z => p.1 = p.2) (zip l t)) as Hle.
      rewrite length_zip_with in Hle. lia.
Qed.

(** One epoch of [train], in full. *)
Lemma sage_epoch_result (G : Globals F) (epoch : nat) (dur : list F)
    (logits : list (list (list F))) (o : option (list (list F)))
    (w : World F Model Optim Rng) :
  exists w',
    (train_epoch G epoch (dur, logits, o) w).1 = w'
    /\ model w' = epoch_model G w
    /\ optimizer w'
       = (optim_step (optimizer w) (set_training true (model w)) (train_loss G (rng w))).1
    /\ rng w' = (sage_forward (set_training true (model w)) (features G) (rng w)).2
    /\ clock w' = (clock w + 2)%nat
    /\ match get_accuracy (mask_select (val_mask G) (epoch_output G w))
                          (mask_select (val_mask G) (labels G)) with
       | Err e => (train_epoch G epoch (dur, logits, o) w).2 = Err e
                  /\ stdout w' = stdout w
       | Ok acc =>
           exists dur',
             (train_epoch G epoch (dur, logits, o) w).2
             = Ok (dur', logits ++ [mask_select (train_mask G) (epoch_output G w)],
                   Some (epoch_output G w))
             /\ length dur' = S (length dur)
             /\ epochs_reported (stdout w') = epochs_reported (stdout w) ++ [epoch]
             /\ accuracies_reported (stdout w') = accuracies_reported (stdout w) ++ [acc]
       end.
Proof.
  unfold train_epoch, epoch_output, epoch_model, train_loss.
  unfold bind, modify, time, gets, lift, print, ret, set_model, set_rng, set_optimizer.
  simpl.
  destruct (sage_forward _ _ _) as [output r'] eqn:Ef. simpl.
  destruct (optim_step _ _ _) as [opt' m'] eqn:Eo. simpl.
  destruct (get_accuracy _ _) as [acc|e]; simpl.
  - eexists. split; [reflexivity|]. simpl. do 3 (split; [reflexivity|]).
    split; [lia|]. eexists. split; [reflexivity|].
    rewrite length_app. simpl. split; [lia|].
    unfold epochs_reported, accuracies_reported. rewrite !omap_app. done.
  - eexists. split; [reflexivity|]. simpl. do 3 (split; [reflexivity|]).
    split; [lia|]. done.
Qed.

(** X9: when the validation mask selects no vertex, [train] asked for at
    least one epoch raises ZeroDivisionError in its first epoch, from
    [get_accuracy], after the optimizer has stepped: the model is left
    updated once and in evaluation mode, the clock has been read twice, and
    nothing has been printed. *)
Theorem train_fails_after_its_first_step (G : Globals F) (n_epochs : Z)
    (w : World F Model Optim Rng) :
  mask_select (val_mask G) (labels G) = [] -> 1 <= n_epochs ->
  exists v,
    train G n_epochs w = (v, Err ZeroDivisionError)
    /\ model v = epoch_model G w
    /\ optimizer v
       = (optim_step (optimizer w) (set_training true (model w)) (train_loss G (rng w))).1
    /\ clock v = (clock w + 2)%nat
    /\ stdout v = stdout w.
Proof.
  intros Hval Hn. unfold train, range.
  destruct (Z.to_nat n_epochs) as [|n] eqn:En; [lia|].
  destruct (sage_epoch_result G 0 [] [] None w) as (w' & Hw & Hm & Ho & Hr & Hc & Hacc).
  rewrite Hval in Hacc.
  assert (Hz : forall p, get_accuracy p [] = Err ZeroDivisionError) by done.
  rewrite Hz in Hacc. destruct Hacc as [He Hs].
  assert (Hrun : train_epoch G 0 ([], [], None) w = (w', Err ZeroDivisionError)).
  { destruct (train_epoch G 0 ([], [], None) w) as [u res]. simpl in *. by subst. }
  exists w'. split; [|done].
  cbn [seq for_each]. apply bind_err, bind_err, Hrun.
Qed.

(** X10: the output that [train] returns after [n + 1] epochs is the forward
    pass of its last epoch, made in training mode by the model as the first
    [n] epochs left it, before that epoch's optimizer step; the model it
    returns is the one after the step, in evaluation mode.  The last logits
    recorded are the training rows of that output, and the last accuracy
    printed is [get_accuracy] on its validation rows. *)
Theorem train_returns_the_output_before_the_last_step (G : Globals F) (n : nat)
    (w : World F Model Optim Rng) :
  mask_select (val_mask G) (labels G) <> [] ->
  exists u locals v logits acc,
    for_each (seq 0 n) (train_epoch G) ([], [], None) w = (u, Ok locals)
    /\ train G (Z.of_nat (S n)) w = (v, Ok (model v, epoch_output G u, logits))
    /\ model v = epoch_model G u
    /\ last logits = Some (mask_select (train_mask G) (epoch_output G u))
    /\ get_accuracy (mask_select (val_mask G) (epoch_output G u))
                    (mask_select (val_mask G) (labels G)) = Ok acc
    /\ last (accuracies_reported (stdout v)) = Some acc.
Proof.
  intros Hval.
  destruct (train_loop G n w Hval) as ([[dur logits] o] & u & Hrun & _).
  destruct (sage_epoch_result G n dur logits o u) as (v & Hv & Hm & Ho & Hr & Hc & Hacc).
  destruct (get_accuracy_ok (mask_select (val_mask G) (epoch_output G u)) _ Hval)
    as [acc Ha].
  rewrite Ha in Hacc. destruct Hacc as (dur' & Hres & Hd & Hrep & Hrepa).
  exists u, (dur, logits, o),
    {| model := model v; optimizer := optimizer v; rng := rng v; clock := clock v;
       stdout := stdout v ++ [TrainingComplete] |},
    (logits ++ [mask_select (train_mask G) (epoch_output G u)]), acc.
  split; [exact Hrun|].
  assert (Hstep : for_each (seq 0 (S n)) (train_epoch G) ([], [], None) w
                  = (v, Ok (dur', logits ++ [mask_select (train_mask G) (epoch_output G u)],
                            Some (epoch_output G u)))).
  { rewrite seq_S. simpl. rewrite (for_each_snoc _ _ _ _ _ _ _ Hrun).
    destruct (train_epoch G n (dur, logits, o) u) as [v' res]. simpl in *. by subst. }
  split.
  { unfold train, range. rewrite Nat2Z.id, (bind_ok _ _ _ _ _ Hstep).
    unfold bind, print, modify, gets, ret. simpl. reflexivity. }
  simpl. split; [exact Hm|]. split; [by rewrite last_snoc|]. split; [exact Ha|].
  unfold accuracies_reported in *. rewrite omap_app. simpl. rewrite app_nil_r.
  rewrite Hrepa. by rewrite last_snoc.
Qed.

End Training.

(** X8 on three predictions, two of them right. *)
Lemma get_accuracy_counts_hits_witness :
  get_accuracy [[0; 1]; [1; 0]; [0; 1]] [1; 0; 0] = Ok (fdiv (fmul 2 (flit 1)) 3).
Proof.
  exact (proj1 (proj2 (get_accuracy_counts_hits [[0; 1]; [1; 0]; [0; 1]] [1; 0; 0] eq_refl))
           ltac:(discriminate)).
Defined.

(** X9 on the sample graph without a validation vertex. *)
Lemma train_fails_after_its_first_step_witness :
  exists v, train Sample.globals_without_validation 3 Sample.world2
            = (v, Err ZeroDivisionError)
            /\ clock v = 2%nat /\ stdout v = [].
Proof.
  destruct (train_fails_after_its_first_step Sample.globals_without_validation 3
              Sample.world2 eq_refl ltac:(lia)) as (v & Hrun & _ & _ & Hc & Hs).
  exists v. exact (conj Hrun (conj Hc Hs)).
Defined.

(** X10 on the sample graph, the third epoch. *)
Lemma train_returns_the_output_before_the_last_step_witness :
  exists u locals v logits,
    for_each (seq 0 2) (train_epoch Sample.globals) ([], [], None) Sample.world2
    = (u, Ok locals)
    /\ train Sample.globals 3 Sample.world2
       = (v, Ok (model v, epoch_output Sample.globals u, logits))
    /\ model v = epoch_model Sample.globals u.
Proof.
  destruct (train_returns_the_output_before_the_last_step Sample.globals 2 Sample.world2
              ltac:(discriminate))
    as (u & locals & v & logits & acc & Hpre & Hrun & Hm & _).
  exists u, locals, v, logits. exact (conj Hpre (conj Hrun Hm)).
Defined.

Section Networks.
Context {F Lin P Act Graph Rng : Type} `{Float F} `{SageLayers F Lin P Graph Rng}.

Lemma MeanAggSageLayer_init_run (i o : Z) (r : Rng) :
  exists l r', MeanAggSageLayer_init (Lin := Lin) i o r = (r', Ok l)
               /\ _in l = i /\ _out l = o.
Proof.
  unfold MeanAggSageLayer_init, bind, ret.
  destruct (nn_Linear i o r) as [l1 r1].
  destruct (nn_Linear i o r1) as [l2 r2].
  destruct (xavier_uniform_ l1 _ r2) as [l3 r3].
  destruct (xavier_uniform_ l2 _ r3) as [l4 r4].
  by eexists _, _.
Qed.

Lemma hidden_layers_loop (n_hidden : Z) (n : nat) (l0 : MeanAggSageLayer Lin) (r : Rng) :
  exists ls r',
    for_each (seq 0 n)
      (fun _ conv_layers =>
         bind (MeanAggSageLayer_init n_hidden n_hidden)
              (fun l => ret (conv_layers ++ [l]))) [l0] r
    = (r', Ok (l0 :: ls))
    /\ length ls = n
    /\ Forall (fun l => _in l = n_hidden /\ _out l = n_hidden) ls.
Proof.
  induction n as [|n IH].
  - by exists [], r.
  - destruct IH as (ls & r' & Hrun & Hlen & Hall).
    destruct (MeanAggSageLayer_init_run n_hidden n_hidden r') as (l & r'' & Hl & Hi & Ho).
    exists (ls ++ [l]), r''. rewrite seq_S. cbn [Nat.add].
    rewrite (for_each_snoc _ _ _ _ _ _ _ Hrun). unfold bind at 1. rewrite Hl.
    split; [done|]. split; [rewrite length_app; simpl; lia|].
    apply Forall_app. split; [done|]. by constructor.
Qed.

(** X11: for positive sizes, [SimpleGraphSAGE] has an input layer from
    [n_features] to [n_hidden], then [n_layers - 1] hidden layers (none for
    [n_layers <= 1]) from [n_hidden] to [n_hidden], then an output layer from
    [n_hidden] to [n_classes]: [2 + max(n_layers - 1, 0)] layers, each
    taking the size the one before gives.  Its output is always the result
    of a relu, the output layer applying one like the others. *)
Theorem SimpleGraphSAGE_has_an_input_and_an_output_layer (graph : Graph)
    (n_features n_hidden n_classes n_layers : Z) (r : Rng) (features : list (list F)) :
  0 < n_features -> 0 < n_hidden -> 0 < n_classes ->
  exists net r' first mid last_,
    SimpleGraphSAGE_init graph n_features n_hidden n_classes n_layers r = (r', Ok net)
    /\ conv_layers net = first :: mid ++ [last_]
    /\ length (conv_layers net) = (2 + Z.to_nat (n_layers - 1))%nat
    /\ _in first = n_features /\ _out first = n_hidden
    /\ Forall (fun l => _in l = n_hidden /\ _out l = n_hidden) mid
    /\ _in last_ = n_hidden /\ _out last_ = n_classes
    /\ (forall i l l', conv_layers net !! i = Some l -> conv_layers net !! (i + 1)%nat = Some l' ->
          _out l = _in l')
    /\ exists t, SimpleGraphSAGE_forward net features = F_relu t.
Proof.
  intros _ _ _. unfold SimpleGraphSAGE_init.
  destruct (MeanAggSageLayer_init_run n_features n_hidden r) as (l0 & r0 & Hl0 & Hi0 & Ho0).
  rewrite (bind_ok _ _ _ _ _ Hl0). unfold range.
  destruct (hidden_layers_loop n_hidden (Z.to_nat (n_layers - 1)) l0 r0)
    as (ls & r1 & Hrun & Hlen & Hall).
  rewrite (bind_ok _ _ _ _ _ Hrun).
  destruct (MeanAggSageLayer_init_run n_hidden n_classes r1) as (l2 & r2 & Hl2 & Hi2 & Ho2).
  rewrite (bind_ok _ _ _ _ _ Hl2). unfold ret.
  eexists _, r2, l0, ls, l2. split; [reflexivity|]. cbn [conv_layers g].
  split; [done|]. split; [simpl; rewrite length_app; simpl; lia|].
  do 2 (split; [done|]). split; [exact Hall|]. do 2 (split; [done|]). split.
  - assert (Hins : forall i l, (l0 :: ls ++ [l2]) !! (i + 1)%nat = Some l -> _in l = n_hidden).
    { intros i l Hl. replace (i + 1)%nat with (S i) in Hl by lia. simpl in Hl.
      apply lookup_app_Some in Hl as [Hl|[_ Hl]].
      - rewrite Forall_forall in Hall. apply (Hall l). by eapply list_elem_of_lookup_2.
      - destruct (i - length ls)%nat; [|done]. by injection Hl as <-. }
    assert (Houts : forall i l l', (l0 :: ls ++ [l2]) !! i = Some l ->
                      (l0 :: ls ++ [l2]) !! (i + 1)%nat = Some l' -> _out l = n_hidden).
    { intros [|i] l l' Hl Hl'; [by injection Hl as <-|]. simpl in Hl.
      apply lookup_app_Some in Hl as [Hl|[Hge Hl]].
      - rewrite Forall_forall in Hall. apply (Hall l). by eapply list_elem_of_lookup_2.
      - apply lookup_lt_Some in Hl'. simpl in Hl'. rewrite length_app in Hl'. simpl in Hl'.
        apply lookup_lt_Some in Hl. simpl in Hl. lia. }
    intros i l l' Hl Hl'. rewrite (Houts i l l' Hl Hl'). symmetry. by eapply Hins.
  - unfold SimpleGraphSAGE_forward. cbn [conv_layers g].
    change (l0 :: ls ++ [l2]) with ((l0 :: ls) ++ [l2]).
    rewrite fold_left_app. simpl. unfold MeanAggSageLayer_forward at 1. by eexists.
Qed.

Lemma new_SAGEConv_run (i o : Z) (agg : string) (dropout : Q) (act : option Act) (r : Rng) :
  exists l r', new_SAGEConv (P := P) i o agg dropout act r = (r', Ok l)
               /\ in_feats l = i /\ out_feats l = o /\ aggregator_type l = agg
               /\ feat_drop l = dropout /\ activation l = act.
Proof.
  unfold new_SAGEConv. destruct (SAGEConv_params i o agg r) as [p r']. by eexists _, _.
Qed.

Lemma sage_hidden_layers_loop (n_hidden : Z) (agg : string) (dropout : Q) (act : Act)
    (n : nat) (l0 : SAGEConv P Act) (r : Rng) :
  exists ls r',
    for_each (seq 0 n)
      (fun _ layers =>
         bind (new_SAGEConv n_hidden n_hidden agg dropout (Some act))
              (fun l => ret (layers ++ [l]))) [l0] r
    = (r', Ok (l0 :: ls))
    /\ length ls = n
    /\ Forall (fun l => in_feats l = n_hidden /\ out_feats l = n_hidden
                        /\ aggregator_type l = agg /\ feat_drop l = dropout
                        /\ activation l = Some act) ls.
Proof.
  induction n as [|n IH].
  - by exists [], r.
  - destruct IH as (ls & r' & Hrun & Hlen & Hall).
    destruct (new_SAGEConv_run n_hidden n_hidden agg dropout (Some act) r')
      as (l & r'' & Hl & Hprops).
    exists (ls ++ [l]), r''. rewrite seq_S. cbn [Nat.add].
    rewrite (for_each_snoc _ _ _ _ _ _ _ Hrun). unfold bind at 1. rewrite Hl.
    split; [done|]. split; [rewrite length_app; simpl; lia|].
    apply Forall_app. split; [done|]. by constructor.
Qed.

(** X12: for positive sizes, a dropout rate in [0, 1] and one of DGL's
    aggregators, [GraphSAGE] has [2 + max(n_layers - 1, 0)] layers of the
    same sizes as [SimpleGraphSAGE]; all have the aggregator and the dropout
    rate given, and all but the last have the activation given: the last,
    and only the last, has none. *)
Theorem GraphSAGE_only_the_last_layer_lacks_an_activation (graph : Graph)
    (n_features n_hidden n_classes n_layers : Z) (agg : string) (act : Act)
    (dropout : Q) (r : Rng) :
  0 < n_features -> 0 < n_hidden -> 0 < n_classes ->
  agg ∈ ["mean"; "gcn"; "pool"; "lstm"]%string -> (0 <= dropout <= 1)%Q ->
  exists net r' first mid last_,
    GraphSAGE_init graph n_features n_hidden n_classes n_layers agg act dropout r
    = (r', Ok net)
    /\ layers net = first :: mid ++ [last_]
    /\ length (layers net) = (2 + Z.to_nat (n_layers - 1))%nat
    /\ in_feats first = n_features /\ out_feats first = n_hidden
    /\ Forall (fun l => in_feats l = n_hidden /\ out_feats l = n_hidden) mid
    /\ in_feats last_ = n_hidden /\ out_feats last_ = n_classes
    /\ Forall (fun l => activation l = Some act) (first :: mid)
    /\ activation last_ = None
    /\ Forall (fun l => aggregator_type l = agg /\ feat_drop l = dropout) (layers net).
Proof.
  intros _ _ _ _ _. unfold GraphSAGE_init.
  destruct (new_SAGEConv_run n_features n_hidden agg dropout (Some act) r)
    as (l0 & r0 & Hl0 & Hi0 & Ho0 & Ha0 & Hd0 & Hact0).
  rewrite (bind_ok _ _ _ _ _ Hl0). unfold range.
  destruct (sage_hidden_layers_loop n_hidden agg dropout act (Z.to_nat (n_layers - 1)) l0 r0)
    as (ls & r1 & Hrun & Hlen & Hall).
  rewrite (bind_ok _ _ _ _ _ Hrun).
  destruct (new_SAGEConv_run n_hidden n_classes agg dropout None r1)
    as (l2 & r2 & Hl2 & Hi2 & Ho2 & Ha2 & Hd2 & Hact2).
  rewrite (bind_ok _ _ _ _ _ Hl2). unfold ret.
  eexists _, r2, l0, ls, l2. split; [reflexivity|]. cbn [layers sage_g].
  split; [done|]. split; [simpl; rewrite length_app; simpl; lia|].
  do 2 (split; [done|]).
  split; [eapply Forall_impl; [exact Hall|]; by intros l (? & ? & _)|].
  do 2 (split; [done|]).
  split; [constructor; [done|]; eapply Forall_impl; [exact Hall|]; by intros l (_ & _ & _ & _ & ?)|].
  split; [done|].
  constructor; [done|]. apply Forall_app. split; [|by constructor].
  eapply Forall_impl; [exact Hall|]. by intros l (_ & _ & ? & ? & _).
Qed.

End Networks.

(** X11 at the sizes of the notebook: 1433 features, 16 hidden units, 7
    classes and [n_layers = 2]. *)
Lemma SimpleGraphSAGE_has_an_input_and_an_output_layer_witness :
  exists net r',
    SimpleGraphSAGE_init (Lin := nat) tt 1433 16 7 2 0%nat = (r', Ok net)
    /\ length (conv_layers net) = 3%nat.
Proof.
  destruct (SimpleGraphSAGE_has_an_input_and_an_output_layer (F := Z) (Lin := nat)
              tt 1433 16 7 2 0%nat [] ltac:(lia) ltac:(lia) ltac:(lia))
    as (net & r' & first & mid & last_ & Hrun & _ & Hlen & _).
  exists net, r'. exact (conj Hrun Hlen).
Defined.

(** X12 at the arguments of the notebook's first [GraphSAGE]. *)
Lemma GraphSAGE_only_the_last_layer_lacks_an_activation_witness :
  exists net r',
    GraphSAGE_init (P := nat) (Act := unit) tt 1433 16 7 2 "mean" tt (1 # 2) 0%nat
    = (r', Ok net)
    /\ length (layers net) = 3%nat.
Proof.
  destruct (GraphSAGE_only_the_last_layer_lacks_an_activation (F := Z) (P := nat) (Act := unit)
              tt 1433 16 7 2 "mean" tt (1 # 2) 0%nat
              ltac:(lia) ltac:(lia) ltac:(lia) ltac:(set_solver)
              ltac:(split; discriminate))
    as (net & r' & first & mid & last_ & Hrun & _ & Hlen & _).
  exists net, r'. exact (conj Hrun Hlen).
Defined.

Lemma np_where_spec (a : list bool) (i : nat) : i ∈ np_where a <-> a !! i = Some true.
Proof.
  unfold np_where. rewrite list_elem_of_fmap. split.
  - intros ([j b] & -> & Hin). apply list_elem_of_filter in Hin as [Hb Hin].
    simpl in *. subst b. apply list_elem_of_lookup in Hin as [k Hk].
    rewrite list_lookup_imap in Hk. destruct (a !! k) as [b|] eqn:Hak; [|done].
    simpl in Hk. by injection Hk as -> ->.
  - intros Hi. exists (i, true). split; [done|]. apply list_elem_of_filter. split; [done|].
    apply list_elem_of_lookup. exists i. by rewrite list_lookup_imap, Hi.
Qed.

(** A loop that appends to a list what a fallible step gives for each
    element: it returns when every step does, with the world untouched. *)
Lemma for_each_collect {W A B : Type} (step : A -> result B) (l : list A)
    (body : A -> list B -> M W (list B)) (acc : list B) (w : W) :
  (forall n a v, body n a v = match step n with
                               | Ok b => (v, Ok (a ++ [b]))
                               | Err e => (v, Err e)
                               end) ->
  (for_each l body acc w).1 = w
  /\ forall r, (for_each l body acc w).2 = Ok r
               <-> exists vs, r = acc ++ vs /\ Forall2 (fun n b => step n = Ok b) l vs.
Proof.
  intros Hbody. revert acc. induction l as [|n l IH]; intros acc.
  - split; [done|]. intros r. simpl. split.
    + intros [= <-]. exists []. by rewrite app_nil_r.
    + intros (vs & -> & Hvs). apply Forall2_nil_inv_l in Hvs as ->. by rewrite app_nil_r.
  - cbn [for_each]. unfold bind. rewrite Hbody. destruct (step n) as [b|e] eqn:Hs.
    + destruct (IH (acc ++ [b])) as [Hw Hr]. split; [exact Hw|].
      intros r. rewrite Hr. split.
      * intros (vs & -> & Hvs). exists (b :: vs). rewrite <- app_assoc. split; [done|].
        by constructor.
      * intros (vs & -> & Hvs). apply Forall2_cons_inv_l in Hvs as (b' & vs' & Hb & Hvs & ->).
        rewrite Hs in Hb. injection Hb as <-. exists vs'. by rewrite <- app_assoc.
    + split; [done|]. intros r. split; [done|].
      intros (vs & _ & Hvs). apply Forall2_cons_inv_l in Hvs as (b' & vs' & Hb & _).
      by rewrite Hs in Hb.
Qed.

(** The numbers of [0 .. n - 1] that satisfy [P] are [0 .. k - 1] exactly
    when [P] goes down from each of them to the ones below. *)
Lemma filter_seq_prefix (P : nat -> Prop) `{forall v, Decision (P v)} (n : nat) :
  filter P (seq 0 n) = seq 0 (length (filter P (seq 0 n)))
  <-> forall u v, (u < v)%nat -> (v < n)%nat -> P v -> P u.
Proof.
  split.
  - intros Heq u v Huv Hvn HPv.
    assert (Hv : v ∈ filter P (seq 0 n)).
    { apply list_elem_of_filter. split; [done|]. apply elem_of_seq. lia. }
    rewrite Heq in Hv. apply elem_of_seq in Hv.
    assert (Hu : u ∈ seq 0 (length (filter P (seq 0 n)))) by (apply elem_of_seq; lia).
    rewrite <- Heq in Hu. by apply list_elem_of_filter in Hu as [? _].
  - induction n as [|n IH]; intros Hdown; [done|].
    rewrite seq_S, filter_app. cbn [Nat.add]. rewrite filter_cons, filter_nil.
    destruct (decide (P n)) as [HP|HP].
    + assert (Hall : filter P (seq 0 n) = seq 0 n).
      { assert (Hf : forall l : list nat, Forall P l -> filter P l = l).
        { intros l Hl. induction Hl as [|a l Ha Hl IHl]; [done|].
          by rewrite filter_cons_True, IHl. }
        apply Hf, Forall_forall. intros u Hu%elem_of_seq. apply (Hdown u n); [lia|lia|done]. }
      rewrite Hall, length_app, length_seq. cbn [length]. by rewrite Nat.add_1_r, seq_S.
    + rewrite app_nil_r. apply IH. intros u v Huv Hvn. apply Hdown; lia.
Qed.

Section Animation.
Context {F Pic : Type} `{Float F} `{NxDrawing F Pic}.

(** X13: [draw_epoch(i)] raises IndexError, the axes untouched, when no
    logits were recorded for epoch [i].  When it returns, it has drawn
    under the title of epoch [i] with one position per number of
    [rn_nodes], number [n] at [(n, argmax of row n of the logits)], in the
    colour that [colors] has for label [n] of the training labels (a label
    below 7), and with 100 times the row maxima as sizes.  The positions
    are thus keyed by [0 .. k - 1] for [k] training vertices, while the
    graph drawn keeps the ids of the training vertices: the two agree
    exactly when the training vertices come first, each vertex before a
    training vertex being one. *)
Theorem draw_epoch_places_the_vertices_by_rank (all_train_logits : list (list (list F)))
    (n_nodes : nat) (train_mask : list bool) (labels_train : list Z) (i : nat)
    (ax ax' : option Pic) :
  let nodes := nx_g_nodes n_nodes train_mask in
  let rn := rn_nodes n_nodes train_mask in
  ((length all_train_logits <= i)%nat ->
     draw_epoch all_train_logits nodes rn labels_train i ax = (ax, Err IndexError))
  /\ (draw_epoch all_train_logits nodes rn labels_train i ax = (ax', Ok tt) ->
      exists logits frame pic,
        all_train_logits !! i = Some logits
        /\ draw_networkx nodes frame = Ok pic /\ ax' = Some pic
        /\ title_epoch frame = i
        /\ (pos frame).*1 = rn
        /\ (forall n xy, (n, xy) ∈ pos frame ->
              xy.1 = n /\ np_argmax logits !! n = Some xy.2)
        /\ length (node_color frame) = length rn
        /\ (forall n c, node_color frame !! n = Some c ->
              exists l, labels_train !! n = Some l /\ py_getitem colors l = Ok c
                        /\ -7 <= l < 7)
        /\ node_size frame = (fun s => fmul s (f_of_Z 100)) <$> np_max logits)
  /\ (length train_mask = n_nodes ->
      (rn = nodes <-> forall u v, (u < v)%nat -> train_mask !! v = Some true ->
                                  train_mask !! u = Some true)).
Proof.
  intros nodes rn. split; [|split].
  - intros Hi. unfold draw_epoch, bind, lift, py_index.
    by rewrite (lookup_ge_None_2 _ _ Hi).
  - intros Hrun. unfold draw_epoch in Hrun. unfold bind at 1, lift at 1 in Hrun.
    unfold py_index at 1 in Hrun.
    destruct (all_train_logits !! i) as [logits|] eqn:Hl; [|done].
    unfold bind at 1 in Hrun.
    destruct (for_each_collect
                (fun n => match py_index (np_argmax logits) n with
                          | Ok m => Ok (n, (n, m))
                          | Err e => Err e
                          end) rn
                (fun n pos => bind (lift (py_index (np_argmax logits) n))
                                   (fun m => ret (pos ++ [(n, (n, m))]))) [] ax)
      as [Hw1 Hpos].
    { intros n a v. unfold bind, lift, ret. by destruct (py_index _ n). }
    destruct (for_each rn _ [] ax) as [w1 [ps|e]] eqn:Hp; [|done].
    simpl in Hw1. subst w1. destruct (proj1 (Hpos ps) eq_refl) as (ps' & -> & Hps).
    clear Hp Hpos.
    unfold bind at 1 in Hrun.
    destruct (for_each_collect
                (fun n => match py_index labels_train n with
                          | Ok l => py_getitem colors l
                          | Err e => Err e
                          end) rn
                (fun n cols => bind (lift (py_index labels_train n))
                                 (fun l => bind (lift (py_getitem colors l))
                                                (fun c => ret (cols ++ [c])))) [] ax)
      as [Hw2 Hcols].
    { intros n a v. unfold bind, lift, ret. destruct (py_index _ n) as [l|]; [|done].
      by destruct (py_getitem colors l). }
    destruct (for_each rn _ [] ax) as [w2 [cs|e]] eqn:Hc; [|done].
    simpl in Hw2. subst w2. destruct (proj1 (Hcols cs) eq_refl) as (cs' & -> & Hcs).
    unfold bind, modify, lift in Hrun. cbn [app] in Hrun.
    destruct (draw_networkx nodes _) as [pic|e] eqn:Hd; [|done].
    injection Hrun as <-.
    eexists logits, _, pic. split; [done|]. split; [exact Hd|]. split; [done|].
    cbn [title_epoch pos node_color node_size]. split; [done|]. split; [|split; [|split; [|split]]].
    + clear -Hps. induction Hps as [|n p l ps Hn Hps IH]; [done|].
      simpl. f_equal; [|exact IH]. destruct (py_index _ n); [|done]. by injection Hn as <-.
    + intros n xy Hin. apply list_elem_of_lookup in Hin as [j Hj].
      destruct (Forall2_lookup_r _ _ _ _ _ Hps Hj) as (n' & _ & Hn').
      unfold py_index in Hn'. destruct (np_argmax logits !! n') as [m|] eqn:Hm; [|done].
      by injection Hn' as <- <-.
    + by rewrite <- (Forall2_length _ _ _ Hcs).
    + intros n c Hn. destruct (Forall2_lookup_r _ _ _ _ _ Hcs Hn) as (n' & Hn' & Hc').
      unfold rn, rn_nodes, range in Hn'. apply lookup_seq in Hn' as [-> _]. simpl in Hc'.
      unfold py_index at 1 in Hc'.
      destruct (labels_train !! n) as [l|] eqn:Hlab; [|done].
      exists l. split; [done|]. split; [exact Hc'|].
      unfold py_getitem, py_index in Hc'.
      destruct (Z.leb_spec 0 l).
      * destruct (colors !! Z.to_nat l) eqn:E; [|done].
        apply lookup_lt_Some in E. simpl in E. lia.
      * destruct (Z.leb_spec (- len colors) l); [|done]. unfold len in *. simpl in *. lia.
    + done.
  - intros Hlen. unfold rn, rn_nodes, range, nodes. unfold len. rewrite Nat2Z.id.
    unfold nx_g_nodes.
    split.
    + intros Heq u v Huv Hv.
      assert (Hvn : (v < n_nodes)%nat) by (apply lookup_lt_Some in Hv; lia).
      symmetry in Heq. pose proof (proj1 (filter_seq_prefix _ n_nodes) Heq u v Huv Hvn) as Hd.
      assert (Hu : u ∉ non_train train_mask).
      { apply Hd. unfold non_train. rewrite np_where_spec, list_lookup_fmap, Hv. done. }
      unfold non_train in Hu. rewrite np_where_spec, list_lookup_fmap in Hu.
      destruct (lookup_lt_is_Some_2 train_mask u ltac:(lia)) as [b Hb].
      rewrite Hb in Hu |- *. destruct b; [done|]. by destruct Hu.
    + intros Hdown. symmetry. apply filter_seq_prefix. intros u v Huv Hvn Hv.
      unfold non_train in *. rewrite np_where_spec, list_lookup_fmap in Hv |- *.
      destruct (lookup_lt_is_Some_2 train_mask v ltac:(lia)) as [b Hb].
      rewrite Hb in Hv. destruct b; [|by destruct Hv].
      by rewrite (Hdown u v Huv Hb).
Qed.

End Animation.

(** X13 on three vertices, the first two of them training vertices, after
    one epoch. *)
Lemma draw_epoch_places_the_vertices_by_rank_witness :
  exists frame pic,
    draw_epoch [[[1; 2]; [4; 3]]] (nx_g_nodes 3 [true; true; false])
               (rn_nodes 3 [true; true; false]) [0; 1] 0 None
    = (Some pic, Ok tt)
    /\ draw_networkx (nx_g_nodes 3 [true; true; false]) frame = Ok pic
    /\ (pos frame).*1 = rn_nodes 3 [true; true; false].
Proof.
  destruct (draw_epoch [[[1; 2]; [4; 3]]] (nx_g_nodes 3 [true; true; false])
                       (rn_nodes 3 [true; true; false]) [0; 1] 0 None)
    as [ax' [[]|e]] eqn:Hrun; [|vm_compute in Hrun; discriminate].
  destruct (draw_epoch_places_the_vertices_by_rank
              [[[1; 2]; [4; 3]]] 3 [true; true; false] [0; 1] 0 None ax')
    as (_ & Hret & _).
  destruct (Hret Hrun) as (logits & frame & pic & _ & Hd & -> & _ & Hpos & _).
  exists frame, pic. exact (conj eq_refl (conj Hd Hpos)).
Defined.

End B2Rest.

(** ** The rest of notebook b3-vgae *)

Module B3Rest.
Import B3 Sample B3Facts.

Lemma split_head (sep : ascii) (s : string) :
  exists p rest,
    py_split sep s !! 0%nat = Some p
    /\ s = (p +:+ rest)%string
    /\ (sep ∉ chars p)
    /\ (rest = EmptyString \/ exists t, rest = String sep t)
    /\ (sep ∉ chars s -> rest = EmptyString).
Proof.
  induction s as [|c s IH].
  - exists EmptyString, EmptyString. simpl. repeat split; auto using not_elem_of_nil.
  - destruct IH as (p & rest & Hp & Hs & Hnot & Hrest & Hnone). simpl.
    destruct (Ascii.eqb_spec c sep) as [->|Hne].
    + exists EmptyString, (String sep s). simpl.
      split; [done|]. split; [done|]. split; [apply not_elem_of_nil|].
      split; [right; by eexists|].
      intros Hn. exfalso. apply Hn. unfold chars. simpl. left.
    + destruct (py_split sep s) as [|piece pieces]; [done|].
      injection Hp as ->. exists (String c p), rest. simpl.
      split; [done|]. split; [by rewrite Hs|]. split.
      { unfold chars in *. simpl. rewrite not_elem_of_cons. by split. }
      split; [done|].
      intros Hn. apply Hnone. unfold chars in *. simpl in Hn.
      rewrite not_elem_of_cons in Hn. tauto.
Qed.

Lemma append_empty_r (s : string) : (s +:+ "")%string = s.
Proof.
  induction s as [|c s IH]; [done|].
  change (String c (s +:+ "") = String c s). by rewrite IH.
Qed.

(** X14: [format_pytorch_version] never raises: it returns the part of the
    version before its first "+", which holds no "+"; what it cuts off is
    empty or starts with a "+".  A version without a "+" is returned as it
    is, so formatting twice is formatting once. *)
Theorem format_pytorch_version_cuts_at_the_first_plus (version : string) :
  exists p rest,
    format_pytorch_version version = Ok p
    /\ version = (p +:+ rest)%string
    /\ ("+"%char ∉ chars p)
    /\ (rest = EmptyString \/ exists t, rest = String "+" t)
    /\ ("+"%char ∉ chars version -> p = version)
    /\ format_pytorch_version p = Ok p.
Proof.
  destruct (split_head "+"%char version) as (p & rest & Hp & Hs & Hnot & Hrest & Hnone).
  exists p, rest. unfold format_pytorch_version, py_index. rewrite Hp.
  do 4 (split; [done|]). split.
  - intros Hn. rewrite (Hnone Hn), append_empty_r in Hs. done.
  - destruct (split_head "+"%char p) as (p' & rest' & Hp' & Hs' & _ & _ & Hnone').
    rewrite Hp'. f_equal. rewrite (Hnone' Hnot), append_empty_r in Hs'. done.
Qed.

Lemma chars_replace_empty (old : ascii) (s : string) :
  chars (py_replace old "" s) = filter (fun c => c <> old) (chars s).
Proof.
  induction s as [|c s IH]; [done|].
  change (chars (String c s)) with (c :: chars s). rewrite filter_cons.
  cbn [py_replace]. destruct (Ascii.eqb_spec c old) as [->|Hne].
  - change (chars (py_replace old "" s) = filter (λ c : ascii, c ≠ old) (old :: chars s)).
    rewrite IH, filter_cons. by case_decide.
  - change (chars (String c (py_replace old "" s)))
      with (c :: chars (py_replace old "" s)).
    rewrite IH. by case_decide.
Qed.

Lemma py_replace_absent (old : ascii) (new s : string) :
  old ∉ chars s -> py_replace old new s = s.
Proof.
  induction s as [|c s IH]; [done|]. intros Hn.
  change (chars (String c s)) with (c :: chars s) in Hn.
  rewrite not_elem_of_cons in Hn. destruct Hn as [Hne Hn].
  cbn [py_replace]. destruct (Ascii.eqb_spec c old) as [E|_]; [congruence|].
  f_equal. by apply IH.
Qed.

(** X15: [format_cuda_version] raises AttributeError on [None], the value
    of [torch.version.cuda] in a build without CUDA.  On a string it
    returns "cu" followed by the characters of the version other than ".",
    in their order: the result holds no "." and is at most two characters
    longer than the version, and a version without a "." is only prefixed. *)
Theorem format_cuda_version_drops_the_dots (version : string) :
  format_cuda_version None = Err (AttributeError "replace")
  /\ exists r,
       format_cuda_version (Some version) = Ok r
       /\ chars r = "c"%char :: "u"%char :: filter (fun c => c <> "."%char) (chars version)
       /\ ("."%char ∉ chars r)
       /\ (length (chars r) <= 2 + length (chars version))%nat
       /\ ("."%char ∉ chars version -> r = ("cu" +:+ version)%string).
Proof.
  split; [done|]. eexists. split; [reflexivity|].
  assert (Hc : chars ("cu" +:+ py_replace "."%char "" version)
               = "c"%char :: "u"%char :: filter (fun c => c <> "."%char) (chars version)).
  { unfold chars at 1. simpl. f_equal. f_equal. apply chars_replace_empty. }
  split; [exact Hc|]. split; [|split].
  - rewrite Hc. rewrite !not_elem_of_cons. split; [done|]. split; [done|].
    intros Hin%list_elem_of_filter. by destruct Hin.
  - rewrite Hc. simpl. pose proof (length_filter (fun c => c <> "."%char) (chars version)).
    lia.
  - intros Hn. by rewrite py_replace_absent.
Qed.


Section Models.
Context {F Conv Optim Rng : Type} `{Float F} `{Pyg F Conv Optim Rng}.

(** X18: [kl_loss] on a VGAE that has not encoded yet raises AttributeError
    for [__mu__] when no [mu] is passed, and for [__logvar__] when a [mu]
    but no [logvar] is passed; given both it returns the KL value of [mu]
    and the clamped [logvar] whatever the object stores.  In general it
    raises for [__mu__] exactly when [mu] is neither passed nor stored, and
    for [__logvar__] exactly when a [mu] is at hand and [logvar] is neither
    passed nor stored: [mu] is looked up first. *)
Theorem kl_loss_needs_both_operands {Enc : Type} (self : VGAE F Enc) (enc : Enc)
    (mu logvar : option (list (list F))) (m l : list (list F)) :
  VGAE_kl_loss (VGAE_init enc) None logvar = Err (AttributeError "__mu__")
  /\ VGAE_kl_loss (VGAE_init enc) (Some m) None = Err (AttributeError "__logvar__")
  /\ VGAE_kl_loss self (Some m) (Some l)
     = Ok (kl_value m (clamp_max (f_of_Z MAX_LOGVAR) l))
  /\ (VGAE_kl_loss self mu logvar = Err (AttributeError "__mu__")
      <-> mu = None /\ mu__ self = None)
  /\ (VGAE_kl_loss self mu logvar = Err (AttributeError "__logvar__")
      <-> (is_Some mu \/ is_Some (mu__ self)) /\ logvar = None /\ logvar__ self = None).
Proof.
  unfold VGAE_kl_loss, VGAE_kl_operands.
  split; [done|]. split; [done|]. split; [done|].
  destruct self as [s [m0|] [l0|]], mu as [m1|], logvar as [l1|]; simpl;
    split; (split; intros E); try discriminate E; try done;
    repeat match goal with
      | E : _ /\ _ |- _ => destruct E
      | E : _ \/ _ |- _ => destruct E
      | E : is_Some None |- _ => by destruct E
      | |- _ /\ _ => split
      | |- is_Some (Some _) \/ _ => by left
      | |- _ \/ is_Some (Some _) => by right
      end; done.
Qed.

Lemma entry_lookup (t : list (list F)) (i j : nat) (row : list F) :
  t !! i = Some row -> entry t i j = row !! j.
Proof. intros Ht. unfold entry. by rewrite Ht. Qed.

Lemma forward_all_entry (z : list (list F)) (i j : nat)
    (sigmoid : bool) :
  (i < length z)%nat -> (j < length z)%nat ->
  entry (if sigmoid then tmap fsigmoid (matmul_t z) else matmul_t z) i j
  = InnerProductDecoder_forward z [(i, j)] sigmoid !! 0%nat.
Proof.
  intros Hi Hj.
  destruct (lookup_lt_is_Some_2 z i Hi) as [zi Hzi].
  destruct (lookup_lt_is_Some_2 z j Hj) as [zj Hzj].
  assert (Hm : entry (matmul_t z) i j = Some (fsum (zip_with fmul zi zj))).
  { unfold entry, matmul_t. rewrite list_lookup_fmap, Hzi. simpl.
    by rewrite list_lookup_fmap, Hzj. }
  unfold InnerProductDecoder_forward, rows_at, tzip. simpl. rewrite Hzi, Hzj. simpl.
  destruct sigmoid; simpl.
  - by rewrite entry_tmap, Hm.
  - exact Hm.
Qed.

Lemma zip_with_comm (f : F -> F -> F) (a b : list F) :
  (forall u v, f u v = f v u) -> zip_with f a b = zip_with f b a.
Proof.
  intros Hf. revert b. induction a as [|u a IH]; intros [|v b]; simpl; try done.
  by rewrite Hf, IH.
Qed.

(** X17: for a commutative multiplication of scalars, the decoder gives an
    edge list with every edge reversed the same scores as the edge list
    itself, with or without the sigmoid. *)
Theorem decoder_ignores_the_direction_of_an_edge (z : list (list F)) (ei : EdgeIndex)
    (sigmoid : bool) :
  (forall u v : F, fmul u v = fmul v u) ->
  InnerProductDecoder_forward z (prod_swap <$> ei) sigmoid
  = InnerProductDecoder_forward z ei sigmoid.
Proof.
  intros Hmul. unfold InnerProductDecoder_forward.
  assert (Hv : fsum <$> tzip fmul (rows_at z (prod_swap <$> ei).*1)
                                  (rows_at z (prod_swap <$> ei).*2)
               = fsum <$> tzip fmul (rows_at z ei.*1) (rows_at z ei.*2)).
  { unfold rows_at, tzip. induction ei as [|[a b] ei IH]; [done|].
    rewrite !fmap_cons. cbn [zip_with fst snd prod_swap]. rewrite !fmap_cons.
    f_equal; [|exact IH]. f_equal. by apply zip_with_comm. }
  by rewrite Hv.
Qed.

End Models.

(** X17 on two rows of two entries and the edge from 0 to 1. *)
Lemma decoder_ignores_the_direction_of_an_edge_witness :
  InnerProductDecoder_forward [[1; 2]; [3; 4]] [(1, 0)]%nat true
  = InnerProductDecoder_forward [[1; 2]; [3; 4]] [(0, 1)]%nat true.
Proof.
  exact (decoder_ignores_the_direction_of_an_edge (F := Z) [[1; 2]; [3; 4]] [(0, 1)]%nat true
           Z.mul_comm).
Defined.

Section Notebook.
Context {F Conv Optim Rng PyRng Layout Eps Img : Type}
  `{Float F} `{Pyg F Conv Optim Rng} `{Igraph PyRng Layout Eps Img}.
Abbreviation W := (World F Conv Optim Rng PyRng Eps Img).

(** X16: [forward_all] prints its banner and returns a square matrix with
    one row and one column per row of [z]; its entry [(i, j)] is the score
    that [forward] gives the single edge [(i, j)], with the same [sigmoid]
    flag. *)
Theorem forward_all_holds_the_score_of_every_pair (z : list (list F)) (sigmoid : bool)
    (w : W) :
  exists adj,
    InnerProductDecoder_forward_all z sigmoid w
    = (set_stdout (stdout w ++ [Banner "forward_all called"]) w, Ok adj)
    /\ length adj = length z
    /\ Forall (fun row => length row = length z) adj
    /\ forall i j, (i < length z)%nat -> (j < length z)%nat ->
         entry adj i j = InnerProductDecoder_forward z [(i, j)] sigmoid !! 0%nat.
Proof.
  exists (if sigmoid then tmap fsigmoid (matmul_t z) else matmul_t z).
  split; [reflexivity|].
  split; [destruct sigmoid; unfold tmap, matmul_t; by rewrite ?length_map, ?length_fmap|].
  split.
  - assert (Hm : Forall (fun row => length row = length z) (matmul_t z)).
    { unfold matmul_t. apply Forall_fmap, Forall_forall. intros zi _. simpl.
      by rewrite length_fmap. }
    destruct sigmoid; [|exact Hm]. unfold tmap. apply Forall_map.
    eapply Forall_impl; [exact Hm|]. intros row Hr. simpl. by rewrite length_map.
  - intros i j Hi Hj. by apply forward_all_entry.
Qed.

(** X19: [plot] draws one colour per distinct label and indexes the colours
    by the label itself.  On a graph whose edges are valid, a label that is
    not below the number of distinct labels makes it raise IndexError,
    after the colours were drawn from [random] and before anything is
    written or shown. *)
Theorem plot_needs_labels_below_their_number (data : Data F) (outfile : string)
    (w : W) (ei : EdgeIndex) (ys : list nat) (c : nat) :
  edge_index data = Some ei -> y data = Some ys ->
  forallb (fun e => (e.1 <? num_nodes data)%nat && (e.2 <? num_nodes data)%nat) ei = true ->
  c ∈ ys -> (length (remove_dups ys) <= c)%nat ->
  exists w',
    plot data outfile w = (w', Err IndexError)
    /\ py_random w' = after_draws (3 * length (remove_dups ys)) (py_random w)
    /\ files w' = files w /\ shown w' = shown w /\ stdout w' = stdout w.
Proof.
  intros Hei Hy Hvalid Hc Hle. rewrite (plot_run _ _ _ _ _ Hei Hy Hvalid). cbv zeta.
  rewrite colour_of_each_err.
  - eexists. split; [reflexivity|]. done.
  - rewrite colours_from_length. intros Hall.
    rewrite Forall_forall in Hall. specialize (Hall c Hc). lia.
Qed.

(** X20: when [plot] returns, the graph had its edges and its labels, every
    label below the number [k] of distinct labels; vertex [i] was given
    colour number [y[i]] of the [k] colours drawn from [random], so two
    vertices of one class have one colour; the drawing was written to
    [outfile], read back and shown, none of the three calls of matplotlib
    having raised, and [random] was called [3 k] times. *)
Theorem plot_colours_vertices_by_class (data : Data F) (outfile : string) (w w' : W) :
  plot data outfile w = (w', Ok tt) ->
  exists ei ys color layout eps img,
    edge_index data = Some ei /\ y data = Some ys
    /\ Forall (fun c => (c < length (remove_dups ys))%nat) ys
    /\ length color = length ys
    /\ (forall i c, ys !! i = Some c ->
          color !! i = colours_from (length (remove_dups ys)) (py_random w) !! c)
    /\ (forall i j, (i < length ys)%nat -> ys !! i = ys !! j -> color !! i = color !! j)
    /\ layout_auto (plotted_graph data ei color) = Ok layout
    /\ ig_draw (plotted_graph data ei color) layout = Ok eps
    /\ image_open eps = Ok img
    /\ plt_subplots = Ok tt /\ ax_imshow img = Ok tt /\ plt_show = Ok tt
    /\ files w' = <[outfile := PlotFile eps]> (files w)
    /\ shown w' = shown w ++ [img]
    /\ py_random w' = after_draws (3 * length (remove_dups ys)) (py_random w).
Proof.
  intros Hp.
  destruct (plot_returns _ _ _ _ Hp)
    as (ei & ys & color & layout & eps & img & Hei & Hy & Hcol & Hrest).
  pose proof (colour_of_each_inv _ _ _ Hcol) as Hall.
  destruct (colour_of_each_ok _ _ Hall) as (color' & Hcol' & Hlen & Hlook).
  rewrite Hcol in Hcol'. injection Hcol' as <-.
  rewrite colours_from_length in Hall.
  exists ei, ys, color, layout, eps, img.
  do 4 (split; [done|]). split; [exact Hlook|]. split; [|exact Hrest].
  intros i j Hi Hij. destruct (lookup_lt_is_Some_2 ys i Hi) as [c Hc].
  rewrite (Hlook i c Hc). rewrite Hc in Hij. by rewrite (Hlook j c).
Qed.

(** X21: when [plot] raises, nothing has been shown, and the files are as
    before unless the drawing was already saved: when it is [Image.open],
    [plt.subplots], [ax.imshow] or [plt.show] that raised, [outfile] has
    been written and stays. *)
Theorem plot_keeps_the_file_when_it_fails_after_saving (data : Data F)
    (outfile : string) (w w' : W) (e : Exn) :
  plot data outfile w = (w', Err e) ->
  shown w' = shown w
  /\ (files w' = files w
      \/ exists eps,
           files w' = <[outfile := PlotFile eps]> (files w)
           /\ (image_open eps = Err e
               \/ exists img,
                    image_open eps = Ok img
                    /\ (plt_subplots = Err e
                        \/ plt_subplots = Ok tt
                           /\ (ax_imshow img = Err e
                               \/ ax_imshow img = Ok tt /\ plt_show = Err e)))).
Proof.
  intros Hp. pose proof (plot_early data outfile w) as He.
  destruct (edge_index data) as [ei|] eqn:Hei.
  2:{ rewrite He in Hp. injection Hp as <- _. by split; [|left]. }
  destruct (forallb _ ei) eqn:Hvalid.
  2:{ rewrite He in Hp. injection Hp as <- _. by split; [|left]. }
  destruct (y data) as [ys|] eqn:Hy.
  2:{ rewrite He in Hp. injection Hp as <- _. by split; [|left]. }
  rewrite (plot_run _ _ _ _ _ Hei Hy Hvalid) in Hp. cbv zeta in Hp.
  destruct (colour_of_each _ ys) as [color|e1].
  2:{ injection Hp as <- _. by split; [|left]. }
  destruct (layout_auto _) as [layout|e1].
  2:{ injection Hp as <- _. by split; [|left]. }
  destruct (ig_draw _ layout) as [eps|e1].
  2:{ injection Hp as <- _. by split; [|left]. }
  destruct (image_open eps) as [img|e1] eqn:Ei.
  2:{ injection Hp as <- <-. split; [done|]. right. exists eps. split; [done|]. by left. }
  destruct plt_subplots as [[]|e1] eqn:Es.
  2:{ injection Hp as <- <-. split; [done|]. right. exists eps. split; [done|].
      right. exists img. split; [done|]. by left. }
  destruct (ax_imshow img) as [[]|e1] eqn:Ea.
  2:{ injection Hp as <- <-. split; [done|]. right. exists eps. split; [done|].
      right. exists img. split; [done|]. right. split; [done|]. by left. }
  destruct plt_show as [[]|e1] eqn:Eh; [done|].
  injection Hp as <- <-. split; [done|]. right. exists eps. split; [done|].
  right. exists img. split; [done|]. right. split; [done|]. right. by split.
Qed.

(** X22: [test] leaves the model it was given in evaluation mode, its
    encoder and decoder as they were, and ends as the metrics of the
    embedding of the training graph end: it returns their values or raises
    what they raise.  For the VGAE the embedding is the mean, and [__mu__]
    and [__logvar__] are set from this call.  The generator of torch is
    not used. *)
Theorem test_switches_to_evaluation_mode (D : Data F) (pos neg : EdgeIndex) (w : W) :
  test D gae_ref pos neg w
  = (set_gae (GAE_eval (gae w)) w,
     GAE_test (gae w) (GAE_encode (gae w) (x D) (train_pos_edge_index D)) pos neg)
  /\ (exists v,
        test D vgae_ref pos neg w
        = (set_vgae v w, GAE_test (super (vgae w)) (vgae_mean D (vgae w)) pos neg)
        /\ training (super v) = false
        /\ encoder (super v) = encoder (super (vgae w))
        /\ decoder (super v) = decoder (super (vgae w))
        /\ mu__ v = Some (vgae_mean D (vgae w))
        /\ logvar__ v = Some (vgae_logvar D (vgae w)))
  /\ rng (test D gae_ref pos neg w).1 = rng w
  /\ rng (test D vgae_ref pos neg w).1 = rng w.
Proof.
  split; [apply test_gae_run|]. rewrite test_vgae_run, test_gae_run.
  split; [|done]. by eexists.
Qed.

(** X23: an epoch of [train_vgae] on a graph with a vertex, whether it
    returns or raises at the metrics, leaves the VGAE in evaluation mode,
    since [test] switches to it and nothing switches back.  Started in
    evaluation mode, the epoch draws no noise: the generator is used for
    the negative sampling only, and the embedding trained on is the mean.
    Started in training mode it draws the noise first.  Hence after any
    positive number of epochs, all run or the last one cut short, the model
    is in evaluation mode, and all later epochs train on the mean. *)
Theorem train_vgae_draws_noise_only_in_training_mode (D : Data F) (epoch : nat)
    (locals : option F * option F) (w : W) :
  num_nodes D <> 0%nat ->
  let v := vgae w in
  let mean := vgae_mean D v in
  let logvar := vgae_logvar D v in
  (exists w' res,
      train_vgae_epoch D epoch locals w = (w', res)
      /\ training (super (vgae w')) = false
      /\ (training (super v) = false -> rng w' = after_sampling D mean (rng w))
      /\ (training (super v) = true ->
          let eps := (randn_like logvar (rng w)).1 in
          rng w' = after_sampling D (tzip fadd mean (tzip fmul eps (tmap fexp logvar)))
                                  (randn_like logvar (rng w)).2)
      /\ match res with
         | Ok (auc, ap) => exists a b, auc = Some a /\ ap = Some b
                                       /\ vgae_metrics D (vgae w') = Ok (a, b)
         | Err e => vgae_metrics D (vgae w') = Err e
         end)
  /\ (forall n, (1 <= n)%nat ->
        exists u res,
          for_each (seq 0 n) (train_vgae_epoch D) (None, None) w = (u, res)
          /\ training (super (vgae u)) = false).
Proof.
  intros Hn v mean logvar. split.
  - destruct (train_vgae_epoch_run D epoch locals w Hn)
      as (w1 & Ht & _ & Hr & _ & _ & _ & _ & _ & Hm).
    assert (Hrng : (training (super v) = false -> rng w1 = after_sampling D mean (rng w))
                   /\ (training (super v) = true ->
                       rng w1 = after_sampling D
                                  (tzip fadd mean
                                        (tzip fmul (randn_like logvar (rng w)).1
                                              (tmap fexp logvar)))
                                  (randn_like logvar (rng w)).2)).
    { rewrite Hr. unfold VGAE_reparametrize. fold v mean logvar.
      split; intros ->; [done|]. by destruct (randn_like logvar (rng w)). }
    destruct (vgae_metrics D (vgae w1)) as [[auc ap]|e] eqn:Em.
    + destruct Hm as (w' & Hrun & Hv & Hr' & _).
      exists w', (Ok (Some auc, Some ap)). split; [exact Hrun|].
      rewrite Hv, Hr'. split; [exact Ht|]. split; [apply Hrng|]. split; [apply Hrng|].
      by exists auc, ap.
    + exists w1, (Err e). split; [exact Hm|]. split; [exact Ht|].
      split; [apply Hrng|]. split; [apply Hrng|]. exact Em.
  - intros [|n] Hpos; [lia|].
    destruct (train_vgae_loop D (S n) w Hn)
      as [(locals' & u & Hrun & (_ & _ & _ & _ & _ & (auc & ap & loss & l & _ & _ & Ht & _)))
         |(k & e & u & _ & Hrun & _ & _ & Ht)].
    + by exists u, (Ok locals').
    + by exists u, (Err e).
Qed.

(** X24: on a graph with a vertex, [train_vgae] ends in one of two ways.
    It returns the metrics of its 200th epoch, having logged 200 times the
    tags loss, AUC and AP, in this order, for the steps 0 to 199, and
    printed the epochs 99 and 199; the metrics returned are the last two
    scalars logged and those of the model it leaves.  Or the metrics raise
    in an epoch [k] below 200, and [train_vgae] raises the same exception,
    the epochs before [k] logged in full and of epoch [k] the loss only.
    Either way the model is left in evaluation mode. *)
Theorem train_vgae_runs_200_epochs_unless_the_metrics_raise (D : Data F) (w : W) :
  num_nodes D <> 0%nat ->
  exists k v res,
    train_vgae D w = (v, res)
    /\ (k <= 200)%nat
    /\ log_index (logged (files v) (writer v))
       = log_index (logged (files w) (writer w))
         ++ flat_map epoch_log (seq 0 k)
         ++ (if (k <? 200)%nat then [("loss"%string, k)] else [])
    /\ epochs_printed (stdout v) = epochs_printed (stdout w) ++ printing_epochs k
    /\ training (super (vgae v)) = false
    /\ (k = 200%nat ->
        exists auc ap loss l,
          res = Ok (Some auc, Some ap)
          /\ epochs_printed (stdout v) = epochs_printed (stdout w) ++ [99; 199]%nat
          /\ logged (files v) (writer v)
             = l ++ [("loss"%string, loss, 199%nat); ("AUC"%string, auc, 199%nat);
                     ("AP"%string, ap, 199%nat)]
          /\ vgae_metrics D (vgae v) = Ok (auc, ap))
    /\ ((k < 200)%nat ->
        exists e, res = Err e /\ vgae_metrics D (vgae v) = Err e).
Proof.
  intros Hn.
  destruct (train_vgae_run D w Hn)
    as [(v & auc & ap & loss & l & Hrun & _ & _ & Hlog & Hout & _ & Hl & Hm & Ht)
       |(k & e & v & Hk & Hrun & (_ & _ & Hlog & Hout & _) & Hm & Ht)].
  - exists 200%nat, v, (Ok (Some auc, Some ap)). split; [exact Hrun|]. split; [lia|].
    rewrite Nat.ltb_irrefl, app_nil_r. split; [exact Hlog|].
    split; [rewrite Hout; f_equal|]. split; [exact Ht|]. split; [|lia].
    intros _. by exists auc, ap, loss, l.
  - exists k, v, (Err e). split; [exact Hrun|]. split; [lia|].
    destruct (Nat.ltb_spec k 200) as [_|]; [|lia]. split; [exact Hlog|].
    split; [exact Hout|]. split; [exact Ht|]. split; [lia|].
    intros _. by exists e.
Qed.

(** X25: on a graph without a vertex, [train_vgae] raises ZeroDivisionError
    in its first epoch, at [1 / data.num_nodes]: the banner is printed and
    the model has encoded (its [__mu__] and [__logvar__] are set), but no
    optimizer step was made and nothing was logged. *)
Theorem train_vgae_divides_by_the_number_of_nodes (D : Data F) (w : W) :
  num_nodes D = 0%nat ->
  exists v,
    train_vgae D w = (v, Err ZeroDivisionError)
    /\ stdout v = stdout w ++ [Banner "training vgae"]
    /\ files v = files w
    /\ vgae_optimizer v = vgae_optimizer w
    /\ encoder (super (vgae v)) = encoder (super (vgae w))
    /\ mu__ (vgae v) = Some (vgae_mean D (vgae w))
    /\ logvar__ (vgae v) = Some (vgae_logvar D (vgae w)).
Proof.
  intros Hn. unfold train_vgae. unfold bind at 1. unfold print at 1, modify at 1.
  change (range 200) with (0%nat :: seq 1 199). cbn [for_each].
  unfold train_vgae_epoch at 1.
  unfold bind at 1. unfold bind at 1. unfold gets at 1. unfold bind at 1. unfold gets at 1.
  rewrite vgae_losses_run. cbv zeta.
  unfold bind at 1. unfold modify at 1. unfold bind at 1. unfold modify at 1.
  unfold bind at 1. unfold lift at 1. unfold bind at 1. unfold lift at 1.
  unfold py_div. rewrite Hn. cbn [Z.of_nat Z.eqb].
  eexists. split; [reflexivity|]. world_simpl. repeat split; reflexivity.
Qed.

(** X26: an epoch of [train_gae] steps the optimizer on the loss computed
    with the encoder it started with and logs that loss first; the AUC and
    the AP are those of the encoder after the step.  When they have values
    the epoch logs them after the loss and returns them; when they raise,
    the epoch raises the same exception with the loss alone logged. *)
Theorem train_gae_logs_the_loss_of_the_parameters_before_the_step (D : Data F)
    (epoch : nat) (locals : option F * option F) (w : W) :
  let g := gae w in
  let step := adam_step_gae (gae_optimizer w) (encoder g)
                            (fun enc => (gae_loss D g (rng w) enc).1) in
  exists w' res,
    train_gae_epoch D epoch locals w = (w', res)
    /\ encoder (gae w') = step.2
    /\ gae_optimizer w' = step.1
    /\ match gae_metrics D (GAE_eval (with_encoder g step.2)) with
       | Ok (auc, ap) =>
           res = Ok (Some auc, Some ap)
           /\ logged (files w') (writer w')
              = logged (files w) (writer w)
                ++ [("loss"%string, (gae_loss D g (rng w) (encoder g)).1, epoch);
                    ("AUC"%string, auc, epoch); ("AP"%string, ap, epoch)]
       | Err e =>
           res = Err e
           /\ logged (files w') (writer w')
              = logged (files w) (writer w)
                ++ [("loss"%string, (gae_loss D g (rng w) (encoder g)).1, epoch)]
       end.
Proof.
  intros g step.
  destruct (train_gae_epoch_run D epoch locals w)
    as (w1 & Hg & Ho & _ & _ & Hl & _ & _ & _ & Hm).
  fold g step in Hg, Ho, Hl, Hm.
  destruct (gae_metrics D (GAE_eval (with_encoder g step.2))) as [[auc ap]|e].
  - destruct Hm as (w' & Hrun & Hg' & Ho' & _ & _ & Hl' & _).
    exists w', (Ok (Some auc, Some ap)). split; [exact Hrun|].
    rewrite Hg'. split; [done|]. split; [exact Ho'|]. by split.
  - exists w1, (Err e). split; [exact Hm|]. rewrite Hg. split; [done|].
    split; [exact Ho|]. by split.
Qed.

(** X27: when [train_gae] and then [train_vgae] both return, they have
    written to the one log directory of the one writer: the tags loss, AUC
    and AP for the steps 0 to 199, then the same tags for the same steps
    again; no other file is touched. *)
Theorem both_trainings_log_under_the_same_tags (D : Data F) (w u v : W)
    (r1 r2 : option F * option F) :
  train_gae D w = (u, Ok r1) -> train_vgae D u = (v, Ok r2) ->
  bind (train_gae D) (fun _ => train_vgae D) w = (v, Ok r2)
  /\ log_index (logged (files v) (writer v))
     = log_index (logged (files w) (writer w))
       ++ flat_map epoch_log (seq 0 200) ++ flat_map epoch_log (seq 0 200)
  /\ forall p, p <> writer w -> files v !! p = files w !! p.
Proof.
  intros Hrun Hrun'. rewrite (bind_ok _ _ _ _ _ Hrun). split; [exact Hrun'|].
  destruct (train_gae_run D w)
    as [(u' & auc & ap & loss & l & Hg & Hw & Hfr & Hlog & _)
       |(k & e & u' & _ & Hg & _)]; [|congruence].
  assert (u' = u) as -> by congruence.
  destruct (decide (num_nodes D = 0%nat)) as [Hz|Hn].
  { destruct (train_vgae_without_a_vertex D u Hz) as (v' & Hv & _). congruence. }
  destruct (train_vgae_run D u Hn)
    as [(v' & auc' & ap' & loss' & l' & Hv & Hw' & Hfr' & Hlog' & _)
       |(k & e & v' & _ & Hv & _)]; [|congruence].
  assert (v' = v) as -> by congruence.
  rewrite Hlog', Hlog, <- app_assoc. split; [done|].
  intros p Hp. rewrite Hfr' by congruence. by apply Hfr.
Qed.

End Notebook.

(** X19 on two vertices labelled 0 and 2. *)
Lemma plot_needs_labels_below_their_number_witness :
  exists w', plot (Sample.labelled [0; 2]%nat) "./graph.eps" Sample.world3
             = (w', Err IndexError)
             /\ files w' = files Sample.world3.
Proof.
  destruct (plot_needs_labels_below_their_number (Sample.labelled [0; 2]%nat) "./graph.eps"
              Sample.world3 [(0, 1)]%nat [0; 2]%nat 2%nat eq_refl eq_refl eq_refl
              ltac:(set_solver) ltac:(vm_compute; lia))
    as (w' & Hrun & _ & Hf & _).
  exists w'. exact (conj Hrun Hf).
Defined.

(** X20 on two vertices labelled 0 and 1. *)
Lemma plot_colours_vertices_by_class_witness :
  exists ys (color : list Colour),
    y (Sample.data (Some [(0, 1)]%nat)) = Some ys
    /\ Forall (fun c => (c < length (remove_dups ys))%nat) ys
    /\ length color = length ys.
Proof.
  assert (Hrun : plot (Sample.data (Some [(0, 1)]%nat)) "./graph.eps" Sample.world3
                 = ((plot (Sample.data (Some [(0, 1)]%nat)) "./graph.eps" Sample.world3).1,
                    Ok tt)) by (vm_compute; reflexivity).
  destruct (plot_colours_vertices_by_class _ _ _ _ Hrun)
    as (ei & ys & color & layout & eps & img & _ & Hy & Hall & Hlen & _).
  exists ys, color. exact (conj Hy (conj Hall Hlen)).
Defined.

(** X21 where the drawing is saved and matplotlib cannot render it: the
    file stays and nothing is shown. *)
Lemma plot_keeps_the_file_when_it_fails_after_saving_witness :
  exists w',
    plot (H1 := Sample.igraph_without_ghostscript) (Sample.data (Some [(0, 1)]%nat))
         "./graph.eps" Sample.world3
    = (w', Err (OSError "Unable to locate Ghostscript on paths"))
    /\ shown w' = shown Sample.world3.
Proof.
  assert (Hrun : plot (H1 := Sample.igraph_without_ghostscript)
                      (Sample.data (Some [(0, 1)]%nat)) "./graph.eps" Sample.world3
                 = ((plot (H1 := Sample.igraph_without_ghostscript)
                          (Sample.data (Some [(0, 1)]%nat)) "./graph.eps" Sample.world3).1,
                    Err (OSError "Unable to locate Ghostscript on paths")))
    by (vm_compute; reflexivity).
  eexists. split; [exact Hrun|].
  exact (proj1 (plot_keeps_the_file_when_it_fails_after_saving
                  (H1 := Sample.igraph_without_ghostscript) _ _ _ _ _ Hrun)).
Defined.

(** X23 on the sample graph, from the fresh world. *)
Lemma train_vgae_draws_noise_only_in_training_mode_witness :
  exists w' res,
    train_vgae_epoch (Sample.data None) 0 (None, None) Sample.world3 = (w', res)
    /\ training (super (vgae w')) = false.
Proof.
  destruct (train_vgae_draws_noise_only_in_training_mode (Sample.data None) 0 (None, None)
              Sample.world3 ltac:(discriminate))
    as [(w' & res & Hrun & Ht & _) _].
  exists w', res. exact (conj Hrun Ht).
Defined.

(** X24 on the sample graph. *)
Lemma train_vgae_runs_200_epochs_unless_the_metrics_raise_witness :
  exists k v res,
    train_vgae (Sample.data None) Sample.world3 = (v, res) /\ (k <= 200)%nat.
Proof.
  destruct (train_vgae_runs_200_epochs_unless_the_metrics_raise (Sample.data None)
              Sample.world3 ltac:(discriminate))
    as (k & v & res & Hrun & Hk & _).
  exists k, v, res. exact (conj Hrun Hk).
Defined.

(** X25 on the graph without a vertex. *)
Lemma train_vgae_divides_by_the_number_of_nodes_witness :
  exists v, train_vgae Sample.no_data Sample.world3 = (v, Err ZeroDivisionError)
            /\ files v = files Sample.world3.
Proof.
  destruct (train_vgae_divides_by_the_number_of_nodes Sample.no_data Sample.world3 eq_refl)
    as (v & Hrun & _ & Hf & _).
  exists v. exact (conj Hrun Hf).
Defined.

(** X27 on the sample graph, where both trainings return. *)
Lemma both_trainings_log_under_the_same_tags_witness :
  exists v res,
    bind (train_gae (Sample.data None)) (fun _ => train_vgae (Sample.data None)) Sample.world3
    = (v, Ok res)
    /\ log_index (logged (files v) (writer v))
       = flat_map epoch_log (seq 0 200) ++ flat_map epoch_log (seq 0 200).
Proof.
  set (u := (train_gae (Sample.data None) Sample.world3).1).
  assert (H1 : train_gae (Sample.data None) Sample.world3 = (u, Ok (Some 1, Some 0)))
    by (vm_compute; reflexivity).
  destruct (train_vgae (Sample.data None) u) as [v [r2|e]] eqn:H2;
    [|vm_compute in H2; discriminate].
  destruct (both_trainings_log_under_the_same_tags (Sample.data None) Sample.world3
              u v _ r2 H1 H2) as (Hrun & Hlog & _).
  exists v, r2. exact (conj Hrun Hlog).
Defined.

End B3Rest.
